(** * The shopping-cart state machine of the marketplace frontend

    Source files embedded here:
    - [frontend/src/context/CartContext.jsx]: [initialCartState] and
      [cartReducer], the reducer behind [useReducer], and the functions
      [addItem], [removeItem], [updateQuantity] and [clearCart] of
      [CartProvider];
    - [frontend/src/components/CartView.jsx]: the [totalPrice] fold, the
      rows of the table and the handlers of a row;
    - [frontend/src/components/ProductList.jsx]: [handleAddToCart];
    - [frontend/src/components/CheckoutForm.jsx]: [handleSubmit];
    - [frontend/src/services/apiService.js]: the checks [createOrder]
      makes before its request;
    - [backend/models/Order.js]: [arrayLimit] and the total computed by
      the pre-save hook.

    JavaScript numbers are IEEE 754 binary64 values; they are modelled by
    Rocq's primitive [float], so that [+], [*], [<], [<=], [NaN] and
    [Infinity] behave as they do in the browser.  Objects are finite maps
    from property names to values. *)

From Stdlib Require Import ZArith NArith Bool Lia Floats.
From stdpp Require Import base option list strings gmap fin_maps.

Set Warnings "-register-all".

(** ** JavaScript values *)

Module JS.

(** A value is a primitive or a plain data object (prototype
    [Object.prototype], string-keyed data properties). *)
Inductive val : Type :=
  | VUndef
  | VNull
  | VBool (b : bool)
  | VNum (n : float)
  | VStr (s : string)
  | VObj (props : gmap string val).

(** [o.k] on an object: [undefined] when the property is absent. *)
Definition get (o : gmap string val) (k : string) : val :=
  default VUndef (o !! k).

(** [v.k] on any value.  Reading a property of a primitive other than
    [null] and [undefined] goes through its wrapper, which has none of
    the data properties read by the cart code.  On [null] and
    [undefined] the access would raise; every such access in the source
    sits behind a [!v ||] guard, and this function is only applied to
    values that passed it or whose result is then irrelevant. *)
Definition get_prop (v : val) (k : string) : val :=
  match v with
  | VObj o => get o k
  | _ => VUndef
  end.

(** [v ?? d] *)
Definition nullish_or (v d : val) : val :=
  match v with
  | VUndef | VNull => d
  | _ => v
  end.

(** ToBoolean: the falsy values are [undefined], [null], [false], [+0],
    [-0], [NaN] and the empty string. *)
Definition truthy (v : val) : bool :=
  match v with
  | VUndef | VNull => false
  | VBool b => b
  | VNum n => negb (is_zero n || is_nan n)
  | VStr s => negb (String.eqb s "")
  | VObj _ => true
  end.

(** [typeof v === 'string'] and [typeof v === 'number'] *)
Definition typeof_string (v : val) : bool :=
  match v with VStr _ => true | _ => false end.

Definition typeof_number (v : val) : bool :=
  match v with VNum _ => true | _ => false end.

(** [v === s] for a string [s]: strict equality never converts, so only
    the same string compares equal. *)
Definition strict_eq_str (v : val) (s : string) : bool :=
  match v with
  | VStr s' => String.eqb s' s
  | _ => false
  end.

(** [typeof v !== 'string' || !v], evaluated left to right. *)
Definition not_nonempty_string (v : val) : bool :=
  negb (typeof_string v) || negb (truthy v).

(** [typeof v !== 'number' || isNaN(v)]; [isNaN] is only reached on a
    number, where it is the NaN test. *)
Definition not_a_number (v : val) : bool :=
  match v with
  | VNum n => is_nan n
  | _ => true
  end.

(** [typeof v !== 'number' || isNaN(v) || v < 0] *)
Definition not_nonneg_number (v : val) : bool :=
  match v with
  | VNum n => is_nan n || (n <? 0)%float
  | _ => true
  end.

(** [v + 1].  A number is incremented in binary64 arithmetic;
    [undefined] becomes [NaN], [null] counts as [0], a boolean as [0] or
    [1]; a string is concatenated with ["1"].  An object is first
    converted to a primitive: [Object.prototype.valueOf] returns the
    object itself, so the conversion falls to [toString], which yields
    ["[object Object]"] unless the object shadows it with an own data
    property (never callable here), in which case a [TypeError] is
    raised ([None]). *)
Definition plus_one (v : val) : option val :=
  match v with
  | VNum n => Some (VNum (n + 1)%float)
  | VUndef => Some (VNum nan)
  | VNull => Some (VNum 1%float)
  | VBool b => Some (VNum (if b then 2 else 1)%float)
  | VStr s => Some (VStr (s +:+ "1"))
  | VObj o =>
      match o !! "toString" with
      | Some _ => None
      | None => Some (VStr "[object Object]1")
      end
  end.

(** *** [Math.floor] and [Number.isInteger] on binary64 *)

(** The greatest integer not above [x], computed on the decoded
    sign/mantissa/exponent form.  NaN, the infinities and both zeros are
    returned as they are; a finite value with a non-negative exponent is
    already an integer; otherwise the mantissa is shifted right
    (rounding towards minus infinity) and the resulting integer, which
    has at most 53 bits, is converted back exactly.  A positive value
    below one gives [+0]. *)
Definition SFfloor (x : spec_float) : spec_float :=
  match x with
  | S754_finite s m e =>
      if (0 <=? e)%Z then x
      else binary_normalize prec emax
             (Z.shiftr (cond_Zopp s (Zpos m)) (- e)) 0 false
  | _ => x
  end.

Definition Math_floor (x : float) : float := SF2Prim (SFfloor (Prim2SF x)).

(** [Number.isInteger] on a number: finite, and equal to the floor of
    its absolute value (ECMAScript's IsIntegralNumber). *)
Definition isIntegralNumber (x : float) : bool :=
  is_finite x && (Math_floor (abs x) =? abs x)%float.

Definition Number_isInteger (v : val) : bool :=
  match v with
  | VNum n => isIntegralNumber n
  | _ => false
  end.

(** *** Array helpers *)

(** [arr.findIndex(f)]: the index of the first element satisfying [f],
    or [-1]. *)
Fixpoint findIndex_from {A} (f : A → bool) (i : Z) (l : list A) : Z :=
  match l with
  | [] => (-1)%Z
  | x :: l' => if f x then i else findIndex_from f (i + 1)%Z l'
  end.

Definition findIndex {A} (f : A → bool) (l : list A) : Z :=
  findIndex_from f 0%Z l.

(** [arr.map((x, index) => f(x, index))] *)
Fixpoint map_from {A B} (f : A → Z → B) (i : Z) (l : list A) : list B :=
  match l with
  | [] => []
  | x :: l' => f x i :: map_from f (i + 1)%Z l'
  end.

Definition Array_map {A B} (f : A → Z → B) (l : list A) : list B :=
  map_from f 0%Z l.

(** A [map] whose callback may raise: the first exception aborts the
    whole call. *)
Fixpoint all_or_throw {B} (l : list (option B)) : option (list B) :=
  match l with
  | [] => Some []
  | None :: _ => None
  | Some y :: l' =>
      match all_or_throw l' with
      | Some ys => Some (y :: ys)
      | None => None
      end
  end.

End JS.

Import JS.

(** ** The cart: state, actions, reducer *)

Module Cart.

(** CartItem objects are kept as the property maps the reducer builds
    with [{ ...item, quantity: 1 }]; nothing is assumed about the fields
    of an item beyond what the code checks. *)
Abbreviation CartItem := (gmap string val).

(** CartState: [storeId] is a string or [null] ([None]). *)
Record CartState : Type := {
  storeId : option string;
  items : list CartItem;
}.

Definition initialCartState : CartState :=
  {| storeId := None; items := [] |}.

(** A dispatched action: [{ type, payload }]; a missing payload is
    [undefined]. *)
Record Action : Type := {
  type : val;
  payload : val;
}.

(** What a [console.warn] call of the reducer reports. *)
Inductive diagnostic : Type :=
  | InvalidAddItem (payload : val)
  | StoreSwitched (newStore : string) (oldStore : option string)
  | InvalidRemoveItem (payload : val)
  | InvalidUpdateQuantity (payload : val)
  | UpdateNotFound (productId : string).

Inductive exn : Type :=
  | UnhandledActionType (type : val)
  | TypeError.

(** How a call of the reducer ends, keeping track of which object is
    returned: the very [state] it was given ([return state]), the
    module-level constant ([return initialCartState]), a newly built
    object literal, or an exception. *)
Inductive outcome : Type :=
  | Same
  | Initial
  | Fresh (s : CartState)
  | Throw (e : exn).

(** The [console.warn] calls made, in order, and the outcome. *)
Definition result : Type := list diagnostic * outcome.

(** [{ ...item, quantity: q }] *)
Definition with_quantity (item : CartItem) (q : val) : CartItem :=
  <["quantity" := q]> item.

(** [cartItem.productId === productId] *)
Definition has_id (productId : string) (cartItem : CartItem) : bool :=
  strict_eq_str (get cartItem "productId") productId.

(** The condition of the [if] that guards ADD_ITEM. *)
Definition invalid_add_item (item storeId : val) : bool :=
  negb (truthy item)
  || not_nonempty_string (get_prop item "productId")
  || not_nonempty_string (get_prop item "name")
  || not_nonneg_number (get_prop item "price")
  || not_nonempty_string storeId.

(** The condition of the [if] that guards UPDATE_QUANTITY. *)
Definition invalid_update_quantity (productId quantity : val) : bool :=
  not_nonempty_string productId || not_a_number quantity.

(** [state.storeId !== null && state.storeId !== storeId] *)
Definition other_store (state : CartState) (storeId' : string) : bool :=
  match storeId state with
  | Some current => negb (String.eqb current storeId')
  | None => false
  end.

Section Reducer.

(** [process.env.NODE_ENV === 'development'] *)
Variable dev : bool.

Definition case_ADD_ITEM (state : CartState) (action : Action) : result :=
  let p := nullish_or (payload action) (VObj ∅) in
  let item := get_prop p "item" in
  let storeId' := get_prop p "storeId" in
  if invalid_add_item item storeId' then
    ([InvalidAddItem (payload action)], Same)
  else
    match item, get_prop item "productId", storeId' with
    | VObj item, VStr productId, VStr storeId' =>
        if other_store state storeId' then
          (if dev then [StoreSwitched storeId' (storeId state)] else [],
           Fresh {| storeId := Some storeId';
                    items := [with_quantity item (VNum 1)] |})
        else
          let newStoreId :=
            match storeId state with
            | Some current => current
            | None => storeId'
            end in
          let existingItemIndex := findIndex (has_id productId) (items state) in
          if (0 <=? existingItemIndex)%Z then
            match
              all_or_throw
                (Array_map (λ cartItem index,
                   if (index =? existingItemIndex)%Z then
                     q ← plus_one (get cartItem "quantity");
                     Some (with_quantity cartItem q)
                   else Some cartItem) (items state))
            with
            | Some newItemsArray =>
                ([], Fresh {| storeId := Some newStoreId;
                              items := newItemsArray |})
            | None => ([], Throw TypeError)
            end
          else
            ([], Fresh {| storeId := Some newStoreId;
                          items := items state ++ [with_quantity item (VNum 1)] |})
    | _, _, _ =>
        (* not reached: a payload that passes the check has an object
           [item] with a string [productId] and a string [storeId]
           (lemma [valid_add_item_shape]) *)
        ([InvalidAddItem (payload action)], Same)
    end.

Definition case_REMOVE_ITEM (state : CartState) (action : Action) : result :=
  let p := nullish_or (payload action) (VObj ∅) in
  let productId := get_prop p "productId" in
  if not_nonempty_string productId then
    ([InvalidRemoveItem (payload action)], Same)
  else
    match productId with
    | VStr productId =>
        let newItems :=
          List.filter (λ item, negb (has_id productId item)) (items state) in
        if (length newItems =? 0)%nat then
          ([], Initial)
        else
          ([], Fresh {| storeId := storeId state; items := newItems |})
    | _ => ([InvalidRemoveItem (payload action)], Same) (* not reached *)
    end.

Definition case_UPDATE_QUANTITY (state : CartState) (action : Action) : result :=
  let p := nullish_or (payload action) (VObj ∅) in
  let productId := get_prop p "productId" in
  let quantity := get_prop p "quantity" in
  if invalid_update_quantity productId quantity then
    ([InvalidUpdateQuantity (payload action)], Same)
  else
    match productId, quantity with
    | VStr productId, VNum quantity =>
        let integerQuantity := Math_floor quantity in
        if (integerQuantity <=? 0)%float then
          let newItems :=
            List.filter (λ item, negb (has_id productId item)) (items state) in
          if (length newItems =? 0)%nat then
            ([], Initial)
          else
            ([], Fresh {| storeId := storeId state; items := newItems |})
        else
          let existingItemIndex := findIndex (has_id productId) (items state) in
          if (0 <=? existingItemIndex)%Z then
            ([], Fresh {| storeId := storeId state;
                          items :=
                            Array_map (λ item index,
                              if (index =? existingItemIndex)%Z then
                                with_quantity item (VNum integerQuantity)
                              else item) (items state) |})
          else
            (if dev then [UpdateNotFound productId] else [], Same)
    | _, _ => ([InvalidUpdateQuantity (payload action)], Same) (* not reached *)
    end.

(** [switch (action.type)]: the cases are compared with [===]. *)
Definition cartReducer (state : CartState) (action : Action) : result :=
  if strict_eq_str (type action) "ADD_ITEM" then case_ADD_ITEM state action
  else if strict_eq_str (type action) "REMOVE_ITEM" then case_REMOVE_ITEM state action
  else if strict_eq_str (type action) "UPDATE_QUANTITY" then case_UPDATE_QUANTITY state action
  else if strict_eq_str (type action) "CLEAR_CART" then ([], Initial)
  else ([], Throw (UnhandledActionType (type action))).

(** The state object held by [useReducer] after a call: [None] when
    the reducer raised. *)
Definition next_state (state : CartState) (o : outcome) : option CartState :=
  match o with
  | Same => Some state
  | Initial => Some initialCartState
  | Fresh s => Some s
  | Throw _ => None
  end.

Definition dispatch (state : CartState) (action : Action) : option CartState :=
  next_state state (snd (cartReducer state action)).

(** Dispatching a sequence of actions, one after the other. *)
Fixpoint dispatch_all (state : CartState) (actions : list Action) : option CartState :=
  match actions with
  | [] => Some state
  | a :: rest =>
      match dispatch state a with
      | Some state' => dispatch_all state' rest
      | None => None
      end
  end.


End Reducer.

(** The action objects built by the provider's [addItem], [removeItem],
    [updateQuantity] and [clearCart]. *)
Definition ADD_ITEM (item storeId : val) : Action :=
  {| type := VStr "ADD_ITEM";
     payload := VObj (<["item" := item]> (<["storeId" := storeId]> ∅)) |}.

Definition REMOVE_ITEM (productId : val) : Action :=
  {| type := VStr "REMOVE_ITEM";
     payload := VObj (<["productId" := productId]> ∅) |}.

Definition UPDATE_QUANTITY (productId quantity : val) : Action :=
  {| type := VStr "UPDATE_QUANTITY";
     payload := VObj (<["productId" := productId]> (<["quantity" := quantity]> ∅)) |}.

Definition CLEAR_CART : Action :=
  {| type := VStr "CLEAR_CART"; payload := VUndef |}.

End Cart.

(** ** The cart view: the grand total *)

Module CartView.

(** The two constants of the [items.reduce] callback: a price that is not
    a number or is NaN counts as [0], a quantity that is not an integer
    counts as [0]. *)
Definition price_of (item : Cart.CartItem) : float :=
  match get item "price" with
  | VNum p => if negb (is_nan p) then p else 0%float
  | _ => 0%float
  end.

Definition quantity_of (item : Cart.CartItem) : float :=
  match get item "quantity" with
  | VNum q => if isIntegralNumber q then q else 0%float
  | _ => 0%float
  end.

(** [items.reduce((sum, item) => sum + price * quantity, 0)] *)
Definition totalPrice (items : list Cart.CartItem) : float :=
  fold_left (λ sum item, (sum + price_of item * quantity_of item)%float)
    items 0%float.

End CartView.

(** ** Auxiliary notions for binary64 reasoning *)

Module Binary64.

(** [shl p z] is [p * 2 ^ z] for [z >= 0]. *)
Definition shl (p : positive) (z : Z) : positive :=
  match z with
  | Zpos k => Pos.iter xO p k
  | _ => p
  end.

(** The binary64 encoding of a positive integer below [2 ^ 53]: the
    mantissa is the integer shifted left until it fills 53 bits. *)
Definition encode_int (p : positive) : spec_float :=
  S754_finite false (shl p (53 - Zpos (digits2_pos p))) (Zpos (digits2_pos p) - 53).

(** The integer a binary64 value stands for, when it is one. *)
Definition SFint (x : spec_float) : option Z :=
  match x with
  | S754_zero _ => Some 0%Z
  | S754_finite s m e =>
      if (0 <=? e)%Z then Some (cond_Zopp s (Zpos m * 2 ^ e))
      else if (Zpos m mod 2 ^ (- e) =? 0)%Z
           then Some (cond_Zopp s (Zpos m / 2 ^ (- e)))
           else None
  | _ => None
  end.

(** The integer value of a JavaScript number, [None] when it is not an
    integer (a fraction, an infinity, NaN). *)
Definition int_value (x : float) : option Z := SFint (Prim2SF x).

(** Not NaN and not below zero. *)
Definition SFnonneg (x : spec_float) : bool := SFleb (S754_zero false) x.

(** The encoding of a non-zero integer of at most 53 bits, with its sign. *)
Definition encode_signed (s : bool) (p : positive) : spec_float :=
  S754_finite s (shl p (53 - Zpos (digits2_pos p))) (Zpos (digits2_pos p) - 53).

(** A quantity the reducer can store: a positive integer, or [Infinity]. *)
Definition whole (q : float) : Prop :=
  q = infinity ∨ ∃ n : Z, int_value q = Some n ∧ (1 <= n)%Z.

(** The quantity after the same product was added [p] times: the literal
    [1], then [quantity + 1] each time. *)
Definition count (p : positive) : float :=
  Pos.peano_rect (λ _, float) 1%float (λ _ q, (q + 1)%float) p.

End Binary64.

(** ** The contract: preconditions and sample data *)

Module Contract.
Import Cart.

(** The payload preconditions, in the words of the specification. *)
Definition nonempty_string (v : val) : Prop := ∃ s, v = VStr s ∧ s ≠ "".

Definition nonneg_number (v : val) : Prop :=
  ∃ p, v = VNum p ∧ (0 <=? p)%float = true.

(** A valid AddItem payload: [item] is an object whose [productId] and
    [name] are non-empty strings and whose [price] is a number [>= 0],
    and [storeId] is a non-empty string. *)
Record valid_add_payload (p : val) (item : gmap string val)
    (productId storeId' : string) : Prop := {
  add_item : get_prop p "item" = VObj item;
  add_productId : get item "productId" = VStr productId;
  add_productId_nonempty : productId ≠ "";
  add_name : nonempty_string (get item "name");
  add_price : nonneg_number (get item "price");
  add_storeId : get_prop p "storeId" = VStr storeId';
  add_storeId_nonempty : storeId' ≠ "";
}.

(** The malformed payloads of the specification. *)
Definition bad_price (v : val) : Prop :=
  (∀ n, v ≠ VNum n) ∨ ∃ n, v = VNum n ∧ (is_nan n = true ∨ (n <? 0)%float = true).

Definition bad_quantity (v : val) : Prop :=
  (∀ n, v ≠ VNum n) ∨ ∃ n, v = VNum n ∧ is_nan n = true.

(** ADD_ITEM: [item] is missing or not an object, or its [productId] or
    [name] is missing, empty or not a string, or its [price] is not a
    number, is NaN or is negative, or [storeId] is missing, empty or not
    a string. *)
Definition malformed_add (p : val) : Prop :=
  truthy (get_prop p "item") = false
  ∨ ¬ nonempty_string (get_prop (get_prop p "item") "productId")
  ∨ ¬ nonempty_string (get_prop (get_prop p "item") "name")
  ∨ bad_price (get_prop (get_prop p "item") "price")
  ∨ ¬ nonempty_string (get_prop p "storeId").

Definition malformed_remove (p : val) : Prop :=
  ¬ nonempty_string (get_prop p "productId").

Definition malformed_update (p : val) : Prop :=
  ¬ nonempty_string (get_prop p "productId") ∨ bad_quantity (get_prop p "quantity").

(** A positive integer quantity: [Number.isInteger(q)] and [0 < q]. *)
Definition positive_integer (q : float) : Prop :=
  isIntegralNumber q = true ∧ (0 <? q)%float = true.

(** An item as the data model describes it: [price] is a number [>= 0] and
    [quantity] is an integer [>= 1]. *)
Definition priced (item : CartItem) : Prop :=
  ∃ p q, get item "price" = VNum p ∧ (0 <=? p)%float = true
         ∧ get item "quantity" = VNum q
         ∧ isIntegralNumber q = true ∧ (1 <=? q)%float = true.

(** The four action types the reducer handles. *)
Definition known_action (a : Action) : Prop :=
  type a = VStr "ADD_ITEM" ∨ type a = VStr "REMOVE_ITEM"
  ∨ type a = VStr "UPDATE_QUANTITY" ∨ type a = VStr "CLEAR_CART".

(** What holds of every stored item: [productId] and [name] are non-empty
    strings, [price] is a number [>= 0], [quantity] is a positive integer
    or [Infinity]. *)
Definition stored_item (item : CartItem) : Prop :=
  nonempty_string (get item "productId")
  ∧ nonempty_string (get item "name")
  ∧ nonneg_number (get item "price")
  ∧ ∃ q, get item "quantity" = VNum q ∧ Binary64.whole q.

(** The [productId]s of a list of items, in order. *)
Definition ids (l : list CartItem) : list val :=
  map (λ item, get item "productId") l.

(** What holds of every state the reducer reaches from the empty cart. *)
Definition cart_invariant (state : CartState) : Prop :=
  (storeId state = None ↔ items state = [])
  ∧ Forall stored_item (items state)
  ∧ NoDup (ids (items state)).

(** Sample data used to instantiate the statements below. *)
Definition milk : gmap string val :=
  <["productId" := VStr "milk"]>
    (<["name" := VStr "Milk"]> (<["price" := VNum 30]> ∅)).

Definition soap : gmap string val :=
  <["productId" := VStr "soap"]>
    (<["name" := VStr "Soap"]> (<["price" := VNum 10]> ∅)).

Definition bread : gmap string val :=
  <["productId" := VStr "bread"]>
    (<["name" := VStr "Bread"]> (<["price" := VNum 25]> ∅)).

(** The payload offers milk under another name and price. *)
Definition milk_renamed : gmap string val :=
  <["productId" := VStr "milk"]>
    (<["name" := VStr "Oat drink"]> (<["price" := VNum 99]> ∅)).

(** A product whose price is [Infinity]. *)
Definition gold : gmap string val :=
  <["productId" := VStr "gold"]>
    (<["name" := VStr "Gold"]> (<["price" := VNum infinity]> ∅)).

End Contract.

(** ** The provider: the functions handed out by [useCart] *)

Module Provider.
Import Cart.

(** What a [console.error] call of the provider reports. *)
Inductive console_error : Type :=
  | InvalidItemOrStoreId (item storeId : val)
  | NegativeItemPrice (item : val)
  | InvalidProductId (productId : val)
  | InvalidProductIdOrQuantity (productId quantity : val).

(** Each function either reports an error and returns, or dispatches one
    action: the [console.error] calls made, and the action dispatched,
    if any. *)
Definition request : Type := list console_error * option Action.

(** The condition of the first [if] of [addItem]: unlike the reducer it
    does not look at whether [productId] or [name] is empty, nor at
    whether [price] is NaN. *)
Definition invalid_addItem_arguments (item storeId : val) : bool :=
  negb (truthy item)
  || negb (typeof_string (get_prop item "productId"))
  || negb (typeof_string (get_prop item "name"))
  || negb (typeof_number (get_prop item "price"))
  || not_nonempty_string storeId.

(** [item.price < 0]; it is evaluated after the first [if], where
    [item.price] is a number. *)
Definition price_below_zero (item : val) : bool :=
  match get_prop item "price" with
  | VNum p => (p <? 0)%float
  | _ => false
  end.

Definition addItem (item storeId : val) : request :=
  if invalid_addItem_arguments item storeId then
    ([InvalidItemOrStoreId item storeId], None)
  else if price_below_zero item then
    ([NegativeItemPrice item], None)
  else
    ([], Some (ADD_ITEM item storeId)).

Definition removeItem (productId : val) : request :=
  if not_nonempty_string productId then
    ([InvalidProductId productId], None)
  else
    ([], Some (REMOVE_ITEM productId)).

(** The condition of the [if] is, word for word, the one the reducer
    applies to the payload of UPDATE_QUANTITY. *)
Definition updateQuantity (productId quantity : val) : request :=
  if not_nonempty_string productId || not_a_number quantity then
    ([InvalidProductIdOrQuantity productId quantity], None)
  else
    ([], Some (UPDATE_QUANTITY productId quantity)).

Definition clearCart : request := ([], Some CLEAR_CART).

(** A call of one of the four functions by a consumer of the context. *)
Inductive call : Type :=
  | AddItem (item storeId : val)
  | RemoveItem (productId : val)
  | UpdateQuantity (productId quantity : val)
  | ClearCart.

Definition invoke (c : call) : request :=
  match c with
  | AddItem item storeId => addItem item storeId
  | RemoveItem productId => removeItem productId
  | UpdateQuantity productId quantity => updateQuantity productId quantity
  | ClearCart => clearCart
  end.

Section Hook.

Variable dev : bool.

(** The [console.warn] calls of the reducer run that a call causes. *)
Definition warnings (state : CartState) (c : call) : list diagnostic :=
  match snd (invoke c) with
  | Some action => fst (cartReducer dev state action)
  | None => []
  end.

(** The state held by [useReducer] after a call: the one before when
    nothing was dispatched, [None] when the reducer raised. *)
Definition perform (state : CartState) (c : call) : option CartState :=
  match snd (invoke c) with
  | Some action => dispatch dev state action
  | None => Some state
  end.

(** A sequence of calls, one after the other. *)
Fixpoint perform_all (state : CartState) (calls : list call) : option CartState :=
  match calls with
  | [] => Some state
  | c :: rest =>
      match perform state c with
      | Some state' => perform_all state' rest
      | None => None
      end
  end.

End Hook.

End Provider.

(** ** The cart view: rows and their handlers *)

Module CartTable.
Import Cart Provider.

(** What a table row shows: its React key, the name, and the three
    numbers before they are formatted with [toFixed(2)]. *)
Record row : Type := {
  row_key : val;
  row_name : val;
  itemPrice : float;
  itemQuantity : float;
  itemTotal : float;
}.

(** The callback of [items.map]: [itemPrice] and [itemQuantity] are
    computed by the same two expressions as in [totalPrice]; the name
    shown is [item.name || 'N/A']. *)
Definition row_of (item : CartItem) : row :=
  let itemPrice := CartView.price_of item in
  let itemQuantity := CartView.quantity_of item in
  {| row_key := get item "productId";
     row_name := if truthy (get item "name") then get item "name" else VStr "N/A";
     itemPrice := itemPrice;
     itemQuantity := itemQuantity;
     itemTotal := (itemPrice * itemQuantity)%float |}.

(** The [onChange] handler of a row's quantity input: a value that is
    not a number counts as [0]. *)
Definition onChange (item : CartItem) (value : val) : call :=
  let newQuantity := if typeof_number value then value else VNum 0 in
  UpdateQuantity (get item "productId") newQuantity.

(** The [onClick] handler of a row's remove button. *)
Definition onClick (item : CartItem) : call :=
  RemoveItem (get item "productId").

(** What the component renders: the "Cart Empty" alert, or the table
    with one row per item and the grand total. *)
Inductive view : Type :=
  | CartEmpty
  | Table (rows : list row) (grandTotal : float).

Definition render (items : list CartItem) : view :=
  if (length items =? 0)%nat then CartEmpty
  else Table (map row_of items) (CartView.totalPrice items).

End CartTable.

(** ** The product list: the "Add to Cart" handler *)

Module ProductList.
Import Cart Provider.

(** The development-only [console.warn] calls of the handler. *)
Inductive warning : Type :=
  | InvalidProduct (product : val)
  | InvalidStoreId (storeId : val).

(** [{ productId: _id, name: name, price: price }] *)
Definition cart_item (_id name price : val) : gmap string val :=
  <["productId" := _id]> (<["name" := name]> (<["price" := price]> ∅)).

(** [handleAddToCart(product)] for the [storeId] prop of the list: the
    warnings made, and the call of [addItem], if any. *)
Definition handleAddToCart (dev : bool) (storeId : val) (product : val)
    : list warning * option call :=
  let p := if truthy product then product else VObj ∅ in
  let _id := get_prop p "_id" in
  let name := get_prop p "name" in
  let price := get_prop p "price" in
  if not_nonempty_string _id || not_nonempty_string name || not_nonneg_number price then
    (if dev then [InvalidProduct product] else [], None)
  else if not_nonempty_string storeId then
    (if dev then [InvalidStoreId storeId] else [], None)
  else
    ([], Some (AddItem (VObj (cart_item _id name price)) storeId)).

End ProductList.

(** ** The order model: the total computed before saving *)

Module Order.






End Order.

(** ** Checkout: the order payload, its validation, the submit handler *)

Module Checkout.
Import Cart Provider.

(** The callback of [items.map] in [handleSubmit]. *)
Definition order_item (item : CartItem) : val :=
  VObj (<["productId" := get item "productId"]>
          (<["name" := get item "name"]>
             (<["price" := get item "price"]>
                (<["quantity" := get item "quantity"]> ∅)))).

(** An [orderData] object whose [items] is an array, which is what
    [handleSubmit] builds; on such an object the tests [!orderData],
    [typeof orderData !== 'object'] and [!Array.isArray(orderData.items)]
    of [createOrder] are false. *)
Record OrderPayload : Type := {
  order_storeId : val;
  customerDetails : val;
  order_items : list val;
}.

(** [typeof v === 'object'], which also holds of [null]. *)
Definition typeof_object (v : val) : bool :=
  match v with VObj _ | VNull => true | _ => false end.

(** The first [if] of [createOrder]. *)
Definition invalid_order_structure (orderData : OrderPayload) : bool :=
  not_nonempty_string (order_storeId orderData)
  || negb (typeof_object (customerDetails orderData))
  || negb (truthy (customerDetails orderData))
  || not_nonempty_string (get_prop (customerDetails orderData) "name")
  || not_nonempty_string (get_prop (customerDetails orderData) "phone")
  || not_nonempty_string (get_prop (customerDetails orderData) "address")
  || (length (order_items orderData) =? 0)%nat.

(** [item.quantity < 1], evaluated after [Number.isInteger(item.quantity)]. *)
Definition quantity_below_one (quantity : val) : bool :=
  match quantity with
  | VNum q => (q <? 1)%float
  | _ => false
  end.

(** The callback of [orderData.items.find]; reading a property of
    [undefined] or [null] raises a TypeError ([None]). *)
Definition invalid_order_item (item : val) : option bool :=
  match item with
  | VUndef | VNull => None
  | _ =>
      Some (not_nonempty_string (get_prop item "productId")
            || not_nonempty_string (get_prop item "name")
            || not_nonneg_number (get_prop item "price")
            || negb (typeof_number (get_prop item "quantity"))
            || negb (Number_isInteger (get_prop item "quantity"))
            || quantity_below_one (get_prop item "quantity"))
  end.

(** [arr.find(f)] for a callback that may raise: the first element
    satisfying [f], [undefined] when there is none. *)
Fixpoint find_or_throw (f : val → option bool) (l : list val) : option val :=
  match l with
  | [] => Some VUndef
  | x :: l' =>
      match f x with
      | None => None
      | Some true => Some x
      | Some false => find_or_throw f l'
      end
  end.

(** Why [createOrder] rejects before any request is made. *)
Inductive order_error : Type :=
  | InvalidOrderDataStructure
  | InvalidItemStructure (invalidItem : val)
  | ItemTypeError.

(** The checks of [createOrder] that precede the request: [None] when
    they pass.  The item found is tested with [if (invalidItem)]. *)
Definition validate_order (orderData : OrderPayload) : option order_error :=
  if invalid_order_structure orderData then Some InvalidOrderDataStructure
  else
    match find_or_throw invalid_order_item (order_items orderData) with
    | None => Some ItemTypeError
    | Some invalidItem =>
        if truthy invalidItem then Some (InvalidItemStructure invalidItem)
        else None
    end.

(** The notification [handleSubmit] shows. *)
Inductive notification : Type :=
  | CannotPlaceOrder
  | OrderPlaced
  | OrderFailed.

(** The values of the form. *)
Record FormValues : Type := {
  name : string;
  phone : string;
  address : string;
}.

(** What a submission does: the notification shown, the payload posted
    to [/api/orders], if any, and the call made on the cart, if any. *)
Record submission : Type := {
  shown : notification;
  posted : option OrderPayload;
  cart_call : option call;
}.

(** [storeId] of the context as a value: [null] or a string. *)
Definition storeId_value (state : CartState) : val :=
  match storeId state with
  | Some s => VStr s
  | None => VNull
  end.

Section Submit.

(** [String.prototype.trim] *)
Variable trim : string → string.

(** Whether the request [POST /api/orders] with a given payload
    succeeds. *)
Variable post : OrderPayload → bool.

(** The payload built by [handleSubmit]. *)
Definition orderData (state : CartState) (values : FormValues) : OrderPayload :=
  {| order_storeId := storeId_value state;
     customerDetails :=
       VObj (<["name" := VStr (trim (name values))]>
               (<["phone" := VStr (trim (phone values))]>
                  (<["address" := VStr (trim (address values))]> ∅)));
     order_items := map order_item (items state) |}.

(** [handleSubmit(values)]: the [await createOrder(orderData)] either
    rejects in its validation, before any request, or makes the request;
    [clearCart()] is called on success only. *)
Definition handleSubmit (state : CartState) (values : FormValues) : submission :=
  if (length (items state) =? 0)%nat || negb (truthy (storeId_value state)) then
    {| shown := CannotPlaceOrder; posted := None; cart_call := None |}
  else
    let orderData := orderData state values in
    match validate_order orderData with
    | Some _ => {| shown := OrderFailed; posted := None; cart_call := None |}
    | None =>
        if post orderData then
          {| shown := OrderPlaced; posted := Some orderData;
             cart_call := Some ClearCart |}
        else
          {| shown := OrderFailed; posted := Some orderData; cart_call := None |}
    end.

End Submit.

(** The cart after a submission: [clearCart()] goes through the
    provider. *)
Definition cart_after (dev : bool) (state : CartState) (s : submission)
    : option CartState :=
  match cart_call s with
  | Some c => perform dev state c
  | None => Some state
  end.

End Checkout.

(** ** Notions used to state how actions compose *)

Module Laws.
Import Cart.

(** The items of a list that do not carry a given [productId], in order. *)
Definition others (productId : string) (l : list CartItem) : list CartItem :=
  List.filter (λ item, negb (has_id productId item)) l.

(** An action that concerns the product [productId] and does not switch
    the cart to another store: REMOVE_ITEM or UPDATE_QUANTITY with that
    [productId], or ADD_ITEM of an item with that [productId] whose
    [storeId], when it is a string, is not that of another store. *)
Definition concerns (state : CartState) (a : Action) (productId : string) : Prop :=
  (type a = VStr "REMOVE_ITEM"
   ∧ get_prop (payload a) "productId" = VStr productId)
  ∨ (type a = VStr "UPDATE_QUANTITY"
     ∧ get_prop (payload a) "productId" = VStr productId)
  ∨ (type a = VStr "ADD_ITEM"
     ∧ get_prop (get_prop (payload a) "item") "productId" = VStr productId
     ∧ ∀ sid, get_prop (payload a) "storeId" = VStr sid →
              other_store state sid = false).

(** An item whose price and quantity are both [Infinity]. *)
Definition unbounded (item : CartItem) : Prop :=
  get item "price" = VNum infinity ∧ get item "quantity" = VNum infinity.

(** The cart once the items [rest] are all that is left of it: the
    empty cart when nothing is left. *)
Definition after_removal (state : CartState) (rest : list CartItem) : CartState :=
  if (length rest =? 0)%nat then initialCartState
  else {| storeId := storeId state; items := rest |}.

(** What a row of the cart table shows of a stored item: its
    [productId] as key, its name, its price, and its quantity, except
    that the quantity [Infinity] is shown as [0]. *)
Definition shows (item : CartItem) (r : CartTable.row) : Prop :=
  CartTable.row_key r = get item "productId"
  ∧ Contract.nonempty_string (CartTable.row_key r)
  ∧ CartTable.row_name r = get item "name"
  ∧ get item "price" = VNum (CartTable.itemPrice r)
  ∧ (0 <=? CartTable.itemPrice r)%float = true
  ∧ (get item "quantity" = VNum (CartTable.itemQuantity r)
     ∧ (1 <=? CartTable.itemQuantity r)%float = true
     ∨ get item "quantity" = VNum infinity
       ∧ CartTable.itemQuantity r = 0%float)
  ∧ CartTable.itemTotal r
    = (CartTable.itemPrice r * CartTable.itemQuantity r)%float.

(** An action that removes or updates the product [productId]. *)
Definition targets (a : Action) (productId : string) : Prop :=
  (type a = VStr "REMOVE_ITEM" ∨ type a = VStr "UPDATE_QUANTITY")
  ∧ get_prop (payload a) "productId" = VStr productId.

(** The list where the first item with a given [productId], if any, has
    got the quantity [q]: what the [findIndex] and [map] of
    UPDATE_QUANTITY compute together. *)
Fixpoint set_first (productId : string) (q : val) (l : list CartItem)
    : list CartItem :=
  match l with
  | [] => []
  | x :: l' =>
      if has_id productId x then with_quantity x q :: l'
      else x :: set_first productId q l'
  end.

(** What REMOVE_ITEM and UPDATE_QUANTITY come down to: nothing, the
    removal of a product, or a new quantity for a product. *)
Inductive effect : Type :=
  | Keep
  | Delete (productId : string)
  | SetQuantity (productId : string) (q : float).

Definition effect_of (a : Action) : effect :=
  match get_prop (payload a) "productId" with
  | VStr productId =>
      if String.eqb productId "" then Keep
      else if strict_eq_str (type a) "REMOVE_ITEM" then Delete productId
      else
        match get_prop (payload a) "quantity" with
        | VNum q =>
            if is_nan q then Keep
            else if (Math_floor q <=? 0)%float then Delete productId
            else SetQuantity productId (Math_floor q)
        | _ => Keep
        end
  | _ => Keep
  end.

Definition apply_effect (e : effect) (state : CartState) : CartState :=
  match e with
  | Keep => state
  | Delete productId => after_removal state (others productId (items state))
  | SetQuantity productId q =>
      {| storeId := storeId state;
         items := set_first productId (VNum q) (items state) |}
  end.

(** The product an effect is about. *)
Definition effect_product (e : effect) : option string :=
  match e with
  | Keep => None
  | Delete productId | SetQuantity productId _ => Some productId
  end.

End Laws.

(** ** Sample data for the provider and its callers *)

Module Samples.
Import Cart.

(** A stored entry with a negative price: [{ price: -5, quantity: 2 }]. *)
Definition refund : gmap string val :=
  <["productId" := VStr "refund"]>
    (<["name" := VStr "Refund"]>
       (<["price" := VNum (-5)]> (<["quantity" := VNum 2]> ∅))).

(** An item whose [productId] is the empty string. *)
Definition unlabelled : gmap string val :=
  <["productId" := VStr ""]>
    (<["name" := VStr "Milk"]> (<["price" := VNum 30]> ∅)).

(** A cart of store A holding milk and bread. *)
Definition milk_and_bread : CartState :=
  {| storeId := Some "storeA";
     items := [with_quantity Contract.milk (VNum 2);
               with_quantity Contract.bread (VNum 1)] |}.

(** A cart whose only item has the quantity [Infinity]. *)
Definition endless_milk : CartState :=
  {| storeId := Some "storeA";
     items := [with_quantity Contract.milk (VNum infinity)] |}.

(** A cart whose only item has the price [Infinity] and the quantity
    [Infinity]. *)
Definition endless_gold : CartState :=
  {| storeId := Some "storeA";
     items := [with_quantity Contract.gold (VNum infinity)] |}.

(** A product as the store page lists it. *)
Definition butter : val :=
  VObj (<["_id" := VStr "butter"]>
          (<["name" := VStr "Butter"]>
             (<["price" := VNum 55]> (<["stock" := VNum 4]> ∅)))).

(** The values of a filled-in checkout form. *)
Definition customer : Checkout.FormValues :=
  {| Checkout.name := "Asha"; Checkout.phone := "9876543210";
     Checkout.address := "12 Lodhi Road" |}.

(** An order whose first item is the number [0] and whose second item
    has a negative price and a fractional quantity. *)
Definition masked_order : Checkout.OrderPayload :=
  {| Checkout.order_storeId := VStr "storeA";
     Checkout.customerDetails :=
       VObj (<["name" := VStr "Asha"]>
               (<["phone" := VStr "9876543210"]>
                  (<["address" := VStr "12 Lodhi Road"]> ∅)));
     Checkout.order_items :=
       [VNum 0;
        VObj (<["productId" := VStr "milk"]>
                (<["name" := VStr "Milk"]>
                   (<["price" := VNum (-5)]> (<["quantity" := VNum 0.5]> ∅))))] |}.

End Samples.

(** ** Facts about binary64 comparisons *)

Module FloatFacts.
Import Binary64.

Lemma Prim2SF_zero : Prim2SF 0%float = S754_zero false.
Proof. reflexivity. Qed.

Lemma SFeqb_refl (x : spec_float) :
  SFeqb x x = match x with S754_nan => false | _ => true end.
Proof.
  unfold SFeqb.
  destruct x as [s|s| |s m e]; try destruct s; simpl; trivial;
    rewrite Z.compare_refl, Pos.compare_cont_refl; reflexivity.
Qed.

Lemma is_nan_spec (x : float) :
  is_nan x = true ↔ Prim2SF x = S754_nan.
Proof.
  unfold is_nan. rewrite FloatAxioms.eqb_spec, SFeqb_refl.
  destruct (Prim2SF x); simpl; split; congruence.
Qed.

Lemma is_nan_false (x : float) :
  is_nan x = false ↔ Prim2SF x ≠ S754_nan.
Proof.
  rewrite <- is_nan_spec. destruct (is_nan x); split; congruence.
Qed.

(** [0 <= p] holds exactly when [p] is neither NaN nor below zero, which
    is how the reducer tests a price. *)
Lemma nonneg_iff (p : float) :
  (0 <=? p)%float = true ↔ is_nan p = false ∧ (p <? 0)%float = false.
Proof.
  rewrite is_nan_false, FloatAxioms.leb_spec, FloatAxioms.ltb_spec, Prim2SF_zero.
  unfold SFleb, SFltb.
  destruct (Prim2SF p) as [s|s| |s m e]; try destruct s; simpl;
    (split;
     [ intros H; first [discriminate H | split; congruence]
     | intros [H1 H2]; congruence ]).
Qed.

Lemma Math_floor_nan (q : float) :
  is_nan q = true → Math_floor q = nan.
Proof.
  intros H. apply is_nan_spec in H. unfold Math_floor. rewrite H. reflexivity.
Qed.

(** A quantity whose floor compares [<= 0] is not NaN. *)
Lemma floor_le_zero_not_nan (q : float) :
  (Math_floor q <=? 0)%float = true → is_nan q = false.
Proof.
  intros H. destruct (is_nan q) eqn:E; trivial.
  rewrite (Math_floor_nan _ E) in H. discriminate H.
Qed.

Lemma floor_gt_zero_not_nan (q : float) :
  (0 <? Math_floor q)%float = true → is_nan q = false.
Proof.
  intros H. destruct (is_nan q) eqn:E; trivial.
  rewrite (Math_floor_nan _ E) in H. discriminate H.
Qed.

(** [0 < x] excludes [x <= 0]. *)
Lemma pos_not_le_zero (x : float) :
  (0 <? x)%float = true → (x <=? 0)%float = false.
Proof.
  rewrite FloatAxioms.leb_spec, FloatAxioms.ltb_spec, Prim2SF_zero. unfold SFleb, SFltb.
  destruct (Prim2SF x) as [s|s| |s m e]; try destruct s; simpl; congruence.
Qed.

(** Sample values of [Math.floor] and [Number.isInteger]. *)
Example Math_floor_samples :
  Math_floor 2.5 = 2%float ∧ Math_floor (-2.5) = (-3)%float
  ∧ Math_floor 0.5 = 0%float ∧ Math_floor (-0.5) = (-1)%float
  ∧ Math_floor 7 = 7%float ∧ Math_floor (-0) = (-0)%float
  ∧ Math_floor 0x1p-1074 = 0%float
  ∧ Math_floor 4503599627370495.5 = 4503599627370495%float
  ∧ Math_floor 0x1p1000 = 0x1p1000%float
  ∧ Math_floor infinity = infinity ∧ Math_floor neg_infinity = neg_infinity
  ∧ Math_floor nan = nan.
Proof. repeat split; reflexivity. Qed.

Example Number_isInteger_samples :
  Number_isInteger (VNum 3) = true ∧ Number_isInteger (VNum (-0)) = true
  ∧ Number_isInteger (VNum 0x1p1000) = true
  ∧ Number_isInteger (VNum 2.5) = false
  ∧ Number_isInteger (VNum infinity) = false
  ∧ Number_isInteger (VNum nan) = false
  ∧ Number_isInteger (VStr "3") = false
  ∧ Number_isInteger VUndef = false.
Proof. repeat split; reflexivity. Qed.

(** *** Iterated shifts *)

Lemma iter_pos_comm {A} (f : A → A) (k : positive) (x : A) :
  SpecFloat.iter_pos f k (f x) = f (SpecFloat.iter_pos f k x).
Proof.
  revert x. induction k as [k IH|k IH|]; intros x; simpl.
  - by rewrite !IH.
  - by rewrite !IH.
  - reflexivity.
Qed.

Lemma iter_pos_succ {A} (f : A → A) (k : positive) (x : A) :
  SpecFloat.iter_pos f (Pos.succ k) x = SpecFloat.iter_pos f k (f x).
Proof.
  revert x. induction k as [k IH|k IH|]; intros x; simpl.
  - rewrite !IH. by rewrite <- iter_pos_comm.
  - reflexivity.
  - reflexivity.
Qed.

Lemma iter_pos_invariant {A} (P : A → Prop) (f : A → A) (k : positive) (x : A) :
  (∀ y, P y → P (f y)) → P x → P (SpecFloat.iter_pos f k x).
Proof.
  intros Hf. revert x. induction k as [k IH|k IH|]; intros x Hx; simpl; auto.
Qed.

Lemma shl_succ (p : positive) (z : Z) :
  (0 <= z)%Z → shl p (Z.succ z) = xO (shl p z).
Proof.
  intros Hz. destruct z as [|k|k]; [reflexivity | | lia].
  simpl. rewrite Pos.add_1_r. apply Pos.iter_succ.
Qed.

Lemma shl_nonneg_ind (P : Z → Prop) :
  P 0%Z → (∀ z, (0 <= z)%Z → P z → P (Z.succ z)) → ∀ z, (0 <= z)%Z → P z.
Proof. intros H0 HS z Hz. by apply natlike_ind. Qed.

Lemma shl_value (p : positive) (z : Z) :
  (0 <= z)%Z → Zpos (shl p z) = (Zpos p * 2 ^ z)%Z.
Proof.
  revert z. apply shl_nonneg_ind.
  - simpl. lia.
  - intros z Hz IH. rewrite shl_succ, Z.pow_succ_r by done.
    rewrite Pos2Z.inj_xO, IH. lia.
Qed.

Lemma shl_digits (p : positive) (z : Z) :
  (0 <= z)%Z → Zpos (digits2_pos (shl p z)) = (Zpos (digits2_pos p) + z)%Z.
Proof.
  revert z. apply shl_nonneg_ind.
  - simpl. lia.
  - intros z Hz IH. rewrite shl_succ by done. simpl. lia.
Qed.

Lemma shl_shl (p : positive) (a b : Z) :
  (0 <= a)%Z → (0 <= b)%Z → shl (shl p a) b = shl p (a + b).
Proof.
  intros Ha. revert b. apply shl_nonneg_ind.
  - by rewrite Z.add_0_r.
  - intros b Hb IH. rewrite Z.add_succ_r, !shl_succ by lia. by rewrite IH.
Qed.

Lemma shl_align_shl (m : positive) (e e' : Z) :
  shl_align m e e' = (shl m (e - e'), Z.min e e').
Proof.
  unfold shl_align.
  destruct (e' - e)%Z as [|d|d] eqn:E.
  - replace (e - e')%Z with 0%Z by lia. simpl. f_equal. lia.
  - replace (e - e')%Z with (Zneg d) by lia. simpl. f_equal. lia.
  - replace (e - e')%Z with (Zpos d) by lia. simpl. f_equal. lia.
Qed.

(** Shifting right the bits that a left shift put in loses nothing. *)
Lemma shr_shl (q : positive) (e j : Z) :
  (0 <= j)%Z →
  shr {| shr_m := Zpos (shl q j); shr_r := false; shr_s := false |} e j
  = ({| shr_m := Zpos q; shr_r := false; shr_s := false |}, (e + j)%Z).
Proof.
  intros Hj. destruct j as [|k|k]; [simpl; f_equal; lia | | lia].
  unfold shr. f_equal. clear Hj. simpl.
  induction k as [|k IH] using Pos.peano_ind.
  - reflexivity.
  - rewrite Pos.iter_succ, iter_pos_succ. simpl. exact IH.
Qed.


Lemma fexp_normal (x : Z) : (-1021 <= x)%Z → fexp prec emax x = (x - 53)%Z.
Proof. unfold fexp, SpecFloat.emin, prec, emax. lia. Qed.

(** Rounding a mantissa that is a 53-bit number followed by [j] zero bits
    is exact. *)
Lemma round_aux_exact (sx : bool) (q : positive) (e j : Z) :
  Zpos (digits2_pos q) = 53%Z → (0 <= j)%Z → (-1074 <= e + j <= 971)%Z →
  binary_round_aux prec emax sx (Zpos (shl q j)) e loc_Exact
  = S754_finite sx q (e + j).
Proof.
  intros Hq Hj He. unfold binary_round_aux, shr_fexp.
  unfold Zdigits2 at 1. rewrite shl_digits, Hq by done.
  rewrite fexp_normal by lia.
  replace (53 + j + e - 53 - e)%Z with j by lia.
  cbn [shr_record_of_loc]. rewrite shr_shl by done.
  cbn [shr_m loc_of_shr_record round_nearest_even Zdigits2]. rewrite Hq.
  rewrite fexp_normal by lia.
  replace (53 + (e + j) - 53 - (e + j))%Z with 0%Z by lia.
  cbn [shr shr_record_of_loc shr_m].
  replace (e + j <=? emax - prec)%Z with true; [done |].
  symmetry. apply Z.leb_le. unfold emax, prec. lia.
Qed.

Lemma digits2_pos_le (p q : positive) :
  (p <= q)%positive → (digits2_pos p <= digits2_pos q)%positive.
Proof.
  revert q. induction p as [p IH|p IH|]; intros [q|q|] H; simpl; try lia.
  - specialize (IH q). lia.
  - specialize (IH q). lia.
  - specialize (IH q). lia.
  - specialize (IH q). lia.
Qed.

(** Normalising [p * 2 ^ k] scaled by [2 ^ -k] gives the encoding of [p],
    when [k] is large enough for no left shift to be needed. *)
Lemma normalize_shifted (p : positive) (k : Z) :
  (Zpos (digits2_pos p) <= 53)%Z →
  (53 - Zpos (digits2_pos p) <= k <= 1000)%Z →
  binary_normalize prec emax (Zpos (shl p k)) (- k) false = encode_int p.
Proof.
  intros Hd Hk. unfold binary_normalize, binary_round.
  rewrite shl_digits by lia.
  rewrite shl_align_shl.
  rewrite fexp_normal by lia.
  replace (- k - (Z.pos (digits2_pos p) + k + - k - 53))%Z
    with (- (Zpos (digits2_pos p) + k - 53))%Z by lia.
  replace (shl (shl p k) (- (Zpos (digits2_pos p) + k - 53))) with (shl p k)
    by (destruct (Zpos (digits2_pos p) + k - 53)%Z eqn:E; [done | done | lia]).
  rewrite Z.min_l by lia.
  replace (shl p k) with (shl (shl p (53 - Zpos (digits2_pos p)))
                              (k - (53 - Zpos (digits2_pos p))))
    by (rewrite shl_shl by lia; f_equal; lia).
  rewrite round_aux_exact.
  - unfold encode_int. f_equal. lia.
  - rewrite shl_digits by lia. lia.
  - lia.
  - lia.
Qed.

Lemma encode_int_one : encode_int 1 = Prim2SF 1%float.
Proof. reflexivity. Qed.

(** Adding one to an encoded integer gives the encoding of its
    successor, as long as that still fits in 53 bits. *)
Lemma add_one_exact (p : positive) :
  (Zpos (digits2_pos (p + 1)) <= 53)%Z →
  SF64add (encode_int p) (encode_int 1) = encode_int (p + 1).
Proof.
  intros Hd.
  assert (Zpos (digits2_pos p) <= Zpos (digits2_pos (p + 1)))%Z as Hle
    by (pose proof (digits2_pos_le p (p + 1)); lia).
  assert (1 <= Zpos (digits2_pos p))%Z as H1 by lia.
  assert (2 <= Zpos (digits2_pos (p + 1)))%Z as H2.
  { pose proof (digits2_pos_le 2 (p + 1)). simpl in *. lia. }
  change (encode_int 1) with (S754_finite false 4503599627370496 (-52)).
  unfold SF64add, SFadd. unfold encode_int at 1.
  rewrite !shl_align_shl. cbn [fst cond_Zopp].
  rewrite (Z.min_r _ (-52)) by lia.
  rewrite shl_shl by lia.
  replace (53 - Zpos (digits2_pos p) + (Zpos (digits2_pos p) - 53 - -52))%Z
    with 52%Z by lia.
  replace (-52 - -52)%Z with 0%Z by lia. cbn [shl].
  replace (Zpos (shl p 52) + 4503599627370496)%Z with (Zpos (shl (p + 1) 52)).
  - apply (normalize_shifted (p + 1) 52); lia.
  - rewrite !shl_value by lia. change (2 ^ 52)%Z with 4503599627370496%Z. lia.
Qed.

Lemma SFint_encode_int (p : positive) :
  (Zpos (digits2_pos p) <= 53)%Z → SFint (encode_int p) = Some (Zpos p).
Proof.
  intros Hd. unfold encode_int, SFint.
  rewrite shl_value by lia.
  destruct (Z.leb_spec 0 (Zpos (digits2_pos p) - 53)) as [H | H].
  - replace (Zpos (digits2_pos p) - 53)%Z with 0%Z by lia.
    replace (53 - Zpos (digits2_pos p))%Z with 0%Z by lia.
    simpl. f_equal. lia.
  - replace (- (Zpos (digits2_pos p) - 53))%Z with (53 - Zpos (digits2_pos p))%Z by lia.
    rewrite Z.mod_mul by lia. simpl.
    rewrite Z.div_mul by lia. reflexivity.
Qed.


Lemma digits2_pos_size (p : positive) : digits2_pos p = Pos.size p.
Proof. induction p; simpl; congruence. Qed.

Lemma digits_bound (p : positive) :
  (Zpos p < 2 ^ 53)%Z → (Zpos (digits2_pos p) <= 53)%Z.
Proof.
  intros H. rewrite digits2_pos_size.
  destruct (Z.le_gt_cases (Zpos (Pos.size p)) 53) as [|Hgt]; [done | exfalso].
  pose proof (Pos.size_le p) as Hs.
  assert (2 ^ 54 <= 2 ^ Zpos (Pos.size p))%Z as Hpow
    by (apply Z.pow_le_mono_r; lia).
  assert (Zpos (2 ^ Pos.size p) <= Zpos p~0)%Z as Hs' by lia.
  rewrite Pos2Z.inj_pow in Hs'.
  change (2 ^ 54)%Z with 18014398509481984%Z in Hpow.
  change (2 ^ 53)%Z with 9007199254740992%Z in H.
  lia.
Qed.

(** *** Rounding a non-negative mantissa never gives a negative number
        or NaN *)

Lemma shr_1_nonneg (mrs : shr_record) :
  (0 <= shr_m mrs)%Z → (0 <= shr_m (shr_1 mrs))%Z.
Proof.
  destruct mrs as [m r s]. destruct m as [|[p|p|]|[p|p|]]; simpl; lia.
Qed.

Lemma shr_nonneg (mrs : shr_record) (e n : Z) :
  (0 <= shr_m mrs)%Z → (0 <= shr_m (fst (shr mrs e n)))%Z.
Proof.
  intros H. destruct n as [|k|k]; simpl; try done.
  apply (iter_pos_invariant (λ x, 0 <= shr_m x)%Z); [apply shr_1_nonneg | done].
Qed.

Lemma shr_fexp_nonneg (m e : Z) (l : location) :
  (0 <= m)%Z → (0 <= shr_m (fst (shr_fexp prec emax m e l)))%Z.
Proof.
  intros H. unfold shr_fexp. apply shr_nonneg.
  by destruct l as [|[| |]].
Qed.

Lemma round_nearest_even_nonneg (m : Z) (l : location) :
  (0 <= m)%Z → (0 <= round_nearest_even m l)%Z.
Proof.
  intros H. destruct l as [|[| |]]; simpl; try lia.
  destruct (Z.even m); lia.
Qed.

Lemma round_aux_nonneg (m e : Z) (l : location) :
  (0 <= m)%Z → SFnonneg (binary_round_aux prec emax false m e l) = true.
Proof.
  intros H. unfold binary_round_aux.
  pose proof (shr_fexp_nonneg m e l H) as H1.
  destruct (shr_fexp prec emax m e l) as [mrs' e']. simpl in H1.
  pose proof (shr_fexp_nonneg _ e' loc_Exact
                (round_nearest_even_nonneg _ (loc_of_shr_record mrs') H1)) as H2.
  destruct (shr_fexp prec emax _ e' loc_Exact) as [mrs'' e'']. simpl in H2.
  destruct (shr_m mrs'') as [|p|p]; [done | | lia].
  by destruct (e'' <=? emax - prec)%Z.
Qed.

Lemma normalize_nonneg (m e : Z) :
  (0 <= m)%Z → SFnonneg (binary_normalize prec emax m e false) = true.
Proof.
  intros H. destruct m as [|p|p]; [done | | lia].
  unfold binary_normalize, binary_round.
  destruct (shl_align _ _ _) as [mz ez]. by apply round_aux_nonneg.
Qed.

Lemma SFadd_nonneg (x y : spec_float) :
  SFnonneg x = true → SFnonneg y = true → SFnonneg (SF64add x y) = true.
Proof.
  unfold SF64add.
  destruct x as [sx|sx| |sx mx ex], y as [sy|sy| |sy my ey];
    try destruct sx; try destruct sy; try done.
  intros _ _. unfold SFadd. apply normalize_nonneg. simpl. lia.
Qed.

(** A product with a positive finite factor. *)
Lemma SFmul_nonneg (x : spec_float) (m : positive) (e : Z) :
  SFnonneg x = true → SFnonneg (SF64mul x (S754_finite false m e)) = true.
Proof.
  unfold SF64mul.
  destruct x as [sx|sx| |sx mx ex]; try destruct sx; try done.
  intros _. unfold SFmul. by apply round_aux_nonneg.
Qed.

(** *** The same facts on JavaScript numbers *)

Lemma nonneg_spec (x : float) : (0 <=? x)%float = SFnonneg (Prim2SF x).
Proof. by rewrite FloatAxioms.leb_spec, Prim2SF_zero. Qed.

Lemma add_nonneg (a b : float) :
  (0 <=? a)%float = true → (0 <=? b)%float = true → (0 <=? a + b)%float = true.
Proof. rewrite !nonneg_spec, add_spec. apply SFadd_nonneg. Qed.

Lemma is_infinity_spec (x : float) :
  is_infinity x = match Prim2SF x with S754_infinity _ => true | _ => false end.
Proof.
  unfold is_infinity. rewrite FloatAxioms.eqb_spec, abs_spec.
  change (Prim2SF infinity) with (S754_infinity false).
  destruct (Prim2SF x) as [s|s| |s m e]; try destruct s; reflexivity.
Qed.

Lemma is_finite_spec (x : float) :
  is_finite x
  = match Prim2SF x with S754_zero _ | S754_finite _ _ _ => true | _ => false end.
Proof.
  unfold is_finite. rewrite is_infinity_spec.
  destruct (is_nan x) eqn:E.
  - apply is_nan_spec in E. by rewrite E.
  - apply is_nan_false in E. by destruct (Prim2SF x).
Qed.

Lemma positive_finite_shape (q : float) :
  is_finite q = true → (0 <? q)%float = true →
  ∃ m e, Prim2SF q = S754_finite false m e.
Proof.
  rewrite is_finite_spec, FloatAxioms.ltb_spec, Prim2SF_zero.
  destruct (Prim2SF q) as [s|s| |s m e]; try destruct s; try done.
  intros _ _. by exists m, e.
Qed.

(** A price [>= 0] times a positive finite quantity is [>= 0]. *)
Lemma mul_nonneg (p q : float) :
  (0 <=? p)%float = true → is_finite q = true → (0 <? q)%float = true →
  (0 <=? p * q)%float = true.
Proof.
  intros Hp Hf Hq. destruct (positive_finite_shape q Hf Hq) as (m & e & E).
  rewrite nonneg_spec in *. rewrite mul_spec, E. by apply SFmul_nonneg.
Qed.

Lemma zero_mul_finite (q : float) : is_finite q = true → is_zero (0 * q) = true.
Proof.
  rewrite is_finite_spec. unfold is_zero.
  rewrite FloatAxioms.eqb_spec, mul_spec. change (Prim2SF zero) with (S754_zero false).
  rewrite Prim2SF_zero.
  destruct (Prim2SF q) as [s|s| |s m e]; try destruct s; done.
Qed.

Lemma finite_mul_zero (p : float) : is_finite p = true → is_zero (p * 0) = true.
Proof.
  rewrite is_finite_spec. unfold is_zero.
  rewrite FloatAxioms.eqb_spec, mul_spec. change (Prim2SF zero) with (S754_zero false).
  rewrite Prim2SF_zero.
  destruct (Prim2SF p) as [s|s| |s m e]; try destruct s; done.
Qed.

(** *** Counting by repeated [+ 1] *)

Lemma count_one : count 1 = 1%float.
Proof. reflexivity. Qed.






(** *** [Math.floor] and [+ 1] on whole quantities *)

Lemma round_int (s : bool) (p : positive) :
  (Zpos (digits2_pos p) <= 53)%Z →
  binary_round prec emax s p 0 = encode_signed s p.
Proof.
  intros Hd. unfold binary_round. rewrite shl_align_shl.
  rewrite fexp_normal by lia.
  replace (0 - (Zpos (digits2_pos p) + 0 - 53))%Z with (53 - Zpos (digits2_pos p))%Z by lia.
  rewrite Z.min_r by lia.
  replace (shl p (53 - Zpos (digits2_pos p)))
    with (shl (shl p (53 - Zpos (digits2_pos p))) 0) at 1 by done.
  rewrite round_aux_exact.
  - unfold encode_signed. f_equal. lia.
  - rewrite shl_digits by lia. lia.
  - lia.
  - lia.
Qed.

Lemma encode_signed_valid (s : bool) (p : positive) :
  (Zpos (digits2_pos p) <= 53)%Z → valid_binary (encode_signed s p) = true.
Proof.
  intros Hd. unfold encode_signed, valid_binary, bounded, canonical_mantissa.
  rewrite shl_digits by lia. rewrite fexp_normal by lia.
  apply andb_true_iff. split.
  - apply Z.eqb_eq. lia.
  - apply Z.leb_le. unfold emax, prec. lia.
Qed.

Lemma SFint_encode_signed (s : bool) (p : positive) :
  (Zpos (digits2_pos p) <= 53)%Z →
  SFint (encode_signed s p) = Some (cond_Zopp s (Zpos p)).
Proof.
  intros Hd. unfold encode_signed, SFint.
  rewrite shl_value by lia.
  destruct (Z.leb_spec 0 (Zpos (digits2_pos p) - 53)) as [H | H].
  - replace (Zpos (digits2_pos p) - 53)%Z with 0%Z by lia.
    replace (53 - Zpos (digits2_pos p))%Z with 0%Z by lia.
    simpl. do 2 f_equal. lia.
  - replace (- (Zpos (digits2_pos p) - 53))%Z with (53 - Zpos (digits2_pos p))%Z by lia.
    rewrite Z.mod_mul by lia. simpl.
    rewrite Z.div_mul by lia. reflexivity.
Qed.

(** Converting an integer of at most 53 bits is exact. *)
Lemma normalize_int (z : Z) :
  (Z.abs z < 2 ^ 53)%Z →
  valid_binary (binary_normalize prec emax z 0 false) = true
  ∧ SFint (binary_normalize prec emax z 0 false) = Some z.
Proof.
  intros Hz. destruct z as [|p|p]; simpl binary_normalize.
  - done.
  - assert (Zpos (digits2_pos p) <= 53)%Z by (apply digits_bound; lia).
    rewrite round_int by done.
    split; [by apply encode_signed_valid | by apply SFint_encode_signed].
  - assert (Zpos (digits2_pos p) <= 53)%Z by (apply digits_bound; lia).
    rewrite round_int by done.
    split; [by apply encode_signed_valid | by apply SFint_encode_signed].
Qed.

Lemma valid_finite (s : bool) (m : positive) (e : Z) :
  valid_binary (S754_finite s m e) = true →
  (Zpos (digits2_pos m) <= 53)%Z ∧ (-1074 <= e <= 971)%Z
  ∧ (Zpos (digits2_pos m) = 53 ∨ e = -1074)%Z.
Proof.
  unfold valid_binary, bounded, canonical_mantissa, fexp, SpecFloat.emin, prec, emax.
  intros H. apply andb_true_iff in H as [H1 H2].
  apply Z.eqb_eq in H1. apply Z.leb_le in H2. lia.
Qed.

Lemma pos_lt_pow_digits (p : positive) : (Zpos p < 2 ^ Zpos (digits2_pos p))%Z.
Proof.
  rewrite digits2_pos_size. pose proof (Pos.size_gt p) as H.
  rewrite <- Pos2Z.inj_pow. lia.
Qed.

Lemma pow_digits_le (p : positive) : (2 ^ (Zpos (digits2_pos p) - 1) <= Zpos p)%Z.
Proof.
  rewrite digits2_pos_size. pose proof (Pos.size_le p) as H.
  assert (Zpos (2 ^ Pos.size p) <= Zpos p~0)%Z as H' by lia.
  rewrite Pos2Z.inj_pow in H'.
  replace (Zpos (Pos.size p)) with (Z.succ (Zpos (Pos.size p) - 1)) in H' by lia.
  rewrite Z.pow_succ_r in H' by lia. lia.
Qed.

Lemma shiftr_abs_le (a k : Z) : (0 <= k)%Z → (Z.abs (Z.shiftr a k) <= Z.abs a)%Z.
Proof.
  intros Hk. rewrite Z.shiftr_div_pow2 by done.
  assert (0 < 2 ^ k)%Z as Hpow by (apply Z.pow_pos_nonneg; lia).
  pose proof (Z.div_mod a (2 ^ k)) as Hdm.
  pose proof (Z.mod_pos_bound a (2 ^ k) Hpow) as Hmod.
  nia.
Qed.

Lemma floor_mantissa_bound (s : bool) (m : positive) (e : Z) :
  valid_binary (S754_finite s m e) = true → (e < 0)%Z →
  (Z.abs (Z.shiftr (cond_Zopp s (Zpos m)) (- e)) < 2 ^ 53)%Z.
Proof.
  intros Hx He. apply valid_finite in Hx as (Hd & _ & _).
  pose proof (pos_lt_pow_digits m) as Hm.
  assert (2 ^ Zpos (digits2_pos m) <= 2 ^ 53)%Z as Hpow
    by (apply Z.pow_le_mono_r; lia).
  pose proof (shiftr_abs_le (cond_Zopp s (Zpos m)) (- e)) as Hs.
  destruct s; simpl in *; lia.
Qed.

Lemma SFfloor_valid_int (x : spec_float) :
  valid_binary x = true →
  valid_binary (SFfloor x) = true
  ∧ match x with
    | S754_finite _ _ _ => ∃ n, SFint (SFfloor x) = Some n
    | _ => SFfloor x = x
    end.
Proof.
  intros Hx. destruct x as [s|s| |s m e]; try done.
  unfold SFfloor. destruct (Z.leb_spec 0 e) as [He | He].
  - split; [done |]. unfold SFint.
    replace (0 <=? e)%Z with true by (symmetry; by apply Z.leb_le). eauto.
  - destruct (normalize_int (Z.shiftr (cond_Zopp s (Zpos m)) (- e))) as [H1 H2].
    { by apply floor_mantissa_bound. }
    split; [done | eauto].
Qed.

Lemma Math_floor_spec (q : float) : Prim2SF (Math_floor q) = SFfloor (Prim2SF q).
Proof.
  unfold Math_floor. apply Prim2SF_SF2Prim.
  apply SFfloor_valid_int, Prim2SF_valid.
Qed.

(** [Math.floor] of a finite number [± m * 2 ^ e] is the integer
    [± m * 2 ^ e] itself when [e >= 0], and the quotient of [± m] by
    [2 ^ (- e)] rounded towards minus infinity otherwise. *)
Lemma Math_floor_value (q : float) (s : bool) (m : positive) (e : Z) :
  Prim2SF q = S754_finite s m e →
  int_value (Math_floor q)
  = Some (if (0 <=? e)%Z then cond_Zopp s (Zpos m * 2 ^ e)
          else cond_Zopp s (Zpos m) / 2 ^ (- e))%Z.
Proof.
  intros Ex. unfold int_value. rewrite Math_floor_spec, Ex.
  pose proof (Prim2SF_valid q) as Hv. rewrite Ex in Hv.
  unfold SFfloor. destruct (Z.leb_spec 0 e) as [He | He].
  - unfold SFint. by replace (0 <=? e)%Z with true by (symmetry; by apply Z.leb_le).
  - rewrite <- Z.shiftr_div_pow2 by lia.
    apply normalize_int. by apply floor_mantissa_bound.
Qed.

Lemma SFint_positive (m : positive) (e n : Z) :
  SFint (S754_finite false m e) = Some n → (1 <= n)%Z.
Proof.
  unfold SFint, cond_Zopp. destruct (Z.leb_spec 0 e) as [He | He].
  - intros [= <-]. assert (0 < 2 ^ e)%Z by (apply Z.pow_pos_nonneg; lia). nia.
  - destruct (Z.eqb_spec (Zpos m mod 2 ^ (- e)) 0) as [Hmod | Hmod]; [|done].
    intros [= <-].
    assert (0 < 2 ^ (- e))%Z as Hpow by (apply Z.pow_pos_nonneg; lia).
    pose proof (Z.div_mod (Zpos m) (2 ^ (- e))) as Hdm. nia.
Qed.

Lemma whole_one : whole 1.
Proof. right. exists 1%Z. split; [reflexivity | lia]. Qed.

(** UPDATE_QUANTITY only stores a positive integer or [Infinity]. *)
Lemma whole_floor (q : float) :
  is_nan q = false → (Math_floor q <=? 0)%float = false → whole (Math_floor q).
Proof.
  intros Hnan Hle. apply is_nan_false in Hnan.
  rewrite FloatAxioms.leb_spec, Prim2SF_zero in Hle.
  unfold whole, int_value.
  pose proof (Math_floor_spec q) as Hspec.
  destruct (SFfloor_valid_int (Prim2SF q) (Prim2SF_valid q)) as [_ Hint].
  destruct (Prim2SF q) as [s|s| |s m e] eqn:Ex; try done.
  - rewrite Hint in Hspec. rewrite Hspec in Hle. by destruct s.
  - rewrite Hint in Hspec. rewrite Hspec in Hle. destruct s; [done |].
    left. apply Prim2SF_inj. by rewrite Hspec.
  - destruct Hint as [n Hn]. rewrite <- Hspec in Hn.
    right. exists n. split; [done |].
    destruct (Prim2SF (Math_floor q)) as [s'|s'| |s' m' e']; try done.
    destruct s'; [done |]. by eapply SFint_positive.
Qed.

(** A valid positive value whose integer value is below [2 ^ 53] is the
    encoding of that integer. *)
Lemma int_canonical (m : positive) (e : Z) (n : positive) :
  valid_binary (S754_finite false m e) = true →
  SFint (S754_finite false m e) = Some (Zpos n) →
  (Zpos n < 2 ^ 53)%Z →
  S754_finite false m e = encode_int n.
Proof.
  intros Hv Hint Hn. apply valid_finite in Hv as (Hd & He & Hnorm).
  unfold SFint, cond_Zopp in Hint. unfold encode_int.
  destruct (Z.leb_spec 0 e) as [He0 | He0].
  - injection Hint as Hint.
    destruct Hnorm as [Hd53 | ?]; [|lia].
    pose proof (pow_digits_le m) as Hm. rewrite Hd53 in Hm.
    change (2 ^ (53 - 1))%Z with 4503599627370496%Z in Hm.
    change (2 ^ 53)%Z with 9007199254740992%Z in Hn.
    assert (e = 0)%Z as ->.
    { destruct (Z.eq_dec e 0%Z) as [|Hne]; [done | exfalso].
      assert (2 ^ 1 <= 2 ^ e)%Z as Hpow by (apply Z.pow_le_mono_r; lia).
      change (2 ^ 1)%Z with 2%Z in Hpow. nia. }
    rewrite Z.pow_0_r, Z.mul_1_r in Hint. injection Hint as ->.
    rewrite Hd53. reflexivity.
  - destruct (Z.eqb_spec (Zpos m mod 2 ^ (- e)) 0) as [Hmod | Hmod]; [|done].
    injection Hint as Hint.
    assert (0 < 2 ^ (- e))%Z as Hpow by (apply Z.pow_pos_nonneg; lia).
    assert (Zpos m = Zpos n * 2 ^ (- e))%Z as Hm.
    { pose proof (Z.div_mod (Zpos m) (2 ^ (- e))) as Hdm. nia. }
    rewrite <- shl_value in Hm by lia. injection Hm as ->.
    rewrite shl_digits in Hd, Hnorm by lia.
    destruct Hnorm as [Hd53 | ?]; [|lia].
    f_equal; [f_equal |]; lia.
Qed.

(** **** Right shifts of a non-negative mantissa *)

Lemma shr_1_div2 (mrs : shr_record) :
  (0 <= shr_m mrs)%Z → shr_m (shr_1 mrs) = (shr_m mrs / 2)%Z.
Proof.
  destruct mrs as [m r s]. destruct m as [|[p|p|]|p]; simpl; try done; intros _.
  - rewrite Pos2Z.inj_xI. rewrite Z.add_comm, Z.mul_comm, Z.div_add by lia.
    reflexivity.
  - rewrite Pos2Z.inj_xO. by rewrite Z.mul_comm, Z.div_mul by lia.
Qed.

Lemma iter_shr_1_div (k : positive) (mrs : shr_record) :
  (0 <= shr_m mrs)%Z →
  shr_m (SpecFloat.iter_pos shr_1 k mrs) = (shr_m mrs / 2 ^ Zpos k)%Z.
Proof.
  revert mrs. induction k as [|k IH] using Pos.peano_ind; intros mrs H.
  - simpl. by rewrite shr_1_div2.
  - rewrite iter_pos_succ, IH by by apply shr_1_nonneg.
    rewrite shr_1_div2 by done.
    rewrite Z.div_div by lia.
    rewrite Pos2Z.inj_succ, Z.pow_succ_r by lia. reflexivity.
Qed.

Lemma shr_div (mrs : shr_record) (e k : Z) :
  (0 <= shr_m mrs)%Z → (0 <= k)%Z →
  ∃ mrs', shr mrs e k = (mrs', (e + k)%Z)
          ∧ shr_m mrs' = (shr_m mrs / 2 ^ k)%Z.
Proof.
  intros Hm Hk. destruct k as [|p|p]; [| |lia].
  - exists mrs. simpl. split; [f_equal; lia | by rewrite Z.div_1_r].
  - eexists. split; [reflexivity |]. by apply iter_shr_1_div.
Qed.

Lemma div_pow_digits (p : positive) :
  (53 <= Zpos (digits2_pos p))%Z →
  (2 ^ 52 <= Zpos p / 2 ^ (Zpos (digits2_pos p) - 53) < 2 ^ 53)%Z.
Proof.
  intros Hd.
  pose proof (pow_digits_le p) as Hlo. pose proof (pos_lt_pow_digits p) as Hhi.
  assert (0 < 2 ^ (Zpos (digits2_pos p) - 53))%Z as Hpow
    by (apply Z.pow_pos_nonneg; lia).
  assert (2 ^ (Zpos (digits2_pos p) - 1)
          = 2 ^ 52 * 2 ^ (Zpos (digits2_pos p) - 53))%Z as E1
    by (rewrite <- Z.pow_add_r by lia; f_equal; lia).
  assert (2 ^ Zpos (digits2_pos p)
          = 2 ^ 53 * 2 ^ (Zpos (digits2_pos p) - 53))%Z as E2
    by (rewrite <- Z.pow_add_r by lia; f_equal; lia).
  rewrite E1 in Hlo. rewrite E2 in Hhi.
  split.
  - apply Z.div_le_lower_bound; lia.
  - apply Z.div_lt_upper_bound; lia.
Qed.

Lemma digits_of_range (p : positive) :
  (2 ^ 52 <= Zpos p <= 2 ^ 53)%Z → (53 <= Zpos (digits2_pos p) <= 54)%Z.
Proof.
  intros [Hlo Hhi].
  pose proof (pow_digits_le p) as H1. pose proof (pos_lt_pow_digits p) as H2.
  split.
  - destruct (Z.le_gt_cases 53 (Zpos (digits2_pos p))) as [|Hlt]; [done | exfalso].
    assert (2 ^ Zpos (digits2_pos p) <= 2 ^ 52)%Z by (apply Z.pow_le_mono_r; lia).
    lia.
  - destruct (Z.le_gt_cases (Zpos (digits2_pos p)) 54) as [|Hgt]; [done | exfalso].
    assert (2 ^ 54 <= 2 ^ (Zpos (digits2_pos p) - 1))%Z by (apply Z.pow_le_mono_r; lia).
    change (2 ^ 54)%Z with (2 * 2 ^ 53)%Z in *. lia.
Qed.

(** Rounding a mantissa of at least 53 bits whose leading 53 bits sit at
    a non-negative exponent gives an integer, or overflows. *)
Lemma round_aux_big (M : positive) (e0 : Z) (l : location) :
  (53 <= Zpos (digits2_pos M))%Z →
  (0 <= e0 + Zpos (digits2_pos M) - 53)%Z →
  binary_round_aux prec emax false (Zpos M) e0 l = S754_infinity false
  ∨ ∃ m e, binary_round_aux prec emax false (Zpos M) e0 l = S754_finite false m e
           ∧ (0 <= e)%Z.
Proof.
  intros Hd He. unfold binary_round_aux, shr_fexp.
  cbn [Zdigits2]. rewrite fexp_normal by lia.
  destruct (shr_div (shr_record_of_loc (Zpos M) l) e0
              (Zpos (digits2_pos M) + e0 - 53 - e0)) as (mrs' & -> & Hm').
  { by destruct l as [|[| |]]. }
  { lia. }
  replace (shr_m (shr_record_of_loc (Zpos M) l)) with (Zpos M) in Hm'
    by (by destruct l as [|[| |]]).
  replace (Zpos (digits2_pos M) + e0 - 53 - e0)%Z
    with (Zpos (digits2_pos M) - 53)%Z in * by lia.
  pose proof (div_pow_digits M Hd) as Hrange. rewrite <- Hm' in Hrange.
  set (m2 := round_nearest_even (shr_m mrs') (loc_of_shr_record mrs')).
  assert (2 ^ 52 <= m2 <= 2 ^ 53)%Z as Hm2.
  { unfold m2, round_nearest_even.
    destruct (loc_of_shr_record mrs') as [|[| |]]; try lia.
    destruct (Z.even (shr_m mrs')); lia. }
  destruct m2 as [|p2|p2] eqn:Ep2; [lia | | lia].
  pose proof (digits_of_range p2 Hm2) as Hd2.
  cbn [Zdigits2]. rewrite fexp_normal by lia.
  destruct (shr_div (shr_record_of_loc (Zpos p2) loc_Exact)
              (e0 + (Zpos (digits2_pos M) - 53))
              (Zpos (digits2_pos p2) + (e0 + (Zpos (digits2_pos M) - 53)) - 53
               - (e0 + (Zpos (digits2_pos M) - 53)))) as (mrs'' & -> & Hm'').
  { done. }
  { lia. }
  cbn [shr_record_of_loc shr_m] in Hm''.
  replace (Zpos (digits2_pos p2) + (e0 + (Zpos (digits2_pos M) - 53)) - 53
           - (e0 + (Zpos (digits2_pos M) - 53)))%Z
    with (Zpos (digits2_pos p2) - 53)%Z in * by lia.
  pose proof (div_pow_digits p2 (proj1 Hd2)) as Hrange2. rewrite <- Hm'' in Hrange2.
  destruct (shr_m mrs'') as [|m''|m'']; [lia | | lia].
  destruct (_ <=? _)%Z; [right | by left].
  eexists _, _. split; [reflexivity | lia].
Qed.

(** Adding one to a valid positive value with a non-negative exponent. *)
Lemma add_one_big (m : positive) (e : Z) :
  valid_binary (S754_finite false m e) = true → (0 <= e)%Z →
  SF64add (S754_finite false m e) (encode_int 1) = S754_infinity false
  ∨ ∃ m' e', SF64add (S754_finite false m e) (encode_int 1)
             = S754_finite false m' e' ∧ (0 <= e')%Z.
Proof.
  intros Hv He. apply valid_finite in Hv as (Hd & Hb & Hnorm).
  destruct Hnorm as [Hd53 | ?]; [|lia].
  change (encode_int 1) with (S754_finite false 4503599627370496 (-52)).
  unfold SF64add, SFadd.
  rewrite !shl_align_shl. cbn [fst cond_Zopp].
  rewrite (Z.min_r _ (-52)) by lia.
  replace (-52 - -52)%Z with 0%Z by lia. cbn [shl].
  replace (Zpos (shl m (e - -52)) + 4503599627370496)%Z
    with (Zpos (shl m (e - -52) + 4503599627370496)) by lia.
  set (M := (shl m (e - -52) + 4503599627370496)%positive).
  assert (105 + e <= Zpos (digits2_pos M))%Z as HM.
  { pose proof (digits2_pos_le (shl m (e - -52)) M) as Hle.
    pose proof (shl_digits m (e - -52)) as Hsd. unfold M in *. lia. }
  cbn [binary_normalize]. unfold binary_round.
  rewrite shl_align_shl. rewrite fexp_normal by lia.
  rewrite Z.min_l by lia.
  replace (shl M (-52 - (Zpos (digits2_pos M) + -52 - 53))) with M
    by (destruct (-52 - (Zpos (digits2_pos M) + -52 - 53))%Z eqn:E; [done | lia | done]).
  apply round_aux_big; lia.
Qed.

Lemma SFint_negative (m : positive) (e n : Z) :
  SFint (S754_finite true m e) = Some n → (n <= 0)%Z.
Proof.
  unfold SFint, cond_Zopp. destruct (Z.leb_spec 0 e) as [He | He].
  - intros [= <-]. assert (0 < 2 ^ e)%Z by (apply Z.pow_pos_nonneg; lia). nia.
  - destruct (_ =? _)%Z; [|done]. intros [= <-].
    assert (0 < 2 ^ (- e))%Z as Hpow by (apply Z.pow_pos_nonneg; lia).
    pose proof (Z.div_pos (Zpos m) (2 ^ (- e))). lia.
Qed.

(** ADD_ITEM keeps a quantity a positive integer or [Infinity]. *)
Lemma whole_succ (q : float) : whole q → whole (q + 1).
Proof.
  intros [-> | (n & Hn & H1)]; [by left |].
  unfold whole, int_value in *. pose proof (Prim2SF_valid q) as Hv.
  rewrite add_spec. change (Prim2SF 1) with (encode_int 1).
  destruct (Prim2SF q) as [s|s| |s m e] eqn:Ex; try discriminate Hn.
  - injection Hn as <-. lia.
  - destruct s; [apply SFint_negative in Hn; lia |].
    destruct (Z.leb_spec 0 e) as [He | He].
    + destruct (add_one_big m e Hv He) as [E | (m' & e' & E & He')].
      * left. apply Prim2SF_inj. by rewrite add_spec, Ex.
      * right. rewrite E. unfold SFint.
        replace (0 <=? e')%Z with true by (symmetry; by apply Z.leb_le).
        eexists. split; [reflexivity |].
        assert (0 < 2 ^ e')%Z by (apply Z.pow_pos_nonneg; lia). simpl. nia.
    + destruct n as [|p|p]; [lia | | lia].
      assert (Zpos p < 2 ^ 52)%Z as Hp.
      { apply valid_finite in Hv as (Hd & _ & _).
        pose proof (pos_lt_pow_digits m) as Hm.
        assert (2 ^ Zpos (digits2_pos m) <= 2 ^ 53)%Z
          by (apply Z.pow_le_mono_r; lia).
        unfold SFint, cond_Zopp in Hn.
        replace (0 <=? e)%Z with false in Hn by (symmetry; apply Z.leb_gt; lia).
        destruct (_ =? _)%Z; [|done]. injection Hn as Hn.
        assert (2 ^ 1 <= 2 ^ (- e))%Z as Hpow by (apply Z.pow_le_mono_r; lia).
        change (2 ^ 1)%Z with 2%Z in Hpow.
        change (2 ^ 53)%Z with (2 * 2 ^ 52)%Z in *.
        rewrite <- Hn. apply Z.div_lt_upper_bound; nia. }
      change (2 ^ 52)%Z with 4503599627370496%Z in Hp.
      rewrite (int_canonical m e p) by
        (try done; change (2 ^ 53)%Z with 9007199254740992%Z; lia).
      rewrite add_one_exact.
      * right. exists (Zpos (p + 1)). split; [|lia].
        apply SFint_encode_int, digits_bound.
        change (2 ^ 53)%Z with 9007199254740992%Z. lia.
      * apply digits_bound. change (2 ^ 53)%Z with 9007199254740992%Z. lia.
Qed.

End FloatFacts.

(** ** Facts about the array helpers *)

Module ArrayFacts.

Section FindIndex.
Context {A : Type} (f : A → bool).

Lemma findIndex_from_absent (i : Z) (l : list A) :
  Forall (λ x, f x = false) l → findIndex_from f i l = (-1)%Z.
Proof.
  intros H. revert i. induction H as [|x l Hx _ IH]; intros i; simpl.
  - reflexivity.
  - rewrite Hx. apply IH.
Qed.

Lemma findIndex_from_first (i : Z) (pre : list A) (x : A) (post : list A) :
  Forall (λ y, f y = false) pre → f x = true →
  findIndex_from f i (pre ++ x :: post) = (i + Z.of_nat (length pre))%Z.
Proof.
  intros Hpre Hx. revert i.
  induction Hpre as [|y pre Hy _ IH]; intros i; simpl.
  - rewrite Hx. lia.
  - rewrite Hy, IH. lia.
Qed.

(** The search either fails on every element or stops at the first
    element that satisfies the test. *)
Lemma findIndex_from_cases (i : Z) (l : list A) :
  (Forall (λ x, f x = false) l ∧ findIndex_from f i l = (-1)%Z)
  ∨ (∃ pre x post,
        l = pre ++ x :: post ∧ Forall (λ y, f y = false) pre ∧ f x = true
        ∧ findIndex_from f i l = (i + Z.of_nat (length pre))%Z).
Proof.
  revert i. induction l as [|x l IH]; intros i.
  - left. split; [constructor | reflexivity].
  - destruct (f x) eqn:Hx.
    + right. exists [], x, l. simpl. rewrite Hx.
      repeat split; [constructor | lia].
    + destruct (IH (i + 1)%Z) as [[Hall Hidx] | (pre & y & post & -> & Hpre & Hy & Hidx)].
      * left. split; [by constructor |]. simpl. by rewrite Hx.
      * right. exists (x :: pre), y, post. simpl. rewrite Hx, Hidx.
        repeat split; [by constructor | done | lia].
Qed.
End FindIndex.

Section MapFrom.
Context {A B : Type}.

Lemma map_from_app (f : A → Z → B) (i : Z) (l1 l2 : list A) :
  map_from f i (l1 ++ l2)
  = map_from f i l1 ++ map_from f (i + Z.of_nat (length l1))%Z l2.
Proof.
  revert i. induction l1 as [|x l1 IH]; intros i; simpl.
  - by rewrite Z.add_0_r.
  - rewrite IH. do 3 f_equal. lia.
Qed.

(** Away from index [j] the callback [if index = j then g x else h x]
    is just [h]. *)
Lemma map_from_miss (g h : A → B) (j i : Z) (l : list A) :
  (j < i ∨ i + Z.of_nat (length l) <= j)%Z →
  map_from (λ x index, if (index =? j)%Z then g x else h x) i l = map h l.
Proof.
  revert i. induction l as [|x l IH]; intros i Hj; simpl in *.
  - reflexivity.
  - rewrite IH by lia.
    destruct (Z.eqb_spec i j); [lia | reflexivity].
Qed.

Lemma map_from_hit (g h : A → B) (i : Z) (pre : list A) (x : A) (post : list A) :
  map_from (λ y index, if (index =? i + Z.of_nat (length pre))%Z then g y else h y)
    i (pre ++ x :: post)
  = map h pre ++ g x :: map h post.
Proof.
  rewrite map_from_app. simpl.
  rewrite Z.eqb_refl.
  rewrite !map_from_miss by lia. reflexivity.
Qed.
End MapFrom.

Lemma all_or_throw_Some {B} (l : list B) : all_or_throw (map Some l) = Some l.
Proof. induction l as [|x l IH]; simpl; [done | by rewrite IH]. Qed.

Lemma all_or_throw_app {B} (l1 : list B) (o : option B) (l2 : list B) :
  all_or_throw (map Some l1 ++ o :: map Some l2)
  = (λ y, l1 ++ y :: l2) <$> o.
Proof.
  induction l1 as [|x l1 IH]; simpl.
  - rewrite all_or_throw_Some. by destruct o.
  - rewrite IH. by destruct o.
Qed.

Lemma filter_all {A} (f : A → bool) (l : list A) :
  Forall (λ x, f x = true) l → List.filter f l = l.
Proof.
  induction 1 as [|x l Hx _ IH]; simpl; [done | by rewrite Hx, IH].
Qed.

End ArrayFacts.

(** ** What the reducer does on well-formed payloads *)

Module CartFacts.
Import Cart Contract FloatFacts ArrayFacts.

Lemma get_prop_nullish (v : val) (k : string) :
  get_prop (nullish_or v (VObj ∅)) k = get_prop v k.
Proof. by destruct v. Qed.

Lemma get_insert_eq (o : gmap string val) (k : string) (v : val) :
  get (<[k := v]> o) k = v.
Proof. unfold get. by rewrite lookup_insert_eq. Qed.

Lemma get_insert_ne (o : gmap string val) (k k' : string) (v : val) :
  k ≠ k' → get (<[k := v]> o) k' = get o k'.
Proof. intros H. unfold get. by rewrite lookup_insert_ne. Qed.

Lemma not_nonempty_string_false (v : val) :
  not_nonempty_string v = false ↔ nonempty_string v.
Proof.
  unfold not_nonempty_string, nonempty_string. split.
  - destruct v as [| | | |s|]; simpl; try discriminate.
    destruct (String.eqb_spec s ""); simpl; [discriminate | eauto].
  - intros (s & -> & Hs). simpl.
    by destruct (String.eqb_spec s "").
Qed.

Lemma not_nonneg_number_false (v : val) :
  not_nonneg_number v = false ↔ nonneg_number v.
Proof.
  unfold not_nonneg_number, nonneg_number. split.
  - destruct v as [| | |p| |]; try discriminate.
    intros H. apply orb_false_iff in H. exists p. split; [done |].
    by apply nonneg_iff.
  - intros (p & -> & Hp). apply nonneg_iff in Hp as [-> ->]. done.
Qed.

Lemma not_a_number_false (v : val) :
  not_a_number v = false ↔ ∃ q, v = VNum q ∧ is_nan q = false.
Proof.
  split.
  - destruct v; simpl; try discriminate. eauto.
  - by intros (q & -> & Hq).
Qed.

(** The validation of ADD_ITEM accepts exactly the payloads whose
    [item] is an object with the three checked fields and whose
    [storeId] is a non-empty string. *)
Lemma valid_add_item_shape (item storeId' : val) :
  invalid_add_item item storeId' = false ↔
  ∃ o productId sid,
    valid_add_payload
      (VObj (<["item" := item]> (<["storeId" := storeId']> ∅))) o productId sid.
Proof.
  unfold invalid_add_item. rewrite !orb_false_iff, !not_nonempty_string_false,
    not_nonneg_number_false, negb_false_iff.
  split.
  - intros ((((Ht & (pid & Hpid & Hne)) & Hname) & Hprice) & (sid & -> & Hsid)).
    destruct item as [| | | | |o]; try discriminate Hpid.
    exists o, pid, sid. by split.
  - intros (o & pid & sid & [Hi Hp Hpne Hn Hpr Hs Hsne]).
    cbn [get_prop] in Hi, Hs.
    rewrite get_insert_eq in Hi.
    rewrite get_insert_ne, get_insert_eq in Hs by done.
    subst item storeId'. cbn [truthy get_prop].
    rewrite Hp. repeat split; try done; by eexists.
Qed.

Lemma valid_add_payload_accepted p item productId sid :
  valid_add_payload p item productId sid →
  invalid_add_item (get_prop p "item") (get_prop p "storeId") = false.
Proof.
  intros [Hi Hp Hpne Hn Hpr Hs Hsne]. rewrite Hi, Hs.
  unfold invalid_add_item. cbn [get_prop truthy negb]. rewrite Hp.
  rewrite !orb_false_iff, !not_nonempty_string_false, not_nonneg_number_false.
  repeat split; try done; by eexists.
Qed.

Lemma same_store_id (state : CartState) (sid : string) :
  other_store state sid = false →
  match storeId state with Some current => current | None => sid end = sid.
Proof.
  unfold other_store. destruct (storeId state) as [c|]; [|done].
  by destruct (String.eqb_spec c sid).
Qed.

Lemma other_store_true (state : CartState) (current sid : string) :
  storeId state = Some current → current ≠ sid → other_store state sid = true.
Proof.
  intros H Hne. unfold other_store. rewrite H.
  by destruct (String.eqb_spec current sid).
Qed.

Section WithEnv.
Variable dev : bool.

(** ADD_ITEM with a valid payload, the three paths. *)
Lemma add_other_store state a item productId sid :
  type a = VStr "ADD_ITEM" →
  valid_add_payload (payload a) item productId sid →
  other_store state sid = true →
  cartReducer dev state a
  = (if dev then [StoreSwitched sid (storeId state)] else [],
     Fresh {| storeId := Some sid; items := [with_quantity item (VNum 1)] |}).
Proof.
  intros Ht Hv Ho. unfold cartReducer, case_ADD_ITEM. rewrite Ht. cbn [strict_eq_str].
  rewrite String.eqb_refl, !get_prop_nullish, (valid_add_payload_accepted _ _ _ _ Hv).
  destruct Hv as [Hi Hp _ _ _ Hs _]. rewrite Hi, Hs. cbn [get_prop]. rewrite Hp, Ho.
  reflexivity.
Qed.

Lemma add_new_product state a item productId sid :
  type a = VStr "ADD_ITEM" →
  valid_add_payload (payload a) item productId sid →
  other_store state sid = false →
  Forall (λ cartItem, has_id productId cartItem = false) (items state) →
  cartReducer dev state a
  = ([], Fresh {| storeId := Some sid;
                  items := items state ++ [with_quantity item (VNum 1)] |}).
Proof.
  intros Ht Hv Ho Habs. unfold cartReducer, case_ADD_ITEM. rewrite Ht. cbn [strict_eq_str].
  rewrite String.eqb_refl, !get_prop_nullish, (valid_add_payload_accepted _ _ _ _ Hv).
  destruct Hv as [Hi Hp _ _ _ Hs _]. rewrite Hi, Hs. cbn [get_prop]. rewrite Hp, Ho.
  unfold findIndex. rewrite (findIndex_from_absent _ _ _ Habs). cbn [Z.leb Z.compare].
  by rewrite same_store_id.
Qed.

Lemma add_existing_product state a item productId sid pre e post :
  type a = VStr "ADD_ITEM" →
  valid_add_payload (payload a) item productId sid →
  other_store state sid = false →
  items state = pre ++ e :: post →
  Forall (λ cartItem, has_id productId cartItem = false) pre →
  has_id productId e = true →
  cartReducer dev state a
  = match plus_one (get e "quantity") with
    | Some q =>
        ([], Fresh {| storeId := Some sid;
                      items := pre ++ with_quantity e q :: post |})
    | None => ([], Throw TypeError)
    end.
Proof.
  intros Ht Hv Ho Hitems Hpre He. unfold cartReducer, case_ADD_ITEM. rewrite Ht.
  cbn [strict_eq_str].
  rewrite String.eqb_refl, !get_prop_nullish, (valid_add_payload_accepted _ _ _ _ Hv).
  destruct Hv as [Hi Hp _ _ _ Hs _]. rewrite Hi, Hs. cbn [get_prop]. rewrite Hp, Ho.
  unfold findIndex, Array_map. rewrite Hitems.
  rewrite (findIndex_from_first _ _ _ _ _ Hpre He).
  replace (0 <=? 0 + Z.of_nat (length pre))%Z with true by (symmetry; apply Z.leb_le; lia).
  rewrite (map_from_hit
             (λ cartItem, q ← plus_one (get cartItem "quantity"); Some (with_quantity cartItem q))
             Some).
  rewrite all_or_throw_app, same_store_id by done.
  by destruct (plus_one (get e "quantity")).
Qed.

Lemma reducer_REMOVE_ITEM state a :
  type a = VStr "REMOVE_ITEM" → cartReducer dev state a = case_REMOVE_ITEM state a.
Proof. intros H. unfold cartReducer. by rewrite H. Qed.

Lemma reducer_UPDATE_QUANTITY state a :
  type a = VStr "UPDATE_QUANTITY" →
  cartReducer dev state a = case_UPDATE_QUANTITY dev state a.
Proof. intros H. unfold cartReducer. by rewrite H. Qed.

Lemma reducer_ADD_ITEM state a :
  type a = VStr "ADD_ITEM" → cartReducer dev state a = case_ADD_ITEM dev state a.
Proof. intros H. unfold cartReducer. by rewrite H. Qed.

(** REMOVE_ITEM with a non-empty string [productId]. *)
Lemma remove_valid state a productId :
  type a = VStr "REMOVE_ITEM" →
  get_prop (payload a) "productId" = VStr productId → productId ≠ "" →
  cartReducer dev state a
  = let newItems := List.filter (λ item, negb (has_id productId item)) (items state) in
    if (length newItems =? 0)%nat then ([], Initial)
    else ([], Fresh {| storeId := storeId state; items := newItems |}).
Proof.
  intros Ht Hp Hne. rewrite reducer_REMOVE_ITEM by done.
  unfold case_REMOVE_ITEM. rewrite get_prop_nullish, Hp.
  replace (not_nonempty_string (VStr productId)) with false; [done |].
  symmetry. apply not_nonempty_string_false. by eexists.
Qed.

Lemma update_accepted productId q :
  productId ≠ "" → is_nan q = false →
  invalid_update_quantity (VStr productId) (VNum q) = false.
Proof.
  intros Hne Hq. unfold invalid_update_quantity.
  apply orb_false_iff. split.
  - apply not_nonempty_string_false. by eexists.
  - done.
Qed.

(** UPDATE_QUANTITY whose floored quantity is [<= 0]. *)
Lemma update_removes state a productId q :
  type a = VStr "UPDATE_QUANTITY" →
  get_prop (payload a) "productId" = VStr productId → productId ≠ "" →
  get_prop (payload a) "quantity" = VNum q →
  (Math_floor q <=? 0)%float = true →
  cartReducer dev state a
  = let newItems := List.filter (λ item, negb (has_id productId item)) (items state) in
    if (length newItems =? 0)%nat then ([], Initial)
    else ([], Fresh {| storeId := storeId state; items := newItems |}).
Proof.
  intros Ht Hp Hne Hq Hle. rewrite reducer_UPDATE_QUANTITY by done.
  unfold case_UPDATE_QUANTITY. rewrite !get_prop_nullish, Hp, Hq.
  rewrite update_accepted by eauto using floor_le_zero_not_nan.
  by rewrite Hle.
Qed.

(** UPDATE_QUANTITY whose floored quantity is not [<= 0]. *)
Lemma update_existing state a productId q pre e post :
  type a = VStr "UPDATE_QUANTITY" →
  get_prop (payload a) "productId" = VStr productId → productId ≠ "" →
  get_prop (payload a) "quantity" = VNum q → is_nan q = false →
  (Math_floor q <=? 0)%float = false →
  items state = pre ++ e :: post →
  Forall (λ cartItem, has_id productId cartItem = false) pre →
  has_id productId e = true →
  cartReducer dev state a
  = ([], Fresh {| storeId := storeId state;
                  items := pre ++ with_quantity e (VNum (Math_floor q)) :: post |}).
Proof.
  intros Ht Hp Hne Hq Hnan Hle Hitems Hpre He.
  rewrite reducer_UPDATE_QUANTITY by done.
  unfold case_UPDATE_QUANTITY. rewrite !get_prop_nullish, Hp, Hq.
  rewrite update_accepted, Hle by done.
  unfold findIndex, Array_map. rewrite Hitems.
  rewrite (findIndex_from_first _ _ _ _ _ Hpre He).
  replace (0 <=? 0 + Z.of_nat (length pre))%Z with true by (symmetry; apply Z.leb_le; lia).
  rewrite (map_from_hit (λ item, with_quantity item (VNum (Math_floor q))) id).
  by rewrite !map_id.
Qed.

Lemma update_absent state a productId q :
  type a = VStr "UPDATE_QUANTITY" →
  get_prop (payload a) "productId" = VStr productId → productId ≠ "" →
  get_prop (payload a) "quantity" = VNum q → is_nan q = false →
  (Math_floor q <=? 0)%float = false →
  Forall (λ cartItem, has_id productId cartItem = false) (items state) →
  cartReducer dev state a
  = (if dev then [UpdateNotFound productId] else [], Same).
Proof.
  intros Ht Hp Hne Hq Hnan Hle Habs.
  rewrite reducer_UPDATE_QUANTITY by done.
  unfold case_UPDATE_QUANTITY. rewrite !get_prop_nullish, Hp, Hq.
  rewrite update_accepted, Hle by done.
  unfold findIndex. by rewrite (findIndex_from_absent _ _ _ Habs).
Qed.

(** The three guards, when they reject. *)
Lemma add_rejected state a :
  type a = VStr "ADD_ITEM" →
  invalid_add_item (get_prop (payload a) "item") (get_prop (payload a) "storeId") = true →
  cartReducer dev state a = ([InvalidAddItem (payload a)], Same).
Proof.
  intros Ht H. rewrite reducer_ADD_ITEM by done. unfold case_ADD_ITEM.
  by rewrite !get_prop_nullish, H.
Qed.

Lemma remove_rejected state a :
  type a = VStr "REMOVE_ITEM" →
  not_nonempty_string (get_prop (payload a) "productId") = true →
  cartReducer dev state a = ([InvalidRemoveItem (payload a)], Same).
Proof.
  intros Ht H. rewrite reducer_REMOVE_ITEM by done. unfold case_REMOVE_ITEM.
  by rewrite !get_prop_nullish, H.
Qed.

Lemma update_rejected state a :
  type a = VStr "UPDATE_QUANTITY" →
  invalid_update_quantity (get_prop (payload a) "productId")
    (get_prop (payload a) "quantity") = true →
  cartReducer dev state a = ([InvalidUpdateQuantity (payload a)], Same).
Proof.
  intros Ht H. rewrite reducer_UPDATE_QUANTITY by done. unfold case_UPDATE_QUANTITY.
  by rewrite !get_prop_nullish, H.
Qed.

Lemma reducer_CLEAR_CART state a :
  type a = VStr "CLEAR_CART" → cartReducer dev state a = ([], Initial).
Proof. intros H. unfold cartReducer. by rewrite H. Qed.
End WithEnv.

(** A payload that passes the ADD_ITEM guard is a valid one. *)
Lemma accepted_add_payload (p : val) :
  invalid_add_item (get_prop p "item") (get_prop p "storeId") = false →
  ∃ item productId sid, valid_add_payload p item productId sid.
Proof.
  unfold invalid_add_item. rewrite !orb_false_iff, !not_nonempty_string_false,
    not_nonneg_number_false, negb_false_iff.
  intros ((((Ht & (pid & Hpid & Hne)) & Hname) & Hprice) & (sid & Hsid & Hsne)).
  destruct (get_prop p "item") as [| | | | |o] eqn:E; try discriminate Hpid.
  exists o, pid, sid. by split.
Qed.

(** Removing an identifier that no item carries keeps every item. *)
Lemma filter_absent productId (l : list CartItem) :
  Forall (λ cartItem, has_id productId cartItem = false) l →
  List.filter (λ item, negb (has_id productId item)) l = l.
Proof.
  intros H. apply filter_all. eapply Forall_impl; [exact H |].
  by intros x ->.
Qed.

End CartFacts.

(** ** The specified behaviour of the cart *)

Module CartSpec.
Import Cart CartView Binary64 Contract FloatFacts ArrayFacts CartFacts.


Lemma soap_valid :
  valid_add_payload (payload (ADD_ITEM (VObj soap) (VStr "storeB"))) soap "soap" "storeB".
Proof.
  split; try reflexivity; try discriminate.
  - exists "Soap". split; [reflexivity | discriminate].
  - exists 10%float. split; reflexivity.
Defined.

Lemma strict_eq_str_true (v : val) (s : string) :
  strict_eq_str v s = true ↔ v = VStr s.
Proof.
  destruct v as [| | | |s'|]; simpl; try (split; congruence).
  destruct (String.eqb_spec s' s); split; congruence.
Qed.

Lemma strict_eq_str_false (v : val) (s : string) :
  v ≠ VStr s → strict_eq_str v s = false.
Proof.
  intros H. destruct (strict_eq_str v s) eqn:E; [|done].
  by apply strict_eq_str_true in E.
Qed.

(** C2: adding a valid item that carries a store identifier different
    from the cart's non-null one replaces the whole cart: the new state
    is exactly [{ storeId: storeY, items: [e] }], where the single entry
    [e] is the payload's item with the quantity 1: its [quantity] reads
    as the number [1] and every other property, [productId] among them,
    reads as in the payload's item.  Whatever the cart held before is
    gone. *)
Theorem store_switch_replaces_cart (dev : bool) (state : CartState)
    (storeX : string) (a : Action) (item : gmap string val)
    (productId storeY : string) :
  storeId state = Some storeX →
  type a = VStr "ADD_ITEM" →
  valid_add_payload (payload a) item productId storeY →
  storeY ≠ storeX →
  ∃ e : CartItem,
    cartReducer dev state a
    = (if dev then [StoreSwitched storeY (Some storeX)] else [],
       Fresh {| storeId := Some storeY; items := [e] |})
    ∧ dispatch dev state a = Some {| storeId := Some storeY; items := [e] |}
    ∧ e !! "quantity" = Some (VNum 1)
    ∧ (∀ k, k ≠ "quantity" → e !! k = item !! k)
    ∧ get e "productId" = VStr productId.
Proof.
  intros Hstore Ht Hv Hne.
  assert (cartReducer dev state a
          = (if dev then [StoreSwitched storeY (Some storeX)] else [],
             Fresh {| storeId := Some storeY;
                      items := [with_quantity item (VNum 1)] |})) as H.
  { rewrite <- Hstore. eapply add_other_store; eauto.
    eapply other_store_true; eauto. }
  exists (with_quantity item (VNum 1)). split; [exact H |].
  split; [unfold dispatch; by rewrite H |].
  unfold with_quantity. split; [by rewrite lookup_insert_eq |].
  split.
  - intros k Hk. by rewrite lookup_insert_ne.
  - rewrite get_insert_ne by done. by destruct Hv.
Qed.

Lemma store_switch_replaces_cart_witness :
  ∃ e : CartItem,
    dispatch true
      {| storeId := Some "storeA";
         items := [with_quantity milk (VNum 2); with_quantity bread (VNum 1)] |}
      (ADD_ITEM (VObj soap) (VStr "storeB"))
    = Some {| storeId := Some "storeB"; items := [e] |}
    ∧ e !! "quantity" = Some (VNum 1)
    ∧ e !! "name" = Some (VStr "Soap")
    ∧ e !! "price" = Some (VNum 10)
    ∧ get e "productId" = VStr "soap".
Proof.
  destruct (store_switch_replaces_cart true
              {| storeId := Some "storeA";
                 items := [with_quantity milk (VNum 2); with_quantity bread (VNum 1)] |}
              "storeA" (ADD_ITEM (VObj soap) (VStr "storeB")) soap "soap" "storeB"
              eq_refl eq_refl soap_valid)
    as (e & _ & Hd & Hq & Hk & Hid).
  - discriminate.
  - exists e. split; [exact Hd |]. split; [exact Hq |].
    split; [rewrite Hk by discriminate; reflexivity |].
    split; [rewrite Hk by discriminate; reflexivity | exact Hid].
Defined.

(** C4: [UpdateQuantity(productId, q)] with [Math.floor(q) <= 0] gives the
    very result of [RemoveItem(productId)] on the same state (same
    returned object, no diagnostic), and both return the initial state
    when no item is left. *)
Theorem update_nonpositive_is_remove (dev : bool) (state : CartState)
    (productId : string) (q : float) (update remove : Action) :
  type update = VStr "UPDATE_QUANTITY" →
  get_prop (payload update) "productId" = VStr productId →
  get_prop (payload update) "quantity" = VNum q →
  type remove = VStr "REMOVE_ITEM" →
  get_prop (payload remove) "productId" = VStr productId →
  productId ≠ "" →
  (Math_floor q <=? 0)%float = true →
  cartReducer dev state update = cartReducer dev state remove
  ∧ (List.filter (λ item, negb (has_id productId item)) (items state) = [] →
     cartReducer dev state update = ([], Initial)).
Proof.
  intros Htu Hpu Hqu Htr Hpr Hne Hle.
  rewrite (update_removes dev state update productId q) by done.
  rewrite (remove_valid dev state remove productId) by done.
  split; [reflexivity |]. cbn zeta. by intros ->.
Qed.

Lemma update_nonpositive_is_remove_witness :
  (cartReducer false
     {| storeId := Some "storeA"; items := [with_quantity milk (VNum 2)] |}
     (UPDATE_QUANTITY (VStr "milk") (VNum (-5)))
   = cartReducer false
       {| storeId := Some "storeA"; items := [with_quantity milk (VNum 2)] |}
       (REMOVE_ITEM (VStr "milk")))
  ∧ (cartReducer false
       {| storeId := Some "storeA"; items := [with_quantity milk (VNum 2)] |}
       (UPDATE_QUANTITY (VStr "milk") (VNum 0))
     = ([], Initial)).
Proof.
  split.
  - apply (update_nonpositive_is_remove false _ "milk" (-5)%float);
      first [reflexivity | discriminate].
  - apply (update_nonpositive_is_remove false _ "milk" 0%float
             (UPDATE_QUANTITY (VStr "milk") (VNum 0)) (REMOVE_ITEM (VStr "milk")));
      first [reflexivity | discriminate].
Defined.

Lemma has_id_carries (p : string) (item : CartItem) :
  has_id p item = true ↔ get item "productId" = VStr p.
Proof. apply strict_eq_str_true. Qed.

(** The items a removal keeps are the items that do not carry the
    [productId], in the order of the cart. *)
Lemma kept_items (p : string) (l : list CartItem) (item : CartItem) :
  item ∈ List.filter (λ x, negb (has_id p x)) l
  ↔ item ∈ l ∧ get item "productId" ≠ VStr p.
Proof.
  induction l as [|x l IH]; simpl.
  - rewrite elem_of_nil. tauto.
  - destruct (has_id p x) eqn:E; simpl; rewrite ?elem_of_cons, IH.
    + apply has_id_carries in E. split; [tauto |].
      intros [[-> | H] Hne]; [done | tauto].
    + assert (get x "productId" ≠ VStr p) as Hx.
      { intros H. apply has_id_carries in H. congruence. }
      split; [intros [-> | H]; tauto | tauto].
Qed.

Lemma kept_sublist (p : string) (l : list CartItem) :
  sublist (List.filter (λ x, negb (has_id p x)) l) l.
Proof.
  induction l as [|x l IH]; simpl; [constructor |].
  destruct (negb (has_id p x)); by constructor.
Qed.

Lemma kept_all (p : string) (l : list CartItem) :
  Forall (λ x, get x "productId" ≠ VStr p) l →
  List.filter (λ x, negb (has_id p x)) l = l.
Proof.
  induction 1 as [|x l Hx _ IH]; simpl; [done |].
  destruct (has_id p x) eqn:E; [by apply has_id_carries in E |].
  simpl. by rewrite IH.
Qed.

(** C5: removing the only item of a cart returns the initial empty
    state itself.  In general RemoveItem keeps the items that do not
    carry the [productId], in the order of the cart: when none is left
    the result is the initial empty state, and when some are left the
    result is a new state with these items and the [storeId] the cart
    had.  In particular, removing an item from a cart in which no other
    item carries its [productId] leaves the items before it and after
    it, with the cart's [storeId]. *)
Theorem remove_last_item_resets (dev : bool) :
  (∀ (state : CartState) (e : CartItem) (p : string) (a : Action),
      items state = [e] → get e "productId" = VStr p → p ≠ "" →
      type a = VStr "REMOVE_ITEM" → get_prop (payload a) "productId" = VStr p →
      cartReducer dev state a = ([], Initial)
      ∧ dispatch dev state a = Some initialCartState)
  ∧ (∀ (state : CartState) (p : string) (a : Action),
        type a = VStr "REMOVE_ITEM" →
        get_prop (payload a) "productId" = VStr p → p ≠ "" →
        ∃ rest : list CartItem,
          (∀ item, item ∈ rest
                   ↔ item ∈ items state ∧ get item "productId" ≠ VStr p)
          ∧ sublist rest (items state)
          ∧ (rest = [] →
             cartReducer dev state a = ([], Initial)
             ∧ dispatch dev state a = Some initialCartState)
          ∧ (rest ≠ [] →
             cartReducer dev state a
             = ([], Fresh {| storeId := storeId state; items := rest |})
             ∧ dispatch dev state a
               = Some {| storeId := storeId state; items := rest |}))
  ∧ (∀ (state : CartState) (pre post : list CartItem) (e : CartItem)
       (p : string) (a : Action),
        type a = VStr "REMOVE_ITEM" →
        get_prop (payload a) "productId" = VStr p → p ≠ "" →
        items state = pre ++ e :: post →
        get e "productId" = VStr p →
        Forall (λ x, get x "productId" ≠ VStr p) (pre ++ post) →
        pre ++ post ≠ [] →
        cartReducer dev state a
        = ([], Fresh {| storeId := storeId state; items := pre ++ post |})
        ∧ dispatch dev state a
          = Some {| storeId := storeId state; items := pre ++ post |}).
Proof.
  split; [|split].
  - intros state e p a Hitems He Hp Ht Hpay.
    assert (cartReducer dev state a = ([], Initial)) as H.
    { rewrite (remove_valid dev state a p) by done.
      rewrite Hitems. cbn. unfold has_id. rewrite He. cbn.
      by rewrite String.eqb_refl. }
    split; [exact H |]. unfold dispatch. by rewrite H.
  - intros state p a Ht Hpay Hp.
    exists (List.filter (λ x, negb (has_id p x)) (items state)).
    split; [intros item; apply kept_items |].
    split; [apply kept_sublist |].
    unfold dispatch. rewrite (remove_valid dev state a p) by done. cbn zeta.
    split.
    + intros ->. by split.
    + intros Hne.
      destruct (List.filter (λ x, negb (has_id p x)) (items state)); [done |].
      by split.
  - intros state pre post e p a Ht Hpay Hp Hitems He Hothers Hne.
    unfold dispatch. rewrite (remove_valid dev state a p) by done. cbn zeta.
    rewrite Hitems, List.filter_app. cbn [List.filter].
    apply has_id_carries in He. rewrite He. cbn [negb].
    apply Forall_app in Hothers as [Hpre Hpost].
    rewrite !kept_all by done.
    destruct (pre ++ post); [done |]. by split.
Qed.

Lemma remove_last_item_resets_witness :
  dispatch false
    {| storeId := Some "storeA"; items := [with_quantity milk (VNum 3)] |}
    (REMOVE_ITEM (VStr "milk"))
  = Some initialCartState
  ∧ cartReducer false
      {| storeId := Some "storeA";
         items := [with_quantity milk (VNum 2); with_quantity bread (VNum 1)] |}
      (REMOVE_ITEM (VStr "milk"))
    = ([], Fresh {| storeId := Some "storeA";
                    items := [] ++ [with_quantity bread (VNum 1)] |})
  ∧ dispatch false
      {| storeId := Some "storeA";
         items := [with_quantity bread (VNum 1); with_quantity milk (VNum 2);
                   with_quantity soap (VNum 4)] |}
      (REMOVE_ITEM (VStr "milk"))
    = Some {| storeId := Some "storeA";
              items := [with_quantity bread (VNum 1)] ++ [with_quantity soap (VNum 4)] |}.
Proof.
  split; [|split].
  - apply (proj1 (remove_last_item_resets false) _ (with_quantity milk (VNum 3)) "milk");
      first [reflexivity | discriminate].
  - apply (proj2 (proj2 (remove_last_item_resets false))
             {| storeId := Some "storeA";
                items := [with_quantity milk (VNum 2); with_quantity bread (VNum 1)] |}
             [] [with_quantity bread (VNum 1)] (with_quantity milk (VNum 2)) "milk");
      try reflexivity; try discriminate.
    repeat constructor. discriminate.
  - apply (proj2 (proj2 (remove_last_item_resets false))
             {| storeId := Some "storeA";
                items := [with_quantity bread (VNum 1); with_quantity milk (VNum 2);
                          with_quantity soap (VNum 4)] |}
             [with_quantity bread (VNum 1)] [with_quantity soap (VNum 4)]
             (with_quantity milk (VNum 2)) "milk");
      try reflexivity; try discriminate.
    repeat constructor; discriminate.
Defined.

(** C8: an action whose type is none of the four known tags makes the
    reducer raise; nothing is returned and no state is produced. *)
Theorem unknown_action_throws (dev : bool) (state : CartState) (a : Action) :
  type a ≠ VStr "ADD_ITEM" →
  type a ≠ VStr "REMOVE_ITEM" →
  type a ≠ VStr "UPDATE_QUANTITY" →
  type a ≠ VStr "CLEAR_CART" →
  cartReducer dev state a = ([], Throw (UnhandledActionType (type a)))
  ∧ dispatch dev state a = None.
Proof.
  intros H1 H2 H3 H4.
  assert (cartReducer dev state a = ([], Throw (UnhandledActionType (type a)))) as H.
  { unfold cartReducer.
    by rewrite !strict_eq_str_false. }
  split; [exact H |]. unfold dispatch. by rewrite H.
Qed.

Lemma unknown_action_throws_witness :
  cartReducer true initialCartState {| type := VStr "RESET"; payload := VUndef |}
  = ([], Throw (UnhandledActionType (VStr "RESET")))
  ∧ dispatch true initialCartState {| type := VStr "RESET"; payload := VUndef |} = None.
Proof.
  apply (unknown_action_throws true initialCartState
           {| type := VStr "RESET"; payload := VUndef |}); discriminate.
Defined.

Lemma with_quantity_other (item : CartItem) (q : val) (k : string) :
  k ≠ "quantity" → with_quantity item q !! k = item !! k.
Proof. intros H. unfold with_quantity. by rewrite lookup_insert_ne. Qed.

Lemma with_quantity_quantity (item : CartItem) (q : val) :
  with_quantity item q !! "quantity" = Some q.
Proof. unfold with_quantity. by rewrite lookup_insert_eq. Qed.

(** C10: when ADD_ITEM finds an entry with the incoming [productId] in a
    cart of the same store, the new cart differs from the old one only
    in that entry's [quantity]: every other property of the entry, its
    [name] and [price] among them, is the existing one, not the
    payload's; the items before and after it are the same objects. *)
Theorem merge_keeps_existing_fields (dev : bool) (state : CartState) (a : Action)
    (item : gmap string val) (productId sid : string)
    (pre : list CartItem) (e : CartItem) (post : list CartItem) (q : val) :
  type a = VStr "ADD_ITEM" →
  valid_add_payload (payload a) item productId sid →
  storeId state = Some sid →
  items state = pre ++ e :: post →
  Forall (λ cartItem, has_id productId cartItem = false) pre →
  has_id productId e = true →
  plus_one (get e "quantity") = Some q →
  ∃ e' : CartItem,
    cartReducer dev state a
    = ([], Fresh {| storeId := Some sid; items := pre ++ e' :: post |})
    ∧ e' !! "quantity" = Some q
    ∧ (∀ k, k ≠ "quantity" → e' !! k = e !! k)
    ∧ get e' "name" = get e "name"
    ∧ get e' "price" = get e "price".
Proof.
  intros Ht Hv Hs Hitems Hpre He Hq.
  exists (with_quantity e q). split; [|split; [|split; [|split]]].
  - rewrite (add_existing_product dev state a item productId sid pre e post); try done.
    + by rewrite Hq.
    + unfold other_store. rewrite Hs. by rewrite String.eqb_refl.
  - apply with_quantity_quantity.
  - intros k Hk. by apply with_quantity_other.
  - unfold get. by rewrite with_quantity_other.
  - unfold get. by rewrite with_quantity_other.
Qed.

Lemma milk_renamed_valid :
  valid_add_payload (payload (ADD_ITEM (VObj milk_renamed) (VStr "storeA")))
    milk_renamed "milk" "storeA".
Proof.
  split; try reflexivity; try discriminate.
  - exists "Oat drink". split; [reflexivity | discriminate].
  - exists 99%float. split; reflexivity.
Defined.

Lemma merge_keeps_existing_fields_witness :
  ∃ e' : CartItem,
    cartReducer false
      {| storeId := Some "storeA";
         items := [with_quantity bread (VNum 1); with_quantity milk (VNum 2)] |}
      (ADD_ITEM (VObj milk_renamed) (VStr "storeA"))
    = ([], Fresh {| storeId := Some "storeA";
                    items := [with_quantity bread (VNum 1)] ++ e' :: [] |})
    ∧ e' !! "quantity" = Some (VNum 3)
    ∧ (∀ k, k ≠ "quantity" → e' !! k = with_quantity milk (VNum 2) !! k)
    ∧ get e' "name" = get (with_quantity milk (VNum 2)) "name"
    ∧ get e' "price" = get (with_quantity milk (VNum 2)) "price".
Proof.
  apply (merge_keeps_existing_fields false
           {| storeId := Some "storeA";
              items := [with_quantity bread (VNum 1); with_quantity milk (VNum 2)] |}
           (ADD_ITEM (VObj milk_renamed) (VStr "storeA"))
           milk_renamed "milk" "storeA"
           [with_quantity bread (VNum 1)] (with_quantity milk (VNum 2)) [] (VNum 3)).
  - reflexivity.
  - exact milk_renamed_valid.
  - reflexivity.
  - reflexivity.
  - repeat constructor.
  - reflexivity.
  - reflexivity.
Defined.

Lemma not_nonempty_string_true (v : val) :
  ¬ nonempty_string v → not_nonempty_string v = true.
Proof.
  intros H. destruct (not_nonempty_string v) eqn:E; [done |].
  by apply not_nonempty_string_false in E.
Qed.

Lemma bad_price_rejected (v : val) : bad_price v → not_nonneg_number v = true.
Proof.
  intros [H | (n & -> & [H | H])]; simpl.
  - destruct v; try done. by destruct (H n).
  - by rewrite H.
  - rewrite H. apply orb_true_r.
Qed.

Lemma bad_quantity_rejected (v : val) : bad_quantity v → not_a_number v = true.
Proof.
  intros [H | (n & -> & H)]; simpl; [|done].
  destruct v; try done. by destruct (H n).
Qed.

(** C7: a malformed payload makes ADD_ITEM, REMOVE_ITEM and
    UPDATE_QUANTITY return the state object they were given; no
    exception is raised, and the only effect is one [console.warn]
    carrying the payload. *)
Theorem malformed_payload_is_rejected (dev : bool) (state : CartState) (p : val) :
  (malformed_add p →
   cartReducer dev state {| type := VStr "ADD_ITEM"; payload := p |}
   = ([InvalidAddItem p], Same))
  ∧ (malformed_remove p →
     cartReducer dev state {| type := VStr "REMOVE_ITEM"; payload := p |}
     = ([InvalidRemoveItem p], Same))
  ∧ (malformed_update p →
     cartReducer dev state {| type := VStr "UPDATE_QUANTITY"; payload := p |}
     = ([InvalidUpdateQuantity p], Same)).
Proof.
  split; [|split].
  - intros H. rewrite reducer_ADD_ITEM by done. unfold case_ADD_ITEM. cbn [payload].
    rewrite !get_prop_nullish.
    replace (invalid_add_item _ _) with true; [done |].
    symmetry. unfold invalid_add_item. rewrite !orb_true_iff.
    destruct H as [H | [H | [H | [H | H]]]].
    + left; left; left; left. by rewrite H.
    + left; left; left; right. by apply not_nonempty_string_true.
    + left; left; right. by apply not_nonempty_string_true.
    + left; right. by apply bad_price_rejected.
    + right. by apply not_nonempty_string_true.
  - intros H. rewrite reducer_REMOVE_ITEM by done. unfold case_REMOVE_ITEM. cbn [payload].
    rewrite !get_prop_nullish. by rewrite not_nonempty_string_true.
  - intros H. rewrite reducer_UPDATE_QUANTITY by done. unfold case_UPDATE_QUANTITY.
    cbn [payload]. rewrite !get_prop_nullish.
    replace (invalid_update_quantity _ _) with true; [done |].
    symmetry. unfold invalid_update_quantity. rewrite orb_true_iff.
    destruct H as [H | H].
    + left. by apply not_nonempty_string_true.
    + right. by apply bad_quantity_rejected.
Qed.


Lemma malformed_payload_is_rejected_witness :
  cartReducer true initialCartState
    (ADD_ITEM (VObj (<["price" := VNum (-1)]> milk)) (VStr "storeA"))
  = ([InvalidAddItem
        (payload (ADD_ITEM (VObj (<["price" := VNum (-1)]> milk)) (VStr "storeA")))],
     Same)
  ∧ cartReducer true initialCartState (REMOVE_ITEM (VStr ""))
    = ([InvalidRemoveItem (payload (REMOVE_ITEM (VStr "")))], Same)
  ∧ cartReducer true initialCartState (UPDATE_QUANTITY (VStr "milk") (VNum nan))
    = ([InvalidUpdateQuantity (payload (UPDATE_QUANTITY (VStr "milk") (VNum nan)))],
       Same).
Proof.
  split; [|split].
  - apply (proj1 (malformed_payload_is_rejected true initialCartState _)).
    right; right; right; left. right. exists (-1)%float.
    split; [reflexivity | right; reflexivity].
  - apply (proj1 (proj2 (malformed_payload_is_rejected true initialCartState _))).
    intros (s & Hs & Hne). apply Hne.
    change (VStr "" = VStr s) in Hs. congruence.
  - apply (proj2 (proj2 (malformed_payload_is_rejected true initialCartState _))).
    right. right. exists nan. split; reflexivity.
Defined.

Lemma abs_of_positive (q : float) : (0 <? q)%float = true → abs q = q.
Proof.
  rewrite FloatAxioms.ltb_spec, Prim2SF_zero. intros H.
  apply Prim2SF_inj. rewrite abs_spec.
  destruct (Prim2SF q) as [s|s| |s m e]; try destruct s; try discriminate H;
    reflexivity.
Qed.

Lemma eqb_positive (x y : float) :
  (x =? y)%float = true → (0 <? y)%float = true → (0 <? x)%float = true.
Proof.
  rewrite FloatAxioms.eqb_spec, !FloatAxioms.ltb_spec, Prim2SF_zero.
  unfold SFeqb, SFltb.
  destruct (Prim2SF x) as [s|s| |s m e], (Prim2SF y) as [s'|s'| |s' m' e'];
    try destruct s; try destruct s'; simpl; congruence.
Qed.

Lemma positive_integer_floor (q : float) :
  positive_integer q →
  is_nan q = false ∧ (Math_floor q <=? 0)%float = false.
Proof.
  intros [Hint Hpos]. unfold isIntegralNumber in Hint.
  apply andb_true_iff in Hint as [_ Hfloor].
  rewrite (abs_of_positive _ Hpos) in Hfloor.
  pose proof (eqb_positive _ _ Hfloor Hpos) as Hfpos.
  split.
  - by apply floor_gt_zero_not_nan.
  - by apply pos_not_le_zero.
Qed.

(** C9, as the reducer has it: on a non-empty cart that holds no item
    with the given non-empty [productId], UpdateQuantity with a positive
    integer returns the state object it was given, while RemoveItem
    returns a new object with the same [storeId] and the same items. *)
Theorem absent_id_keeps_cart (dev : bool) (state : CartState)
    (productId : string) (q : float) (update remove : Action) :
  items state ≠ [] →
  productId ≠ "" →
  Forall (λ cartItem, has_id productId cartItem = false) (items state) →
  type update = VStr "UPDATE_QUANTITY" →
  get_prop (payload update) "productId" = VStr productId →
  get_prop (payload update) "quantity" = VNum q →
  positive_integer q →
  type remove = VStr "REMOVE_ITEM" →
  get_prop (payload remove) "productId" = VStr productId →
  cartReducer dev state update
  = (if dev then [UpdateNotFound productId] else [], Same)
  ∧ cartReducer dev state remove = ([], Fresh state)
  ∧ dispatch dev state update = Some state
  ∧ dispatch dev state remove = Some state.
Proof.
  intros Hne Hp Habs Htu Hpu Hqu Hq Htr Hpr.
  apply positive_integer_floor in Hq as [Hnan Hfloor].
  assert (cartReducer dev state update
          = (if dev then [UpdateNotFound productId] else [], Same)) as Hu
    by (by eapply update_absent).
  assert (cartReducer dev state remove = ([], Fresh state)) as Hr.
  { rewrite (remove_valid dev state remove productId) by done.
    cbn zeta. rewrite filter_absent by done.
    destruct state as [s [|x l]]; [done | reflexivity]. }
  unfold dispatch. rewrite Hu, Hr. by destruct dev.
Qed.

Lemma absent_id_keeps_cart_witness :
  cartReducer true
    {| storeId := Some "storeA"; items := [with_quantity milk (VNum 1)] |}
    (UPDATE_QUANTITY (VStr "nonexistent") (VNum 3))
  = ([UpdateNotFound "nonexistent"], Same)
  ∧ cartReducer true
      {| storeId := Some "storeA"; items := [with_quantity milk (VNum 1)] |}
      (REMOVE_ITEM (VStr "nonexistent"))
    = ([], Fresh {| storeId := Some "storeA"; items := [with_quantity milk (VNum 1)] |})
  ∧ dispatch true
      {| storeId := Some "storeA"; items := [with_quantity milk (VNum 1)] |}
      (UPDATE_QUANTITY (VStr "nonexistent") (VNum 3))
    = Some {| storeId := Some "storeA"; items := [with_quantity milk (VNum 1)] |}
  ∧ dispatch true
      {| storeId := Some "storeA"; items := [with_quantity milk (VNum 1)] |}
      (REMOVE_ITEM (VStr "nonexistent"))
    = Some {| storeId := Some "storeA"; items := [with_quantity milk (VNum 1)] |}.
Proof.
  apply (absent_id_keeps_cart true
           {| storeId := Some "storeA"; items := [with_quantity milk (VNum 1)] |}
           "nonexistent" 3%float).
  - discriminate.
  - discriminate.
  - repeat constructor.
  - reflexivity.
  - reflexivity.
  - reflexivity.
  - split; reflexivity.
  - reflexivity.
  - reflexivity.
Defined.

(** C9 as stated fails: RemoveItem("nonexistent") on a cart holding milk
    does not return the state object it was given. *)
Lemma remove_absent_returns_new_object :
  items {| storeId := Some "storeA"; items := [with_quantity milk (VNum 1)] |} ≠ []
  ∧ Forall (λ cartItem, has_id "nonexistent" cartItem = false)
      (items {| storeId := Some "storeA"; items := [with_quantity milk (VNum 1)] |})
  ∧ snd (cartReducer false
           {| storeId := Some "storeA"; items := [with_quantity milk (VNum 1)] |}
           (REMOVE_ITEM (VStr "nonexistent")))
    ≠ Same.
Proof.
  split; [discriminate | split; [repeat constructor |]].
  vm_compute. discriminate.
Qed.


(** *** Adding the same product again and again *)

Lemma with_quantity_twice (item : CartItem) (q q' : val) :
  with_quantity (with_quantity item q) q' = with_quantity item q'.
Proof. unfold with_quantity. apply insert_insert_eq. Qed.

Lemma has_id_with_quantity (item : CartItem) (productId : string) (q : val) :
  get item "productId" = VStr productId →
  has_id productId (with_quantity item q) = true.
Proof.
  intros H. unfold has_id, with_quantity.
  rewrite get_insert_ne, H by done. simpl. apply String.eqb_refl.
Qed.







(** *** The grand total *)

Lemma price_of_not_nan (item : CartItem) : is_nan (price_of item) = false.
Proof.
  unfold price_of. destruct (get item "price") as [| | |p| |]; try reflexivity.
  destruct (is_nan p) eqn:E; [reflexivity | exact E].
Qed.

Lemma quantity_of_finite (item : CartItem) : is_finite (quantity_of item) = true.
Proof.
  unfold quantity_of. destruct (get item "quantity") as [| | |q| |]; try reflexivity.
  destruct (isIntegralNumber q) eqn:E; [|reflexivity].
  unfold isIntegralNumber in E. by apply andb_true_iff in E as [E _].
Qed.

Lemma one_le_positive (q : float) : (1 <=? q)%float = true → (0 <? q)%float = true.
Proof.
  rewrite FloatAxioms.leb_spec, FloatAxioms.ltb_spec, Prim2SF_zero.
  change (Prim2SF 1) with (S754_finite false 4503599627370496 (-52)).
  unfold SFleb, SFltb.
  destruct (Prim2SF q) as [s|s| |s m e]; try destruct s; simpl; congruence.
Qed.

Lemma priced_item_total (item : CartItem) :
  priced item → (0 <=? price_of item * quantity_of item)%float = true.
Proof.
  intros (p & q & Hp & Hp0 & Hq & Hint & Hq1).
  unfold price_of, quantity_of. rewrite Hp, Hq, Hint.
  apply nonneg_iff in Hp0 as Hp1. destruct Hp1 as [-> _]. cbn [negb].
  apply mul_nonneg; [done | | by apply one_le_positive].
  unfold isIntegralNumber in Hint. by apply andb_true_iff in Hint as [E _].
Qed.

Lemma fold_total_nonneg (l : list CartItem) (acc : float) :
  Forall priced l → (0 <=? acc)%float = true →
  (0 <=? fold_left (λ sum item, sum + price_of item * quantity_of item) l acc)%float
  = true.
Proof.
  intros H. revert acc. induction H as [|x l Hx _ IH]; intros acc Hacc; simpl.
  - done.
  - apply IH. apply add_nonneg; [done | by apply priced_item_total].
Qed.

(** C6, as the view computes it: Total is the left-to-right binary64 sum,
    starting from [0], of [price * quantity] over the items, where the
    price of an item is its [price] itself when that is a number other
    than NaN (a negative price counts as it is) and [0] otherwise, and
    the quantity of an item is its [quantity] itself when that is an
    integer and [0] otherwise.  An item whose price is replaced by [0]
    contributes zero, and so does an item whose quantity is replaced by
    [0] when its price is finite.  When every item has a price [>= 0]
    and an integer quantity [>= 1], Total is a number [>= 0] (never NaN,
    never negative; it may be [Infinity]).  The cart [{price: 30,
    quantity: 2}, {price: 25, quantity: 1}] totals [85]. *)
Theorem total_price_spec :
  totalPrice [] = 0%float
  ∧ (∀ (l : list CartItem) (item : CartItem),
       ∃ price quantity : float,
         totalPrice (l ++ [item]) = (totalPrice l + price * quantity)%float
         ∧ (∀ p, get item "price" = VNum p → is_nan p = false → price = p)
         ∧ (not_a_number (get item "price") = true → price = 0%float)
         ∧ (∀ q, get item "quantity" = VNum q → isIntegralNumber q = true →
                 quantity = q)
         ∧ (Number_isInteger (get item "quantity") = false → quantity = 0%float)
         ∧ (not_a_number (get item "price") = true →
            is_zero (price * quantity) = true)
         ∧ (Number_isInteger (get item "quantity") = false →
            is_finite price = true →
            is_zero (price * quantity) = true))
  ∧ (∀ l : list CartItem,
       Forall priced l → (0 <=? totalPrice l)%float = true)
  ∧ totalPrice [with_quantity milk (VNum 2); with_quantity bread (VNum 1)]
    = 85%float.
Proof.
  split; [|split; [|split]].
  - reflexivity.
  - intros l item. exists (price_of item), (quantity_of item).
    assert (not_a_number (get item "price") = true → price_of item = 0%float)
      as Hprice.
    { intros H. unfold price_of.
      destruct (get item "price") as [| | |p| |]; try reflexivity.
      simpl in H. by rewrite H. }
    assert (Number_isInteger (get item "quantity") = false →
            quantity_of item = 0%float) as Hquantity.
    { intros H. unfold quantity_of.
      destruct (get item "quantity") as [| | |q| |]; try reflexivity.
      simpl in H. by rewrite H. }
    split; [unfold totalPrice; by rewrite fold_left_app |].
    split; [intros p Hp Hnan; unfold price_of; by rewrite Hp, Hnan |].
    split; [exact Hprice |].
    split; [intros q Hq Hint; unfold quantity_of; by rewrite Hq, Hint |].
    split; [exact Hquantity |].
    split.
    + intros H. rewrite (Hprice H). apply zero_mul_finite, quantity_of_finite.
    + intros H Hfin. rewrite (Hquantity H). by apply finite_mul_zero.
  - intros l H. by apply fold_total_nonneg.
  - reflexivity.
Qed.

Lemma total_price_spec_witness :
  (0 <=? totalPrice [with_quantity milk (VNum 2); with_quantity bread (VNum 1)])%float
  = true
  ∧ (∃ price quantity : float,
       totalPrice ([with_quantity milk (VNum 2)] ++ [Samples.refund])
       = (totalPrice [with_quantity milk (VNum 2)] + price * quantity)%float
       ∧ price = (-5)%float ∧ quantity = 2%float)
  ∧ (∃ price quantity : float,
       totalPrice ([] ++ [with_quantity (<["price" := VStr "30"]> milk) (VNum 2)])
       = (totalPrice [] + price * quantity)%float
       ∧ price = 0%float ∧ quantity = 2%float
       ∧ is_zero (price * quantity) = true).
Proof.
  split; [|split].
  - apply (proj1 (proj2 (proj2 total_price_spec))).
    repeat constructor.
    + exists 30%float, 2%float. repeat split; reflexivity.
    + exists 25%float, 1%float. repeat split; reflexivity.
  - destruct (proj1 (proj2 total_price_spec)
                [with_quantity milk (VNum 2)] Samples.refund)
      as (price & quantity & Hsum & Hp & _ & Hq & _).
    exists price, quantity. split; [exact Hsum |]. split.
    + apply Hp; reflexivity.
    + apply Hq; reflexivity.
  - destruct (proj1 (proj2 total_price_spec)
                [] (with_quantity (<["price" := VStr "30"]> milk) (VNum 2)))
      as (price & quantity & Hsum & _ & Hp & Hq & _ & Hz & _).
    exists price, quantity. split; [exact Hsum |]. split; [|split].
    + apply Hp; reflexivity.
    + apply Hq; reflexivity.
    + apply Hz; reflexivity.
Defined.

(** C6 as stated fails on states the reducer itself produces: with a
    product priced [Infinity] in the cart Total is [Infinity], and once
    its quantity is set to [Infinity] Total is NaN. *)
Lemma total_price_not_always_finite :
  dispatch_all false initialCartState [ADD_ITEM (VObj gold) (VStr "storeA")]
  = Some {| storeId := Some "storeA"; items := [with_quantity gold (VNum 1)] |}
  ∧ totalPrice [with_quantity gold (VNum 1)] = infinity
  ∧ is_finite infinity = false
  ∧ dispatch_all false initialCartState
      [ADD_ITEM (VObj gold) (VStr "storeA");
       UPDATE_QUANTITY (VStr "gold") (VNum infinity)]
    = Some {| storeId := Some "storeA";
              items := [with_quantity gold (VNum infinity)] |}
  ∧ is_nan (totalPrice [with_quantity gold (VNum infinity)]) = true.
Proof.
  repeat split; by vm_compute.
Qed.

(** *** Quantities that are not integers *)

(** C1 fails on the quantity: UPDATE_QUANTITY accepts [Infinity], whose
    floor is [Infinity], and stores it as the item's quantity, which is
    then not an integer. *)
Theorem update_quantity_stores_infinity :
  dispatch_all false initialCartState
    [ADD_ITEM (VObj milk) (VStr "storeA");
     UPDATE_QUANTITY (VStr "milk") (VNum infinity)]
  = Some {| storeId := Some "storeA";
            items := [with_quantity milk (VNum infinity)] |}
  ∧ get (with_quantity milk (VNum infinity)) "quantity" = VNum infinity
  ∧ Number_isInteger (VNum infinity) = false.
Proof.
  repeat split; by vm_compute.
Qed.


(** *** What every reachable state satisfies *)

Lemma stored_with_quantity (item : CartItem) (q : float) :
  nonempty_string (get item "productId") →
  nonempty_string (get item "name") →
  nonneg_number (get item "price") →
  whole q →
  stored_item (with_quantity item (VNum q)).
Proof.
  intros H1 H2 H3 H4. unfold stored_item, with_quantity.
  rewrite !get_insert_ne by done. rewrite get_insert_eq.
  repeat split; try done. by exists q.
Qed.

Lemma id_with_quantity (item : CartItem) (q : val) :
  get (with_quantity item q) "productId" = get item "productId".
Proof. unfold with_quantity. by rewrite get_insert_ne. Qed.

Lemma ids_replace (pre post : list CartItem) (e e' : CartItem) :
  get e' "productId" = get e "productId" →
  ids (pre ++ e' :: post) = ids (pre ++ e :: post).
Proof. intros H. unfold ids. rewrite !map_app. simpl. by rewrite H. Qed.

Lemma absent_not_in_ids (productId : string) (l : list CartItem) :
  Forall (λ cartItem, has_id productId cartItem = false) l →
  VStr productId ∉ ids l.
Proof.
  induction 1 as [|x l Hx _ IH]; simpl.
  - apply not_elem_of_nil.
  - apply not_elem_of_cons. split; [|done].
    intros E. unfold has_id in Hx. rewrite <- E in Hx. simpl in Hx.
    by rewrite String.eqb_refl in Hx.
Qed.

Lemma elem_ids_filter (g : CartItem → bool) (l : list CartItem) (y : val) :
  y ∈ ids (List.filter g l) → y ∈ ids l.
Proof.
  induction l as [|x l IH]; simpl; [done |].
  destruct (g x); simpl; rewrite ?elem_of_cons; intuition.
Qed.

Lemma nodup_ids_filter (g : CartItem → bool) (l : list CartItem) :
  NoDup (ids l) → NoDup (ids (List.filter g l)).
Proof.
  induction l as [|x l IH]; simpl; [done |].
  intros H. apply NoDup_cons in H as [Hx Hl].
  destruct (g x); simpl; [|auto].
  apply NoDup_cons. split; [|auto].
  intros Hin. by apply Hx, (elem_ids_filter g).
Qed.

Lemma forall_filter {A} (P : A → Prop) (g : A → bool) (l : list A) :
  Forall P l → Forall P (List.filter g l).
Proof.
  induction 1 as [|x l Hx _ IH]; simpl; [done |].
  destruct (g x); [by constructor | done].
Qed.

Lemma invariant_initial : cart_invariant initialCartState.
Proof. split; [done | split; constructor]. Qed.

Lemma invariant_after_removal (state : CartState) (productId : string) :
  cart_invariant state →
  ∃ state',
    next_state state
      (snd (let newItems :=
              List.filter (λ item, negb (has_id productId item)) (items state) in
            if (length newItems =? 0)%nat then ([], Initial)
            else ([] : list diagnostic,
                  Fresh {| storeId := storeId state; items := newItems |})))
    = Some state'
    ∧ cart_invariant state'.
Proof.
  intros (Hiff & Hall & Hnd). cbn zeta.
  destruct (List.filter _ (items state)) as [|x l] eqn:E; simpl.
  - eexists. split; [done | apply invariant_initial].
  - eexists. split; [done |]. rewrite <- E. split; [|split].
    + cbn [storeId items]. rewrite E. split; [|done].
      intros Hs. apply Hiff in Hs. by rewrite Hs in E.
    + by apply forall_filter.
    + by apply nodup_ids_filter.
Qed.

Lemma invariant_replace (sid : string) (pre post : list CartItem) (e : CartItem)
    (q : float) :
  Forall stored_item (pre ++ e :: post) →
  NoDup (ids (pre ++ e :: post)) →
  whole q →
  cart_invariant
    {| storeId := Some sid; items := pre ++ with_quantity e (VNum q) :: post |}.
Proof.
  intros Hall Hnd Hq. split; [|split]; cbn [storeId items].
  - split; [done |]. by destruct pre.
  - apply Forall_app in Hall as [Hpre Hrest].
    apply Forall_cons in Hrest as [(H1 & H2 & H3 & _) Hpost].
    apply Forall_app. split; [done |].
    apply Forall_cons. split; [by apply stored_with_quantity | done].
  - by rewrite (ids_replace pre post e) by apply id_with_quantity.
Qed.

Lemma invariant_step (dev : bool) (state : CartState) (a : Action) :
  cart_invariant state → known_action a →
  ∃ state', dispatch dev state a = Some state' ∧ cart_invariant state'.
Proof.
  intros Hinv Hk. pose proof Hinv as (Hiff & Hall & Hnd). unfold dispatch.
  destruct Hk as [Ht | [Ht | [Ht | Ht]]].
  - (* ADD_ITEM *)
    destruct (invalid_add_item (get_prop (payload a) "item")
                (get_prop (payload a) "storeId")) eqn:E.
    { rewrite add_rejected by done. by eexists. }
    destruct (accepted_add_payload _ E) as (item & productId & sid & Hv).
    pose proof Hv as [_ Hid Hne Hname Hprice _ _].
    assert (stored_item (with_quantity item (VNum 1))) as Hnew.
    { apply stored_with_quantity; try done; [|apply whole_one].
      rewrite Hid. by eexists. }
    destruct (other_store state sid) eqn:Eo.
    { rewrite (add_other_store dev state a item productId sid) by done.
      eexists. split; [done |]. split; [|split]; cbn [storeId items].
      - done.
      - by apply Forall_singleton.
      - simpl. apply NoDup_singleton. }
    destruct (findIndex_from_cases (has_id productId) 0 (items state))
      as [[Habs _] | (pre & e & post & Hitems & Hpre & He & _)].
    + rewrite (add_new_product dev state a item productId sid) by done.
      eexists. split; [done |]. split; [|split]; cbn [storeId items].
      * split; [done |]. intros Happ. by apply app_nil in Happ as [_ ?].
      * apply Forall_app. split; [done | by apply Forall_singleton].
      * unfold ids. rewrite map_app. apply NoDup_app. split; [done |].
        split; [|simpl; apply NoDup_singleton].
        intros y Hy Hy'. simpl in Hy'. apply list_elem_of_singleton in Hy'. subst y.
        rewrite id_with_quantity, Hid in Hy.
        by apply (absent_not_in_ids productId (items state)).
    + rewrite (add_existing_product dev state a item productId sid pre e post)
        by done.
      rewrite Hitems in Hall, Hnd.
      assert (∃ q, get e "quantity" = VNum q ∧ whole q) as (q & Hq & Hwhole).
      { apply Forall_app in Hall as [_ Hrest].
        by apply Forall_cons in Hrest as [(_ & _ & _ & Hq) _]. }
      rewrite Hq. cbn [plus_one]. eexists. split; [done |].
      apply invariant_replace; try done. by apply whole_succ.
  - (* REMOVE_ITEM *)
    destruct (not_nonempty_string (get_prop (payload a) "productId")) eqn:E.
    { rewrite remove_rejected by done. by eexists. }
    apply not_nonempty_string_false in E as (productId & Hp & Hne).
    rewrite (remove_valid dev state a productId) by done.
    by apply invariant_after_removal.
  - (* UPDATE_QUANTITY *)
    destruct (invalid_update_quantity (get_prop (payload a) "productId")
                (get_prop (payload a) "quantity")) eqn:E.
    { rewrite update_rejected by done. by eexists. }
    apply orb_false_iff in E as [Ep Eq].
    apply not_nonempty_string_false in Ep as (productId & Hp & Hne).
    apply not_a_number_false in Eq as (q & Hq & Hnan).
    destruct (Math_floor q <=? 0)%float eqn:Efloor.
    { rewrite (update_removes dev state a productId q) by done.
      by apply invariant_after_removal. }
    destruct (findIndex_from_cases (has_id productId) 0 (items state))
      as [[Habs _] | (pre & e & post & Hitems & Hpre & He & _)].
    + rewrite (update_absent dev state a productId q) by done. by eexists.
    + rewrite (update_existing dev state a productId q pre e post) by done.
      rewrite Hitems in Hall, Hnd.
      eexists. split; [done |].
      destruct (storeId state) as [sid|] eqn:Es.
      * apply invariant_replace; try done. by apply whole_floor.
      * assert (items state = []) as Hnil by by apply Hiff.
        rewrite Hitems in Hnil. by destruct pre.
  - (* CLEAR_CART *)
    rewrite reducer_CLEAR_CART by done.
    eexists. split; [done | apply invariant_initial].
Qed.

(** X1: every finite sequence of ADD_ITEM, REMOVE_ITEM, UPDATE_QUANTITY and
    CLEAR_CART actions, whatever their payloads, runs to completion from
    the empty cart without an exception, and the state it ends in has a
    null [storeId] exactly when it has no items, holds items whose
    [productId] and [name] are non-empty strings, whose [price] is a
    number [>= 0] and whose [quantity] is a positive integer or
    [Infinity], and holds no two items with the same [productId]. *)
Theorem reachable_states_are_well_formed (dev : bool) (actions : list Action) :
  Forall known_action actions →
  ∃ state, dispatch_all dev initialCartState actions = Some state
           ∧ cart_invariant state.
Proof.
  intros H. pose proof invariant_initial as Hinit.
  revert Hinit. generalize initialCartState as s.
  induction H as [|a actions Ha _ IH]; intros s Hs; simpl.
  - by exists s.
  - destruct (invariant_step dev s a Hs Ha) as (s' & -> & Hs'). by apply IH.
Qed.

Lemma reachable_states_are_well_formed_witness :
  ∃ state,
    dispatch_all true initialCartState
      [ADD_ITEM (VObj milk) (VStr "storeA");
       ADD_ITEM (VObj bread) (VStr "storeA");
       UPDATE_QUANTITY (VStr "milk") (VNum 2.5);
       REMOVE_ITEM (VStr "bread");
       ADD_ITEM (VObj soap) (VStr "storeB");
       ADD_ITEM VNull VUndef;
       CLEAR_CART]
    = Some state
    ∧ cart_invariant state.
Proof.
  apply (reachable_states_are_well_formed true).
  repeat constructor; unfold known_action; cbn [type ADD_ITEM REMOVE_ITEM
    UPDATE_QUANTITY CLEAR_CART]; tauto.
Defined.

End CartSpec.

(** ** Integer quantities in binary64 *)

Module IntegerFacts.
Import Binary64 FloatFacts.

Lemma SFint_ge_one_shape (x : spec_float) (n : Z) :
  SFint x = Some n → (1 <= n)%Z → ∃ m e, x = S754_finite false m e.
Proof.
  intros Hint Hn. destruct x as [s|s| |s m e]; try discriminate Hint.
  - simpl in Hint. injection Hint as <-. lia.
  - destruct s; [|by eauto].
    apply SFint_negative in Hint. lia.
Qed.

(** A positive integer is its own floor. *)
Lemma SFfloor_of_integer (m : positive) (e n : Z) :
  valid_binary (S754_finite false m e) = true →
  SFint (S754_finite false m e) = Some n →
  SFfloor (S754_finite false m e) = S754_finite false m e.
Proof.
  intros Hv Hint. unfold SFfloor.
  destruct (Z.leb_spec 0 e) as [He | He]; [done |].
  pose proof (floor_mantissa_bound false m e Hv He) as Hb.
  destruct (normalize_int _ Hb) as [Hv' Hint'].
  cbn [cond_Zopp] in *.
  pose proof (SFint_positive _ _ _ Hint) as Hn.
  assert (Z.shiftr (Zpos m) (- e) = n) as Hsh.
  { rewrite Z.shiftr_div_pow2 by lia.
    unfold SFint in Hint.
    replace (0 <=? e)%Z with false in Hint by (symmetry; apply Z.leb_gt; lia).
    destruct (Zpos m mod 2 ^ (- e) =? 0)%Z; [|done].
    by injection Hint. }
  rewrite Hsh in *.
  destruct (SFint_ge_one_shape _ _ Hint' Hn) as (m' & e' & Hr).
  rewrite Hr in *.
  destruct n as [|n|n]; try lia.
  rewrite (int_canonical m e n), (int_canonical m' e' n); try done; lia.
Qed.

Lemma compare_cont_Eq (p q : positive) :
  Pos.compare_cont Eq p q = (p ?= q)%positive.
Proof. reflexivity. Qed.

(** A value that stands for an integer [>= 1] is finite, passes
    [Number.isInteger] and is not below [1]. *)
Lemma integer_ge_one (q : float) (n : Z) :
  int_value q = Some n → (1 <= n)%Z →
  is_finite q = true ∧ isIntegralNumber q = true
  ∧ (q <? 1)%float = false ∧ (1 <=? q)%float = true.
Proof.
  intros Hint Hn. unfold int_value in Hint.
  destruct (SFint_ge_one_shape _ _ Hint Hn) as (m & e & Hq).
  pose proof (Prim2SF_valid q) as Hv. rewrite Hq in Hv, Hint.
  assert (is_finite q = true) as Hfin by (by rewrite is_finite_spec, Hq).
  assert (abs q = q) as Habs.
  { apply Prim2SF_inj. by rewrite abs_spec, Hq. }
  assert (Math_floor q = q) as Hfloor.
  { apply Prim2SF_inj. rewrite Math_floor_spec, Hq.
    by eapply SFfloor_of_integer. }
  assert (-52 <= e ∧ (e = -52 → 4503599627370496 <= Zpos m))%Z as [He Hm].
  { apply valid_finite in Hv as (Hd & _ & _).
    pose proof (pos_lt_pow_digits m) as Hlt.
    assert (2 ^ Zpos (digits2_pos m) <= 2 ^ 53)%Z as Hpow
      by (apply Z.pow_le_mono_r; lia).
    change (2 ^ 53)%Z with 9007199254740992%Z in Hpow.
    unfold SFint, cond_Zopp in Hint.
    destruct (Z.leb_spec 0 e) as [He0 | He0]; [lia |].
    destruct (Z.eqb_spec (Zpos m mod 2 ^ (- e)) 0) as [Hmod | Hmod]; [|done].
    injection Hint as Hint.
    assert (0 < 2 ^ (- e))%Z as Hpos by (apply Z.pow_pos_nonneg; lia).
    assert (Zpos m = n * 2 ^ (- e))%Z as Hmn.
    { pose proof (Z.div_mod (Zpos m) (2 ^ (- e))) as Hdm. nia. }
    assert (2 ^ (- e) < 2 ^ 53)%Z as Hlt'.
    { change (2 ^ 53)%Z with 9007199254740992%Z. nia. }
    apply Z.pow_lt_mono_r_iff in Hlt'; [|lia..].
    split; [lia |]. intros ->. change (2 ^ (- -52))%Z with 4503599627370496%Z in Hmn.
    nia. }
  assert (SFcompare (S754_finite false m e) (Prim2SF 1)
          = Some Gt ∨ SFcompare (S754_finite false m e) (Prim2SF 1) = Some Eq)
    as Hcmp.
  { change (Prim2SF 1) with (S754_finite false 4503599627370496 (-52)).
    cbn [SFcompare].
    destruct (Z.compare_spec e (-52)) as [-> | Hlt | Hgt]; [| lia | by left].
    specialize (Hm eq_refl).
    destruct (Pos.compare_cont Eq m 4503599627370496) eqn:E;
      [by right | exfalso | by left].
    rewrite compare_cont_Eq in E.
    apply Pos2Z.pos_lt_pos in E. lia. }
  repeat split.
  - done.
  - unfold isIntegralNumber. rewrite Hfin, Habs, Hfloor.
    by rewrite FloatAxioms.eqb_spec, Hq, SFeqb_refl.
  - rewrite FloatAxioms.ltb_spec, Hq. unfold SFltb.
    by destruct Hcmp as [-> | ->].
  - rewrite FloatAxioms.leb_spec. unfold SFleb.
    change (Prim2SF 1) with (S754_finite false 4503599627370496 (-52)) in *.
    rewrite Hq. cbn [SFcompare] in *.
    destruct (Z.compare_spec (-52) e) as [<- | Hlt | Hgt]; [| done | lia].
    specialize (Hm eq_refl).
    destruct (Pos.compare_cont Eq 4503599627370496 m) eqn:E; [done.. | exfalso].
    rewrite compare_cont_Eq in E.
    apply Pos.compare_gt_iff, Pos2Z.pos_lt_pos in E. lia.
Qed.

(** A stored quantity is [Infinity], or an integer [>= 1] in the sense
    of [Number.isInteger]. *)
Lemma whole_cases (q : float) :
  whole q →
  q = infinity
  ∨ (is_finite q = true ∧ isIntegralNumber q = true
     ∧ (q <? 1)%float = false ∧ (1 <=? q)%float = true).
Proof.
  intros [-> | (n & Hint & Hn)]; [by left | right].
  by eapply integer_ge_one.
Qed.

Lemma infinity_not_integral : isIntegralNumber infinity = false.
Proof. reflexivity. Qed.

(** The floor of a finite number is finite. *)
Lemma Math_floor_finite (q : float) :
  is_finite q = true → is_finite (Math_floor q) = true.
Proof.
  rewrite !is_finite_spec, Math_floor_spec. intros H.
  destruct (SFfloor_valid_int (Prim2SF q) (Prim2SF_valid q)) as [_ Hint].
  destruct (Prim2SF q) as [s|s| |s m e]; try done.
  destruct Hint as [n Hn].
  by destruct (SFfloor (S754_finite s m e)).
Qed.

Lemma finite_not_infinity (q : float) : is_finite q = true → q ≠ infinity.
Proof. by intros H ->. Qed.


End IntegerFacts.

(** ** The provider's functions *)

Module ProviderSpec.
Import Cart Contract Provider FloatFacts ArrayFacts CartFacts CartSpec.

(** The reducer reads back from a payload what the provider put in. *)
Lemma payload_ADD_ITEM (item sid : val) :
  get_prop (payload (ADD_ITEM item sid)) "item" = item
  ∧ get_prop (payload (ADD_ITEM item sid)) "storeId" = sid.
Proof.
  split; cbn [payload ADD_ITEM get_prop].
  - by rewrite get_insert_eq.
  - by rewrite get_insert_ne, get_insert_eq.
Qed.

Lemma payload_REMOVE_ITEM (productId : val) :
  get_prop (payload (REMOVE_ITEM productId)) "productId" = productId.
Proof. cbn [payload REMOVE_ITEM get_prop]. by rewrite get_insert_eq. Qed.

Lemma payload_UPDATE_QUANTITY (productId quantity : val) :
  get_prop (payload (UPDATE_QUANTITY productId quantity)) "productId" = productId
  ∧ get_prop (payload (UPDATE_QUANTITY productId quantity)) "quantity" = quantity.
Proof.
  split; cbn [payload UPDATE_QUANTITY get_prop].
  - by rewrite get_insert_eq.
  - by rewrite get_insert_ne, get_insert_eq.
Qed.

(** The provider only ever dispatches one of the four handled actions. *)
Lemma invoke_known (c : call) (a : Action) :
  snd (invoke c) = Some a → known_action a.
Proof.
  unfold known_action.
  destruct c as [item sid | productId | productId quantity |]; cbn [invoke].
  - unfold addItem. destruct (invalid_addItem_arguments item sid); [done |].
    destruct (price_below_zero item); [done |]. intros [= <-]. by left.
  - unfold removeItem. destruct (not_nonempty_string productId); [done |].
    intros [= <-]. by right; left.
  - unfold updateQuantity.
    destruct (not_nonempty_string productId || not_a_number quantity); [done |].
    intros [= <-]. by right; right; left.
  - intros [= <-]. by right; right; right.
Qed.

(** The reducer never stores the empty string as [storeId]. *)
Lemma dispatch_store_nonempty (dev : bool) (state state' : CartState) (a : Action) :
  storeId state ≠ Some "" →
  dispatch dev state a = Some state' →
  storeId state' ≠ Some "".
Proof.
  intros Hs. unfold dispatch, cartReducer.
  destruct (strict_eq_str (type a) "ADD_ITEM"); [|
    destruct (strict_eq_str (type a) "REMOVE_ITEM"); [|
      destruct (strict_eq_str (type a) "UPDATE_QUANTITY"); [|
        destruct (strict_eq_str (type a) "CLEAR_CART")]]].
  - unfold case_ADD_ITEM. rewrite !get_prop_nullish.
    destruct (invalid_add_item _ _) eqn:E; [by intros [= <-] |].
    destruct (accepted_add_payload _ E) as (item & productId & sid & Hv).
    destruct Hv as [Hi Hp _ _ _ Hsid Hne]. rewrite Hi, Hsid. cbn [get_prop].
    rewrite Hp.
    destruct (other_store state sid) eqn:Eo.
    { intros [= <-]. cbn [storeId]. congruence. }
    rewrite same_store_id by done.
    destruct (0 <=? findIndex (has_id productId) (items state))%Z.
    + destruct (all_or_throw _); [|done]. intros [= <-]. cbn [storeId]. congruence.
    + intros [= <-]. cbn [storeId]. congruence.
  - unfold case_REMOVE_ITEM.
    destruct (not_nonempty_string _); [by intros [= <-] |].
    destruct (get_prop _ "productId"); try (by intros [= <-]).
    destruct (length _ =? 0)%nat; by intros [= <-].
  - unfold case_UPDATE_QUANTITY.
    destruct (invalid_update_quantity _ _); [by intros [= <-] |].
    destruct (get_prop _ "productId"); try (by intros [= <-]).
    destruct (get_prop _ "quantity"); try (by intros [= <-]).
    destruct (Math_floor _ <=? 0)%float.
    + destruct (length _ =? 0)%nat; by intros [= <-].
    + destruct (0 <=? findIndex _ _)%Z; by intros [= <-].
  - by intros [= <-].
  - done.
Qed.

Lemma perform_step (dev : bool) (state : CartState) (c : call) :
  cart_invariant state → storeId state ≠ Some "" →
  ∃ state', perform dev state c = Some state'
            ∧ cart_invariant state' ∧ storeId state' ≠ Some "".
Proof.
  intros Hinv Hs. unfold perform.
  destruct (snd (invoke c)) as [a|] eqn:E; [|by exists state].
  destruct (invariant_step dev state a Hinv (invoke_known c a E)) as (state' & Hd & Hinv').
  exists state'. split; [done | split; [done |]].
  by eapply dispatch_store_nonempty.
Qed.

(** X2: whatever arguments the consumers of the context pass to
    [addItem], [removeItem], [updateQuantity] and [clearCart], and in
    whatever order they call them, the reducer never raises, and the
    cart keeps its shape: [storeId] is null exactly when there are no
    items and is never the empty string, every item has a non-empty
    [productId] and [name], a [price >= 0] and a quantity that is a
    positive integer or [Infinity], and no two items share a
    [productId]. *)
Theorem provider_calls_keep_the_cart_well_formed (dev : bool) (calls : list call) :
  ∃ state, perform_all dev initialCartState calls = Some state
           ∧ cart_invariant state ∧ storeId state ≠ Some "".
Proof.
  assert (storeId initialCartState ≠ Some "") as Hs by done.
  pose proof invariant_initial as Hinv.
  revert Hinv Hs. generalize initialCartState as s.
  induction calls as [|c calls IH]; intros s Hinv Hs; cbn [perform_all].
  - by exists s.
  - destruct (perform_step dev s c Hinv Hs) as (s' & -> & Hinv' & Hs').
    by apply IH.
Qed.

(** What the reducer warns about when it accepts an ADD_ITEM payload:
    nothing, or the change of store. *)
Lemma add_accepted_diagnostics (dev : bool) (state : CartState) (a : Action) :
  type a = VStr "ADD_ITEM" →
  invalid_add_item (get_prop (payload a) "item") (get_prop (payload a) "storeId")
  = false →
  fst (cartReducer dev state a) = []
  ∨ ∃ sid, fst (cartReducer dev state a) = [StoreSwitched sid (storeId state)].
Proof.
  intros Ht E.
  destruct (accepted_add_payload _ E) as (item & productId & sid & Hv).
  destruct (other_store state sid) eqn:Eo.
  { rewrite (add_other_store dev state a item productId sid) by done.
    destruct dev; [right; by exists sid | by left]. }
  left.
  destruct (findIndex_from_cases (has_id productId) 0 (items state))
    as [[Habs _] | (pre & e & post & Hitems & Hpre & He & _)].
  - by rewrite (add_new_product dev state a item productId sid).
  - rewrite (add_existing_product dev state a item productId sid pre e post) by done.
    by destruct (plus_one (get e "quantity")).
Qed.

Lemma addItem_dispatches (item sid : val) :
  addItem item sid = ([], Some (ADD_ITEM item sid))
  ↔ invalid_addItem_arguments item sid = false ∧ price_below_zero item = false.
Proof.
  unfold addItem.
  destruct (invalid_addItem_arguments item sid); [by split; [|intros []] |].
  destruct (price_below_zero item); by split; [|intros []].
Qed.

(** What passes the reducer's check passes the provider's. *)
Lemma reducer_accepted_is_dispatched (item sid : val) :
  invalid_add_item item sid = false →
  addItem item sid = ([], Some (ADD_ITEM item sid)).
Proof.
  intros E. apply addItem_dispatches.
  unfold invalid_add_item in E. rewrite !orb_false_iff in E.
  destruct E as ((((Ht & Hp) & Hn) & Hpr) & Hs).
  apply not_nonempty_string_false in Hp as (p & Hp & _).
  apply not_nonempty_string_false in Hn as (n & Hn & _).
  apply not_nonneg_number_false in Hpr as (x & Hpr & Hx).
  apply nonneg_iff in Hx as [_ Hx].
  unfold invalid_addItem_arguments, price_below_zero.
  by rewrite Ht, Hp, Hn, Hpr, Hs, Hx.
Qed.

(** X3: [addItem] checks less than the reducer.  Every pair of arguments
    the reducer's ADD_ITEM validation accepts is dispatched by
    [addItem]; and a call that [addItem] dispatches is then rejected by
    the reducer (the "Invalid ADD_ITEM payload" warning, state
    returned as it was) exactly when [item.productId] is the empty
    string, [item.name] is the empty string or [item.price] is NaN. *)
Theorem addItem_checks_less_than_the_reducer (dev : bool) (state : CartState)
    (item sid : val) :
  (invalid_add_item item sid = false →
   addItem item sid = ([], Some (ADD_ITEM item sid)))
  ∧ (addItem item sid = ([], Some (ADD_ITEM item sid)) →
     (cartReducer dev state (ADD_ITEM item sid)
      = ([InvalidAddItem (payload (ADD_ITEM item sid))], Same)
      ↔ get_prop item "productId" = VStr ""
        ∨ get_prop item "name" = VStr ""
        ∨ ∃ p, get_prop item "price" = VNum p ∧ is_nan p = true)).
Proof.
  destruct (payload_ADD_ITEM item sid) as [Hpi Hps].
  split.
  - apply reducer_accepted_is_dispatched.
  - intros Hd. apply addItem_dispatches in Hd as [Hw Hneg].
    unfold invalid_addItem_arguments in Hw. rewrite !orb_false_iff in Hw.
    destruct Hw as ((((Ht & Hp) & Hn) & Hpr) & Hs).
    destruct (get_prop item "productId") as [| | | |p|] eqn:Ep; try discriminate Hp.
    destruct (get_prop item "name") as [| | | |n|] eqn:En; try discriminate Hn.
    destruct (get_prop item "price") as [| | |x| |] eqn:Ex; try discriminate Hpr.
    unfold price_below_zero in Hneg. rewrite Ex in Hneg.
    assert (invalid_add_item item sid = true
            ↔ VStr p = VStr "" ∨ VStr n = VStr "" ∨ ∃ p0, VNum x = VNum p0 ∧ is_nan p0 = true)
      as Hiff.
    { unfold invalid_add_item. rewrite Ht, Ep, En, Ex, Hs.
      cbn [negb orb not_nonneg_number]. rewrite Hneg, !orb_false_r.
      unfold not_nonempty_string. cbn [typeof_string truthy negb orb].
      rewrite !negb_involutive, !orb_true_iff.
      split.
      - intros [[Hp' | Hn'] | Hx'].
        + left. by apply String.eqb_eq in Hp' as ->.
        + right; left. by apply String.eqb_eq in Hn' as ->.
        + right; right. by exists x.
      - intros [[= ->] | [[= ->] | (x' & [= <-] & Hx')]]; auto. }
    rewrite <- Hiff. split.
    + intros Hr.
      destruct (invalid_add_item item sid) eqn:E; [done | exfalso].
      destruct (add_accepted_diagnostics dev state (ADD_ITEM item sid) eq_refl)
        as [H0 | (s & H0)]; rewrite ?Hpi, ?Hps; try done;
        by rewrite Hr in H0.
    + intros E. apply add_rejected; [done |]. by rewrite Hpi, Hps.
Qed.

Lemma addItem_checks_less_than_the_reducer_witness :
  addItem (VObj milk) (VStr "storeA")
  = ([], Some (ADD_ITEM (VObj milk) (VStr "storeA")))
  ∧ cartReducer true initialCartState
      (ADD_ITEM (VObj Samples.unlabelled) (VStr "storeA"))
    = ([InvalidAddItem (payload (ADD_ITEM (VObj Samples.unlabelled) (VStr "storeA")))],
       Same).
Proof.
  split.
  - apply (proj1 (addItem_checks_less_than_the_reducer
                    true initialCartState (VObj milk) (VStr "storeA"))).
    reflexivity.
  - apply (proj2 (addItem_checks_less_than_the_reducer
                    true initialCartState (VObj Samples.unlabelled) (VStr "storeA"))).
    + reflexivity.
    + left. reflexivity.
Defined.

(** X4: [removeItem] and [updateQuantity] apply the very check the
    reducer applies to their payload.  A call either logs one
    [console.error] and dispatches nothing, or dispatches an action that
    the reducer does not reject: REMOVE_ITEM then runs without any
    warning, and UPDATE_QUANTITY warns at most, in development, that
    the product is not in the cart. *)
Theorem remove_and_update_are_validated_by_the_provider (dev : bool)
    (state : CartState) (productId quantity : val) :
  (removeItem productId = ([InvalidProductId productId], None)
   ∨ removeItem productId = ([], Some (REMOVE_ITEM productId))
     ∧ fst (cartReducer dev state (REMOVE_ITEM productId)) = [])
  ∧ (updateQuantity productId quantity
     = ([InvalidProductIdOrQuantity productId quantity], None)
     ∨ updateQuantity productId quantity
       = ([], Some (UPDATE_QUANTITY productId quantity))
       ∧ (fst (cartReducer dev state (UPDATE_QUANTITY productId quantity)) = []
          ∨ ∃ pid, dev = true ∧ productId = VStr pid
                   ∧ Forall (λ cartItem, has_id pid cartItem = false) (items state)
                   ∧ fst (cartReducer dev state (UPDATE_QUANTITY productId quantity))
                     = [UpdateNotFound pid])).
Proof.
  split.
  - unfold removeItem.
    destruct (not_nonempty_string productId) eqn:E; [by left | right].
    split; [done |].
    apply not_nonempty_string_false in E as (pid & -> & Hne).
    rewrite (remove_valid dev state _ pid);
      [| done | apply payload_REMOVE_ITEM | done].
    cbn zeta. by destruct (length _ =? 0)%nat.
  - unfold updateQuantity.
    destruct (not_nonempty_string productId || not_a_number quantity) eqn:E;
      [by left | right].
    split; [done |].
    apply orb_false_iff in E as [Ep Eq].
    apply not_nonempty_string_false in Ep as (pid & -> & Hne).
    apply not_a_number_false in Eq as (q & -> & Hnan).
    destruct (payload_UPDATE_QUANTITY (VStr pid) (VNum q)) as [Hpp Hpq].
    destruct (Math_floor q <=? 0)%float eqn:Efloor.
    { left. rewrite (update_removes dev state _ pid q) by done.
      cbn zeta. by destruct (length _ =? 0)%nat. }
    destruct (findIndex_from_cases (has_id pid) 0 (items state))
      as [[Habs _] | (pre & e & post & Hitems & Hpre & He & _)].
    + rewrite (update_absent dev state _ pid q) by done.
      destruct dev; [right; by exists pid | by left].
    + left. by rewrite (update_existing dev state _ pid q pre e post).
Qed.

End ProviderSpec.


(** ** How the actions compose *)

Module ReducerLaws.
Import Cart Contract Laws FloatFacts ArrayFacts CartFacts CartSpec.

Lemma has_id_true (productId : string) (item : CartItem) :
  has_id productId item = true ↔ get item "productId" = VStr productId.
Proof. apply strict_eq_str_true. Qed.

Lemma others_twice (productId : string) (l : list CartItem) :
  others productId (others productId l) = others productId l.
Proof.
  unfold others. induction l as [|x l IH]; simpl; [done |].
  destruct (negb (has_id productId x)) eqn:E; simpl; [|done].
  by rewrite E, IH.
Qed.

Lemma others_app (productId : string) (l1 l2 : list CartItem) :
  others productId (l1 ++ l2) = others productId l1 ++ others productId l2.
Proof. apply List.filter_app. Qed.

Lemma others_hit (productId : string) (e : CartItem) (l : list CartItem) :
  has_id productId e = true → others productId (e :: l) = others productId l.
Proof. intros H. unfold others. simpl. by rewrite H. Qed.

Lemma others_replace (productId : string) (pre post : list CartItem) (e e' : CartItem) :
  has_id productId e = true → has_id productId e' = true →
  others productId (pre ++ e' :: post) = others productId (pre ++ e :: post).
Proof. intros H H'. by rewrite !others_app, !others_hit. Qed.

(** The shared tail of REMOVE_ITEM and of UPDATE_QUANTITY with a
    quantity that floors to [<= 0]. *)
Lemma removal_twice (dev : bool) (state : CartState) (a : Action) (productId : string) :
  (∀ s, cartReducer dev s a
        = let newItems := others productId (items s) in
          if (length newItems =? 0)%nat then ([], Initial)
          else ([], Fresh {| storeId := storeId s; items := newItems |})) →
  ∃ state', dispatch dev state a = Some state'
            ∧ dispatch dev state' a = Some state'
            ∧ others productId (items state') = others productId (items state).
Proof.
  intros H. unfold dispatch. rewrite H. cbn zeta.
  destruct (others productId (items state)) as [|x l] eqn:E.
  - exists initialCartState. rewrite H. by repeat split.
  - eexists. split; [reflexivity |]. rewrite H. cbn [items storeId next_state snd].
    rewrite <- E, others_twice, E. by repeat split.
Qed.

(** X5: REMOVE_ITEM, UPDATE_QUANTITY and CLEAR_CART are idempotent:
    whatever the state and the payload, the action runs without an
    exception, and dispatching it a second time leaves the state it
    produced as it is. *)
Theorem remove_update_clear_are_idempotent (dev : bool) (state : CartState)
    (a : Action) :
  type a = VStr "REMOVE_ITEM" ∨ type a = VStr "UPDATE_QUANTITY"
  ∨ type a = VStr "CLEAR_CART" →
  ∃ state', dispatch dev state a = Some state'
            ∧ dispatch dev state' a = Some state'.
Proof.
  intros [Ht | [Ht | Ht]].
  - destruct (not_nonempty_string (get_prop (payload a) "productId")) eqn:E.
    { exists state. unfold dispatch. by rewrite remove_rejected. }
    apply not_nonempty_string_false in E as (productId & Hp & Hne).
    destruct (removal_twice dev state a productId) as (state' & H1 & H2 & _);
      [|by exists state'].
    intros s. by apply remove_valid.
  - destruct (invalid_update_quantity (get_prop (payload a) "productId")
                (get_prop (payload a) "quantity")) eqn:E.
    { exists state. unfold dispatch. by rewrite update_rejected. }
    apply orb_false_iff in E as [Ep Eq].
    apply not_nonempty_string_false in Ep as (productId & Hp & Hne).
    apply not_a_number_false in Eq as (q & Hq & Hnan).
    destruct (Math_floor q <=? 0)%float eqn:Efloor.
    { destruct (removal_twice dev state a productId) as (state' & H1 & H2 & _);
        [|by exists state'].
      intros s. by apply (update_removes dev s a productId q). }
    destruct (findIndex_from_cases (has_id productId) 0 (items state))
      as [[Habs _] | (pre & e & post & Hitems & Hpre & He & _)].
    + exists state. unfold dispatch.
      by rewrite (update_absent dev state a productId q).
    + eexists. unfold dispatch.
      rewrite (update_existing dev state a productId q pre e post) by done.
      split; [reflexivity |].
      rewrite (update_existing dev _ a productId q pre
                 (with_quantity e (VNum (Math_floor q))) post); try done.
      * cbn [snd next_state storeId]. by rewrite with_quantity_twice.
      * apply has_id_with_quantity. by apply has_id_true.
  - exists initialCartState. unfold dispatch.
    by rewrite !reducer_CLEAR_CART.
Qed.

Lemma remove_update_clear_are_idempotent_witness :
  ∃ state',
    dispatch true Samples.milk_and_bread (UPDATE_QUANTITY (VStr "milk") (VNum 3.5))
    = Some state'
    ∧ dispatch true state' (UPDATE_QUANTITY (VStr "milk") (VNum 3.5)) = Some state'.
Proof.
  apply (remove_update_clear_are_idempotent true Samples.milk_and_bread
           (UPDATE_QUANTITY (VStr "milk") (VNum 3.5))).
  right; left. reflexivity.
Defined.

(** X6: an action on one product leaves the others alone.  After
    REMOVE_ITEM or UPDATE_QUANTITY for [productId], or after ADD_ITEM
    of an item with that [productId] that does not switch stores, the
    items with any other [productId] are the ones the cart held before:
    none was dropped, added or modified, and they are in the same
    order. *)
Theorem other_products_are_untouched (dev : bool) (state state' : CartState)
    (a : Action) (productId : string) :
  concerns state a productId →
  dispatch dev state a = Some state' →
  others productId (items state') = others productId (items state).
Proof.
  intros [[Ht Hp] | [[Ht Hp] | (Ht & Hp & Hstore)]].
  - destruct (String.eqb_spec productId "") as [-> | Hne].
    { unfold dispatch. rewrite remove_rejected; [by intros [= <-] | done |].
      by rewrite Hp. }
    destruct (removal_twice dev state a productId) as (s' & H1 & _ & H3).
    { intros s. by apply remove_valid. }
    rewrite H1. by intros [= <-].
  - destruct (invalid_update_quantity (get_prop (payload a) "productId")
                (get_prop (payload a) "quantity")) eqn:E.
    { unfold dispatch. rewrite update_rejected by done. by intros [= <-]. }
    apply orb_false_iff in E as [Ep Eq].
    apply not_nonempty_string_false in Ep as (productId' & Hp' & Hne).
    assert (productId' = productId) as -> by congruence.
    apply not_a_number_false in Eq as (q & Hq & Hnan).
    destruct (Math_floor q <=? 0)%float eqn:Efloor.
    { destruct (removal_twice dev state a productId) as (s' & H1 & _ & H3).
      { intros s. by apply (update_removes dev s a productId q). }
      rewrite H1. by intros [= <-]. }
    destruct (findIndex_from_cases (has_id productId) 0 (items state))
      as [[Habs _] | (pre & e & post & Hitems & Hpre & He & _)].
    + unfold dispatch. rewrite (update_absent dev state a productId q) by done.
      by intros [= <-].
    + unfold dispatch.
      rewrite (update_existing dev state a productId q pre e post) by done.
      intros [= <-]. cbn [items]. rewrite Hitems.
      apply others_replace; [done |].
      apply has_id_with_quantity. by apply has_id_true.
  - destruct (invalid_add_item (get_prop (payload a) "item")
                (get_prop (payload a) "storeId")) eqn:E.
    { unfold dispatch. rewrite add_rejected by done. by intros [= <-]. }
    destruct (accepted_add_payload _ E) as (item & productId' & sid & Hv).
    pose proof Hv as [Hi Hid _ _ _ Hsid _].
    rewrite Hi in Hp. cbn [get_prop] in Hp.
    assert (productId' = productId) as -> by congruence.
    specialize (Hstore sid Hsid).
    destruct (findIndex_from_cases (has_id productId) 0 (items state))
      as [[Habs _] | (pre & e & post & Hitems & Hpre & He & _)].
    + unfold dispatch.
      rewrite (add_new_product dev state a item productId sid) by done.
      intros [= <-]. cbn [items]. rewrite others_app, others_hit.
      * apply app_nil_r.
      * by apply has_id_with_quantity.
    + unfold dispatch.
      rewrite (add_existing_product dev state a item productId sid pre e post) by done.
      destruct (plus_one (get e "quantity")) as [q|]; [|done].
      intros [= <-]. cbn [items]. rewrite Hitems.
      apply others_replace; [done |].
      apply has_id_with_quantity. by apply has_id_true.
Qed.

Lemma other_products_are_untouched_witness :
  others "milk"
    (items {| storeId := Some "storeA";
              items := [with_quantity milk (VNum 3);
                        with_quantity bread (VNum 1)] |})
  = others "milk" (items Samples.milk_and_bread).
Proof.
  apply (other_products_are_untouched true Samples.milk_and_bread _
           (ADD_ITEM (VObj milk) (VStr "storeA")) "milk").
  - right; right. split; [reflexivity |]. split; [reflexivity |].
    intros sid [= <-]. reflexivity.
  - reflexivity.
Defined.

Lemma milk_and_bread_invariant : cart_invariant Samples.milk_and_bread.
Proof.
  split; [split; discriminate |]. split.
  - repeat constructor.
    + exists "milk". split; [reflexivity | discriminate].
    + exists "Milk". split; [reflexivity | discriminate].
    + exists 30%float. split; reflexivity.
    + exists 2%float. split; [reflexivity |]. right. exists 2%Z.
      split; [reflexivity | lia].
    + exists "bread". split; [reflexivity | discriminate].
    + exists "Bread". split; [reflexivity | discriminate].
    + exists 25%float. split; reflexivity.
    + exists 1%float. split; [reflexivity |]. right. exists 1%Z.
      split; [reflexivity | lia].
  - change (NoDup [VStr "milk"; VStr "bread"]).
    apply NoDup_cons. split; [|apply NoDup_singleton].
    intros H. apply list_elem_of_singleton in H. discriminate H.
Defined.

(** X7: adding a product the cart does not hold yet, from the cart's own
    store or to the empty cart, and then removing it again gives back
    the cart as it was, [storeId] included. *)
Theorem add_then_remove_restores_the_cart (dev : bool) (state : CartState)
    (add remove : Action) (item : gmap string val) (productId sid : string) :
  cart_invariant state →
  type add = VStr "ADD_ITEM" →
  valid_add_payload (payload add) item productId sid →
  other_store state sid = false →
  Forall (λ cartItem, has_id productId cartItem = false) (items state) →
  type remove = VStr "REMOVE_ITEM" →
  get_prop (payload remove) "productId" = VStr productId →
  dispatch_all dev state [add; remove] = Some state.
Proof.
  intros (Hiff & _ & _) Hta Hv Ho Habs Htr Hpr.
  pose proof Hv as [_ Hid Hne _ _ _ _].
  cbn [dispatch_all]. unfold dispatch at 1.
  rewrite (add_new_product dev state add item productId sid) by done.
  cbn [snd next_state]. unfold dispatch.
  rewrite (remove_valid dev _ remove productId) by done.
  cbn [items storeId]. cbn zeta.
  change (List.filter (λ item0, negb (has_id productId item0)))
    with (others productId).
  rewrite others_app, others_hit by (by apply has_id_with_quantity).
  unfold others. rewrite filter_absent, app_nil_r by done.
  destruct state as [current [|x l]]; cbn [items storeId length Nat.eqb snd next_state] in *.
  - f_equal. unfold initialCartState. f_equal. symmetry. by apply Hiff.
  - do 2 f_equal. unfold other_store in Ho. cbn [storeId] in Ho.
    destruct current as [c|].
    + destruct (String.eqb_spec c sid); [by subst | done].
    + by destruct Hiff as [Hiff _]; specialize (Hiff eq_refl).
Qed.

Lemma add_then_remove_restores_the_cart_witness :
  dispatch_all true Samples.milk_and_bread
    [ADD_ITEM (VObj soap) (VStr "storeA"); REMOVE_ITEM (VStr "soap")]
  = Some Samples.milk_and_bread.
Proof.
  apply (add_then_remove_restores_the_cart true Samples.milk_and_bread
           (ADD_ITEM (VObj soap) (VStr "storeA")) (REMOVE_ITEM (VStr "soap"))
           soap "soap" "storeA").
  - exact milk_and_bread_invariant.
  - reflexivity.
  - split; try reflexivity; try discriminate.
    + exists "Soap". split; [reflexivity | discriminate].
    + exists 10%float. split; reflexivity.
  - reflexivity.
  - repeat constructor.
  - reflexivity.
  - reflexivity.
Defined.

End ReducerLaws.


(** ** The cart table *)

Module ViewSpec.
Import Cart Contract Laws Provider CartTable CartView Binary64.
Import FloatFacts IntegerFacts ArrayFacts CartFacts CartSpec ProviderSpec ReducerLaws.

Lemma absent_of_not_in_ids (productId : string) (l : list CartItem) :
  VStr productId ∉ ids l →
  Forall (λ cartItem, has_id productId cartItem = false) l.
Proof.
  induction l as [|x l IH]; simpl; intros H; constructor.
  - destruct (has_id productId x) eqn:E; [exfalso | done].
    apply has_id_true in E. apply H. rewrite E. left.
  - apply IH. intros Hin. apply H. by right.
Qed.

(** In a cart without duplicates the row of an item is the only one
    with its [productId]. *)
Lemma row_unique (productId : string) (pre post : list CartItem) (e : CartItem) :
  NoDup (ids (pre ++ e :: post)) →
  get e "productId" = VStr productId →
  Forall (λ cartItem, has_id productId cartItem = false) pre
  ∧ Forall (λ cartItem, has_id productId cartItem = false) post.
Proof.
  unfold ids. rewrite map_app. simpl. intros Hnd He. rewrite He in Hnd.
  apply NoDup_app in Hnd as (_ & Hdisj & Hrest).
  apply NoDup_cons in Hrest as [Hpost _].
  split; apply absent_of_not_in_ids; [|done].
  intros Hin. apply (Hdisj _ Hin). left.
Qed.

Lemma others_row (productId : string) (pre post : list CartItem) (e : CartItem) :
  NoDup (ids (pre ++ e :: post)) →
  get e "productId" = VStr productId →
  others productId (pre ++ e :: post) = pre ++ post.
Proof.
  intros Hnd He. destruct (row_unique _ _ _ _ Hnd He) as [Hpre Hpost].
  rewrite others_app, others_hit by (by apply has_id_true).
  unfold others. by rewrite !filter_absent.
Qed.

Lemma nonempty_accepted (s : string) : s ≠ "" → not_nonempty_string (VStr s) = false.
Proof. intros H. apply not_nonempty_string_false. by exists s. Qed.

(** The item of a row of a well-formed cart. *)
Lemma row_item (state : CartState) (pre post : list CartItem) (e : CartItem) :
  cart_invariant state → items state = pre ++ e :: post →
  stored_item e ∧ NoDup (ids (pre ++ e :: post)).
Proof.
  intros (_ & Hall & Hnd) Hitems. rewrite Hitems in Hall, Hnd.
  split; [|done].
  apply Forall_app in Hall as [_ Hrest]. by apply Forall_cons in Hrest as [? _].
Qed.

(** Removing the item of a row, by REMOVE_ITEM or by UPDATE_QUANTITY
    with a quantity that floors to [<= 0]. *)
Lemma row_removed (dev : bool) (state : CartState) (a : Action)
    (productId : string) (pre post : list CartItem) (e : CartItem) :
  (cartReducer dev state a
   = let newItems := others productId (items state) in
     if (length newItems =? 0)%nat then ([], Initial)
     else ([], Fresh {| storeId := storeId state; items := newItems |})) →
  items state = pre ++ e :: post →
  NoDup (ids (pre ++ e :: post)) →
  get e "productId" = VStr productId →
  fst (cartReducer dev state a) = []
  ∧ dispatch dev state a = Some (after_removal state (pre ++ post)).
Proof.
  intros H Hitems Hnd He. unfold dispatch, after_removal. rewrite H. cbn zeta.
  rewrite Hitems, others_row by done.
  by destruct (length (pre ++ post) =? 0)%nat.
Qed.

(** X8: the remove button of a row of the cart table deletes that row
    and nothing else.  On a well-formed cart the click logs no error
    and no warning; the cart afterwards holds the other items, unchanged
    and in the same order, and is the empty cart with a null [storeId]
    when the row was the only one. *)
Theorem remove_button_deletes_its_row (dev : bool) (state : CartState)
    (pre post : list CartItem) (e : CartItem) :
  cart_invariant state →
  items state = pre ++ e :: post →
  fst (invoke (onClick e)) = []
  ∧ warnings dev state (onClick e) = []
  ∧ perform dev state (onClick e) = Some (after_removal state (pre ++ post)).
Proof.
  intros Hinv Hitems.
  destruct (row_item state pre post e Hinv Hitems) as [((pid & He & Hne) & _) Hnd].
  unfold warnings, perform, onClick. cbn [invoke]. unfold removeItem.
  rewrite He, nonempty_accepted by done. cbn [fst snd].
  destruct (row_removed dev state (REMOVE_ITEM (VStr pid)) pid pre post e)
    as [H1 H2]; try done.
  apply remove_valid; [done | apply payload_REMOVE_ITEM | done].
Qed.

Lemma remove_button_deletes_its_row_witness :
  fst (invoke (onClick (with_quantity milk (VNum 2)))) = []
  ∧ warnings true Samples.milk_and_bread (onClick (with_quantity milk (VNum 2))) = []
  ∧ perform true Samples.milk_and_bread (onClick (with_quantity milk (VNum 2)))
    = Some (after_removal Samples.milk_and_bread ([] ++ [with_quantity bread (VNum 1)])).
Proof.
  apply (remove_button_deletes_its_row true Samples.milk_and_bread []
           [with_quantity bread (VNum 1)] (with_quantity milk (VNum 2))).
  - exact milk_and_bread_invariant.
  - reflexivity.
Defined.

Lemma update_call (dev : bool) (state : CartState) (productId : string) (v : float) :
  productId ≠ "" → is_nan v = false →
  invoke (UpdateQuantity (VStr productId) (VNum v))
  = ([], Some (UPDATE_QUANTITY (VStr productId) (VNum v))).
Proof.
  intros Hne Hnan. cbn [invoke]. unfold updateQuantity.
  rewrite nonempty_accepted by done. cbn [not_a_number orb]. by rewrite Hnan.
Qed.

Lemma floor_zero : (Math_floor 0 <=? 0)%float = true.
Proof. reflexivity. Qed.

(** X9: the quantity input of a row of the cart table, on a well-formed
    cart.  A value that is not a number (the cleared input) counts as
    [0]; a number whose floor is [<= 0] removes the row's item, as the
    remove button does; NaN is refused by [updateQuantity] with a
    [console.error] and the cart stays as it is; any other number [v]
    replaces the quantity of that row by [Math.floor(v)], leaving the
    position of the row and the other rows as they are, and for a
    finite [v] the row then shows [Math.floor(v)]. *)
Theorem quantity_input_sets_or_removes (dev : bool) (state : CartState)
    (pre post : list CartItem) (e : CartItem) :
  cart_invariant state →
  items state = pre ++ e :: post →
  (∀ value, typeof_number value = false →
     perform dev state (onChange e value)
     = Some (after_removal state (pre ++ post)))
  ∧ (∀ v, (Math_floor v <=? 0)%float = true →
       perform dev state (onChange e (VNum v))
       = Some (after_removal state (pre ++ post)))
  ∧ (∀ v, is_nan v = true →
       perform dev state (onChange e (VNum v)) = Some state
       ∧ fst (invoke (onChange e (VNum v)))
         = [InvalidProductIdOrQuantity (get e "productId") (VNum v)])
  ∧ (∀ v, is_nan v = false → (Math_floor v <=? 0)%float = false →
       perform dev state (onChange e (VNum v))
       = Some {| storeId := storeId state;
                 items := pre ++ with_quantity e (VNum (Math_floor v)) :: post |}
       ∧ (is_finite v = true →
          itemQuantity (row_of (with_quantity e (VNum (Math_floor v))))
          = Math_floor v)).
Proof.
  intros Hinv Hitems.
  destruct (row_item state pre post e Hinv Hitems) as [((pid & He & Hne) & _) Hnd].
  destruct (row_unique pid pre post e Hnd He) as [Hpre Hpost].
  destruct (payload_UPDATE_QUANTITY (VStr pid) (VNum 0)) as [Hp0 Hq0].
  assert (∀ v, (Math_floor v <=? 0)%float = true →
            perform dev state (UpdateQuantity (VStr pid) (VNum v))
            = Some (after_removal state (pre ++ post))) as Hremove.
  { intros v Hfloor. unfold perform.
    rewrite update_call by eauto using floor_le_zero_not_nan. cbn [snd].
    destruct (payload_UPDATE_QUANTITY (VStr pid) (VNum v)) as [Hp Hq].
    destruct (row_removed dev state (UPDATE_QUANTITY (VStr pid) (VNum v)) pid pre post e)
      as [_ H2]; try done.
    by apply (update_removes dev state _ pid v). }
  split; [|split; [|split]].
  - intros value Hv. unfold onChange. rewrite Hv, He. apply Hremove, floor_zero.
  - intros v Hfloor. unfold onChange. cbn [typeof_number]. rewrite He.
    by apply Hremove.
  - intros v Hnan. unfold perform, onChange. cbn [typeof_number invoke].
    unfold updateQuantity. cbn [not_a_number]. by rewrite He, Hnan, orb_true_r.
  - intros v Hnan Hfloor. unfold onChange. cbn [typeof_number]. rewrite He.
    split.
    + unfold perform. rewrite update_call by done. cbn [snd].
      destruct (payload_UPDATE_QUANTITY (VStr pid) (VNum v)) as [Hp Hq].
      unfold dispatch.
      rewrite (update_existing dev state _ pid v pre e post); try done.
      by apply has_id_true.
    + intros Hfin. unfold row_of. cbn [itemQuantity]. unfold quantity_of, get.
      rewrite with_quantity_quantity. cbn [default from_option id].
      destruct (whole_cases _ (whole_floor v Hnan Hfloor)) as [Hinf | (_ & -> & _)];
        [|done].
      exfalso. by apply (finite_not_infinity _ (Math_floor_finite v Hfin)).
Qed.

Lemma quantity_input_sets_or_removes_witness :
  perform true Samples.milk_and_bread
    (onChange (with_quantity milk (VNum 2)) (VStr ""))
  = Some (after_removal Samples.milk_and_bread ([] ++ [with_quantity bread (VNum 1)]))
  ∧ perform true Samples.milk_and_bread
      (onChange (with_quantity milk (VNum 2)) (VNum 3.5))
    = Some {| storeId := storeId Samples.milk_and_bread;
              items := [] ++ with_quantity (with_quantity milk (VNum 2))
                                (VNum (Math_floor 3.5))
                             :: [with_quantity bread (VNum 1)] |}.
Proof.
  pose proof (quantity_input_sets_or_removes true Samples.milk_and_bread []
                [with_quantity bread (VNum 1)] (with_quantity milk (VNum 2))
                milk_and_bread_invariant eq_refl) as (H1 & _ & _ & H4).
  split.
  - apply H1. reflexivity.
  - apply H4; reflexivity.
Defined.

Lemma fold_rows (l : list CartItem) (acc : float) :
  fold_left (λ sum item, (sum + price_of item * quantity_of item)%float) l acc
  = fold_left (λ sum r, (sum + itemTotal r)%float) (map row_of l) acc.
Proof.
  revert acc. induction l as [|x l IH]; intros acc; simpl; [done |].
  by rewrite IH.
Qed.

Lemma stored_item_shown (item : CartItem) : stored_item item → shows item (row_of item).
Proof.
  intros ((pid & Hid & Hne) & (n & Hn & Hnne) & (p & Hp & Hpos) & (q & Hq & Hw)).
  unfold shows, row_of. cbn [row_key row_name itemPrice itemQuantity itemTotal].
  assert (price_of item = p) as ->.
  { unfold price_of. rewrite Hp. apply nonneg_iff in Hpos as [-> _]. done. }
  split; [done |]. split; [by exists pid |]. split.
  { rewrite Hn. cbn [truthy]. by destruct (String.eqb_spec n ""). }
  split; [done |]. split; [done |]. split; [|done].
  unfold quantity_of. rewrite Hq.
  destruct (whole_cases q Hw) as [-> | (_ & Hint & _ & Hone)].
  - right. by rewrite infinity_not_integral.
  - left. by rewrite Hint.
Qed.

(** X10: what the cart table shows of a well-formed cart.  With no item
    in the cart (and then a null [storeId]) the "Cart Empty" alert is
    rendered.  Otherwise there is one row per item, in the order of the
    cart; each row has the item's non-empty [productId] as key, so the
    keys are distinct, and shows the item's name (never the "N/A"
    fallback), its price, which is [>= 0], and its quantity, which is
    [>= 1], except that a stored quantity [Infinity] is shown as [0];
    the row total is price times quantity shown, and the grand total is
    the sum of the row totals, added from the first row to the last. *)
Theorem cart_table_shows_the_cart (state : CartState) :
  cart_invariant state →
  (render (items state) = CartEmpty ∧ items state = [] ∧ storeId state = None)
  ∨ (∃ rows grandTotal,
        render (items state) = Table rows grandTotal
        ∧ storeId state ≠ None
        ∧ Forall2 shows (items state) rows
        ∧ NoDup (map row_key rows)
        ∧ grandTotal
          = fold_left (λ sum r, (sum + itemTotal r)%float) rows 0%float).
Proof.
  intros (Hiff & Hall & Hnd). unfold render.
  destruct (items state) as [|x l] eqn:E.
  - left. repeat split. by apply Hiff.
  - right. cbn [length Nat.eqb]. eexists _, _. split; [reflexivity |].
    split; [|split; [|split]].
    + intros Hs. by apply Hiff in Hs.
    + clear -Hall. induction Hall as [|y l' Hy _ IH]; simpl; constructor; [|done].
      by apply stored_item_shown.
    + replace (map row_key (map row_of (x :: l))) with (ids (x :: l)); [done |].
      unfold ids. rewrite map_map. reflexivity.
    + apply fold_rows.
Qed.

Lemma cart_table_shows_the_cart_witness :
  (render (items Samples.milk_and_bread) = CartEmpty
   ∧ items Samples.milk_and_bread = [] ∧ storeId Samples.milk_and_bread = None)
  ∨ (∃ rows grandTotal,
        render (items Samples.milk_and_bread) = Table rows grandTotal
        ∧ storeId Samples.milk_and_bread ≠ None
        ∧ Forall2 shows (items Samples.milk_and_bread) rows
        ∧ NoDup (map row_key rows)
        ∧ grandTotal
          = fold_left (λ sum r, (sum + itemTotal r)%float) rows 0%float).
Proof.
  apply (cart_table_shows_the_cart Samples.milk_and_bread).
  exact milk_and_bread_invariant.
Defined.

End ViewSpec.


(** ** The "Add to Cart" button *)

Module ProductListSpec.
Import Cart Contract Laws Provider ProductList.
Import FloatFacts ArrayFacts CartFacts CartSpec ProviderSpec ReducerLaws.

(** ADD_ITEM with a valid payload on a well-formed cart. *)
Lemma valid_add_result (dev : bool) (state : CartState) (a : Action)
    (item : gmap string val) (productId sid : string) :
  cart_invariant state →
  type a = VStr "ADD_ITEM" →
  valid_add_payload (payload a) item productId sid →
  ∃ state', dispatch dev state a = Some state'
            ∧ cart_invariant state'
            ∧ storeId state' = Some sid
            ∧ VStr productId ∈ ids (items state').
Proof.
  intros Hinv Ht Hv.
  destruct (invariant_step dev state a Hinv) as (state' & Hd & Hinv');
    [by left |].
  exists state'. split; [done |]. split; [done |].
  pose proof Hv as [_ Hid _ _ _ _ _].
  unfold dispatch in Hd.
  destruct (other_store state sid) eqn:Eo.
  { rewrite (add_other_store dev state a item productId sid) in Hd by done.
    injection Hd as <-. split; [done |]. cbn [items ids map].
    rewrite id_with_quantity, Hid. left. }
  destruct (findIndex_from_cases (has_id productId) 0 (items state))
    as [[Habs _] | (pre & e & post & Hitems & Hpre & He & _)].
  - rewrite (add_new_product dev state a item productId sid) in Hd by done.
    injection Hd as <-. split; [done |]. cbn [items]. unfold ids.
    rewrite map_app. apply elem_of_app. right. cbn [map].
    rewrite id_with_quantity, Hid. left.
  - rewrite (add_existing_product dev state a item productId sid pre e post) in Hd
      by done.
    destruct (plus_one (get e "quantity")) as [q|]; [|done].
    injection Hd as <-. split; [done |]. cbn [items]. unfold ids.
    rewrite map_app. apply elem_of_app. right. cbn [map].
    rewrite id_with_quantity. apply has_id_true in He. rewrite He. left.
Qed.

(** X11: when the "Add to Cart" handler of the product list calls
    [addItem], the call goes all the way through.  The product then has
    a non-empty string [_id] and the list a non-empty string [storeId];
    the handler warns about nothing, [addItem] logs no error, the
    reducer does not reject the payload (its only possible warning is
    the development note that the store changed) and does not raise;
    and on a well-formed cart the resulting cart is well formed, belongs
    to the list's store and holds an item with the product's [_id] as
    [productId]. *)
Theorem add_to_cart_puts_the_product_in_the_cart (dev : bool) (state : CartState)
    (store product : val) (c : call) :
  cart_invariant state →
  snd (handleAddToCart dev store product) = Some c →
  ∃ productId sid state',
    get_prop product "_id" = VStr productId ∧ productId ≠ ""
    ∧ store = VStr sid ∧ sid ≠ ""
    ∧ fst (handleAddToCart dev store product) = []
    ∧ fst (invoke c) = []
    ∧ (warnings dev state c = []
       ∨ warnings dev state c = [StoreSwitched sid (storeId state)])
    ∧ perform dev state c = Some state'
    ∧ cart_invariant state'
    ∧ storeId state' = Some sid
    ∧ VStr productId ∈ ids (items state').
Proof.
  intros Hinv. unfold handleAddToCart.
  destruct (truthy product) eqn:Etruthy; cycle 1.
  { intros H. exfalso. destruct dev; vm_compute in H; discriminate H. }
  destruct (not_nonempty_string (get_prop product "_id")
            || not_nonempty_string (get_prop product "name")
            || not_nonneg_number (get_prop product "price")) eqn:E; [done |].
  destruct (not_nonempty_string store) eqn:Es; [done |].
  cbn [fst snd]. intros [= <-].
  apply orb_false_iff in E as [E Eprice]. apply orb_false_iff in E as [Eid Ename].
  apply not_nonempty_string_false in Eid as (productId & Hid & Hne).
  apply not_nonempty_string_false in Es as (sid & -> & Hsne).
  apply not_nonempty_string_false in Ename.
  apply not_nonneg_number_false in Eprice.
  set (item := cart_item (get_prop product "_id") (get_prop product "name")
                 (get_prop product "price")).
  destruct (payload_ADD_ITEM (VObj item) (VStr sid)) as [Hpi Hps].
  assert (valid_add_payload (payload (ADD_ITEM (VObj item) (VStr sid)))
            item productId sid) as Hv.
  { by split. }
  assert (invoke (AddItem (VObj item) (VStr sid))
          = ([], Some (ADD_ITEM (VObj item) (VStr sid)))) as Hinvoke.
  { cbn [invoke]. apply reducer_accepted_is_dispatched.
    rewrite <- Hpi at 1. rewrite <- Hps at 2.
    by eapply valid_add_payload_accepted. }
  destruct (valid_add_result dev state (ADD_ITEM (VObj item) (VStr sid))
              item productId sid Hinv eq_refl Hv)
    as (state' & Hd & Hinv' & Hs' & Hin).
  exists productId, sid, state'.
  unfold warnings, perform. rewrite Hinvoke. cbn [fst snd].
  repeat (split; [done |]). split; [|done].
  destruct (add_accepted_diagnostics dev state (ADD_ITEM (VObj item) (VStr sid)) eq_refl)
    as [H0 | (s & H0)].
  - by eapply valid_add_payload_accepted.
  - by left.
  - right. rewrite H0.
    destruct (other_store state sid) eqn:Eo.
    + rewrite (add_other_store dev state _ item productId sid) in H0 by done.
      destruct dev; [|done]. cbn [fst] in H0. by injection H0 as ->.
    + exfalso.
      destruct (findIndex_from_cases (has_id productId) 0 (items state))
        as [[Habs _] | (pre & e & post & Hitems & Hpre & He & _)].
      * by rewrite (add_new_product dev state _ item productId sid) in H0.
      * rewrite (add_existing_product dev state _ item productId sid pre e post) in H0
          by done.
        by destruct (plus_one (get e "quantity")).
Qed.

Lemma add_to_cart_puts_the_product_in_the_cart_witness :
  ∃ productId sid state',
    get_prop Samples.butter "_id" = VStr productId ∧ productId ≠ ""
    ∧ VStr "storeB" = VStr sid ∧ sid ≠ ""
    ∧ fst (handleAddToCart true (VStr "storeB") Samples.butter) = []
    ∧ fst (invoke (AddItem (VObj (cart_item (VStr "butter") (VStr "Butter") (VNum 55)))
                     (VStr "storeB"))) = []
    ∧ (warnings true Samples.milk_and_bread
         (AddItem (VObj (cart_item (VStr "butter") (VStr "Butter") (VNum 55)))
            (VStr "storeB")) = []
       ∨ warnings true Samples.milk_and_bread
           (AddItem (VObj (cart_item (VStr "butter") (VStr "Butter") (VNum 55)))
              (VStr "storeB"))
         = [StoreSwitched sid (storeId Samples.milk_and_bread)])
    ∧ perform true Samples.milk_and_bread
        (AddItem (VObj (cart_item (VStr "butter") (VStr "Butter") (VNum 55)))
           (VStr "storeB")) = Some state'
    ∧ cart_invariant state'
    ∧ storeId state' = Some sid
    ∧ VStr productId ∈ ids (items state').
Proof.
  apply (add_to_cart_puts_the_product_in_the_cart true Samples.milk_and_bread
           (VStr "storeB") Samples.butter).
  - exact milk_and_bread_invariant.
  - reflexivity.
Defined.

End ProductListSpec.


(** ** Checkout *)

Module CheckoutSpec.
Import Cart Contract Laws Provider Checkout CartView Binary64.
Import FloatFacts IntegerFacts ArrayFacts CartFacts CartSpec ProviderSpec ReducerLaws.
Import ViewSpec.

Lemma find_all_valid (l : list val) :
  Forall (λ item, invalid_order_item item = Some false) l →
  find_or_throw invalid_order_item l = Some VUndef.
Proof. induction 1 as [|x l Hx _ IH]; simpl; [done | by rewrite Hx]. Qed.

Lemma find_first_invalid (pre post : list val) (x : val) :
  Forall (λ item, invalid_order_item item = Some false) pre →
  invalid_order_item x = Some true →
  find_or_throw invalid_order_item (pre ++ x :: post) = Some x.
Proof.
  intros Hpre Hx. induction Hpre as [|y pre Hy _ IH]; simpl.
  - by rewrite Hx.
  - by rewrite Hy.
Qed.

(** What [createOrder] makes of a stored item: the item is refused
    exactly when its quantity is not an integer, that is, when it is
    [Infinity]. *)
Lemma order_item_check (item : CartItem) :
  stored_item item →
  ∃ q, get item "quantity" = VNum q ∧ whole q
       ∧ invalid_order_item (order_item item) = Some (negb (isIntegralNumber q)).
Proof.
  intros (Hid & Hname & Hprice & (q & Hq & Hw)).
  exists q. split; [done |]. split; [done |].
  unfold order_item. cbn [invalid_order_item get_prop].
  rewrite get_insert_eq.
  rewrite (get_insert_ne _ "productId" "name"), get_insert_eq by done.
  rewrite !(get_insert_ne _ _ "price"), get_insert_eq by done.
  rewrite !(get_insert_ne _ _ "quantity"), get_insert_eq by done.
  apply not_nonempty_string_false in Hid as ->.
  apply not_nonempty_string_false in Hname as ->.
  apply not_nonneg_number_false in Hprice as ->.
  rewrite Hq. cbn [typeof_number Number_isInteger quantity_below_one negb orb].
  destruct (whole_cases q Hw) as [-> | (_ & -> & -> & _)]; reflexivity.
Qed.

Lemma finite_item_accepted (item : CartItem) :
  stored_item item → get item "quantity" ≠ VNum infinity →
  invalid_order_item (order_item item) = Some false.
Proof.
  intros Hs Hfin. destruct (order_item_check item Hs) as (q & Hq & Hw & ->).
  destruct (whole_cases q Hw) as [-> | (_ & -> & _)]; [done | reflexivity].
Qed.

Lemma infinite_item_refused (item : CartItem) :
  stored_item item → get item "quantity" = VNum infinity →
  invalid_order_item (order_item item) = Some true.
Proof.
  intros Hs Hinf. destruct (order_item_check item Hs) as (q & Hq & Hw & ->).
  rewrite Hinf in Hq. by injection Hq as <-.
Qed.

Lemma finite_items_accepted (l : list CartItem) :
  Forall stored_item l →
  Forall (λ item, get item "quantity" ≠ VNum infinity) l →
  Forall (λ item, invalid_order_item item = Some false) (map order_item l).
Proof.
  induction 1 as [|x l Hx _ IH]; intros Hfin; simpl; [constructor |].
  apply Forall_cons in Hfin as [Hfx Hfl].
  constructor; [by apply finite_item_accepted | by apply IH].
Qed.

Section WithForm.
Variable trim : string → string.

(** The payload built from a non-empty well-formed cart and a form whose
    trimmed fields are not empty has the structure [createOrder] asks
    for. *)
Lemma cart_order_structure (state : CartState) (values : FormValues) :
  cart_invariant state → storeId state ≠ Some "" → items state ≠ [] →
  trim (name values) ≠ "" → trim (phone values) ≠ "" →
  trim (address values) ≠ "" →
  invalid_order_structure (orderData trim state values) = false
  ∧ truthy (storeId_value state) = true.
Proof.
  intros (Hiff & _ & _) Hs Hne Hn Hp Ha.
  unfold invalid_order_structure, orderData, storeId_value.
  cbn [order_storeId customerDetails order_items typeof_object truthy get_prop negb orb].
  destruct (storeId state) as [s|] eqn:Es; cycle 1.
  { destruct Hiff as [Hiff _]. by specialize (Hiff eq_refl). }
  assert (s ≠ "") as Hsne by congruence.
  rewrite get_insert_eq.
  rewrite (get_insert_ne _ "name" "phone"), get_insert_eq by done.
  rewrite !(get_insert_ne _ _ "address"), get_insert_eq by done.
  rewrite !nonempty_accepted by done. cbn [orb truthy].
  rewrite length_map. split.
  - destruct (items state); done.
  - by destruct (String.eqb_spec s "").
Qed.

(** X12: what [createOrder] makes of an order built by the checkout
    form from a non-empty well-formed cart, the trimmed fields of the
    form being non-empty.  If no item of the cart has the quantity
    [Infinity], the order passes every check that precedes the request.
    Otherwise [createOrder] raises "Invalid item structure" for the
    first item whose quantity is [Infinity], before any request is
    made. *)
Theorem createOrder_refuses_infinite_quantities (state : CartState)
    (values : FormValues) :
  cart_invariant state → storeId state ≠ Some "" → items state ≠ [] →
  trim (name values) ≠ "" → trim (phone values) ≠ "" →
  trim (address values) ≠ "" →
  (Forall (λ item, get item "quantity" ≠ VNum infinity) (items state) →
   validate_order (orderData trim state values) = None)
  ∧ (∀ pre e post,
       items state = pre ++ e :: post →
       Forall (λ item, get item "quantity" ≠ VNum infinity) pre →
       get e "quantity" = VNum infinity →
       validate_order (orderData trim state values)
       = Some (InvalidItemStructure (order_item e))).
Proof.
  intros Hinv Hs Hne Hn Hp Ha.
  destruct (cart_order_structure state values Hinv Hs Hne Hn Hp Ha) as [Hstruct _].
  destruct Hinv as (_ & Hall & _).
  unfold validate_order. rewrite Hstruct. cbn [orderData order_items].
  split.
  - intros Hfin. rewrite find_all_valid; [done |].
    by apply finite_items_accepted.
  - intros pre e post Hitems Hpre He. rewrite Hitems in Hall |- *.
    apply Forall_app in Hall as [Hall_pre Hrest].
    apply Forall_cons in Hrest as [Hse _].
    rewrite map_app. cbn [map].
    rewrite find_first_invalid;
      [done | by apply finite_items_accepted | by apply infinite_item_refused].
Qed.

End WithForm.

Lemma endless_milk_invariant : cart_invariant Samples.endless_milk.
Proof.
  split; [split; discriminate |]. split.
  - repeat constructor.
    + exists "milk". split; [reflexivity | discriminate].
    + exists "Milk". split; [reflexivity | discriminate].
    + exists 30%float. split; reflexivity.
    + exists infinity. split; [reflexivity |]. by left.
  - change (NoDup [VStr "milk"]). apply NoDup_singleton.
Defined.

Lemma createOrder_refuses_infinite_quantities_witness :
  validate_order (orderData (λ s, s) Samples.milk_and_bread Samples.customer) = None
  ∧ validate_order (orderData (λ s, s) Samples.endless_milk Samples.customer)
    = Some (InvalidItemStructure (order_item (with_quantity milk (VNum infinity)))).
Proof.
  split.
  - apply (createOrder_refuses_infinite_quantities (λ s, s)
             Samples.milk_and_bread Samples.customer);
      try discriminate; [exact milk_and_bread_invariant |].
    repeat constructor; discriminate.
  - apply (createOrder_refuses_infinite_quantities (λ s, s)
             Samples.endless_milk Samples.customer) with (pre := []) (post := []);
      try discriminate; try reflexivity; [exact endless_milk_invariant |].
    constructor.
Defined.

(** The item check of [createOrder] on the items of a well-formed cart:
    it passes when no quantity is [Infinity], and stops at the first
    item whose quantity is. *)
Lemma cart_order_check (l : list CartItem) :
  Forall stored_item l →
  (Forall (λ item, get item "quantity" ≠ VNum infinity) l
   ∧ find_or_throw invalid_order_item (map order_item l) = Some VUndef)
  ∨ (∃ pre e post,
        l = pre ++ e :: post
        ∧ Forall (λ item, get item "quantity" ≠ VNum infinity) pre
        ∧ get e "quantity" = VNum infinity
        ∧ find_or_throw invalid_order_item (map order_item l)
          = Some (order_item e)).
Proof.
  induction 1 as [|x l Hx _ IH].
  - left. by split.
  - destruct (order_item_check x Hx) as (q & Hq & Hw & Hcheck).
    destruct (whole_cases q Hw) as [-> | (Hfin & Hint & _)].
    + right. exists [], x, l. repeat split; [constructor | done |].
      cbn [map find_or_throw]. by rewrite Hcheck.
    + assert (get x "quantity" ≠ VNum infinity) as Hne.
      { rewrite Hq. intros [= ->]. done. }
      rewrite Hint in Hcheck. cbn [map find_or_throw]. rewrite Hcheck. cbn [negb].
      destruct IH as [[Hall Hfind] | (pre & e & post & -> & Hpre & He & Hfind)].
      * left. split; [by constructor | done].
      * right. exists (x :: pre), e, post. repeat split; try done.
        by constructor.
Qed.

Section WithServer.
Variable trim : string → string.
Variable post : OrderPayload → bool.

(** X13: what a submission of the checkout form does to a well-formed
    cart, the trimmed fields of the form being non-empty.  With an
    empty cart nothing is posted.  With items none of which has the
    quantity [Infinity], the order built from the cart is posted; if
    the request succeeds the cart is cleared, and it is then the empty
    cart with a null [storeId]; if it fails the cart is kept.  With an
    item whose quantity is [Infinity] nothing is posted, the failure
    notification is shown and the cart is kept: such a cart cannot be
    checked out. *)
Theorem checkout_clears_the_cart_on_success_only (dev : bool)
    (state : CartState) (values : FormValues) :
  cart_invariant state → storeId state ≠ Some "" →
  trim (name values) ≠ "" → trim (phone values) ≠ "" →
  trim (address values) ≠ "" →
  (items state = []
   ∧ handleSubmit trim post state values
     = {| shown := CannotPlaceOrder; posted := None; cart_call := None |})
  ∨ (items state ≠ []
     ∧ Forall (λ item, get item "quantity" ≠ VNum infinity) (items state)
     ∧ posted (handleSubmit trim post state values)
       = Some (orderData trim state values)
     ∧ if post (orderData trim state values) then
         shown (handleSubmit trim post state values) = OrderPlaced
         ∧ cart_after dev state (handleSubmit trim post state values)
           = Some initialCartState
       else
         shown (handleSubmit trim post state values) = OrderFailed
         ∧ cart_after dev state (handleSubmit trim post state values)
           = Some state)
  ∨ (Exists (λ item, get item "quantity" = VNum infinity) (items state)
     ∧ handleSubmit trim post state values
       = {| shown := OrderFailed; posted := None; cart_call := None |}
     ∧ cart_after dev state (handleSubmit trim post state values) = Some state).
Proof.
  intros Hinv Hs Hn Hp Ha.
  destruct (items state) as [|x l] eqn:E.
  { left. split; [done |]. unfold handleSubmit. by rewrite E. }
  right.
  assert (items state ≠ []) as Hne by (by rewrite E).
  destruct (cart_order_structure trim state values Hinv Hs Hne Hn Hp Ha)
    as [Hstruct Hstore].
  pose proof Hinv as (_ & Hall & _).
  assert (handleSubmit trim post state values
          = match validate_order (orderData trim state values) with
            | Some _ =>
                {| shown := OrderFailed; posted := None; cart_call := None |}
            | None =>
                if post (orderData trim state values) then
                  {| shown := OrderPlaced;
                     posted := Some (orderData trim state values);
                     cart_call := Some ClearCart |}
                else
                  {| shown := OrderFailed;
                     posted := Some (orderData trim state values);
                     cart_call := None |}
            end) as ->.
  { unfold handleSubmit. by rewrite E, Hstore. }
  unfold validate_order. rewrite Hstruct. cbn [orderData order_items].
  rewrite <- E.
  destruct (cart_order_check (items state) Hall)
    as [[Hfin Hfind] | (pre & e & post' & Hitems & Hpre & He & Hfind)];
    rewrite Hfind.
  - left. cbn [truthy]. repeat (split; [done |]).
    split; [by destruct (post _) |].
    destruct (post _); split; reflexivity.
  - right. cbn [order_item truthy]. split; [|done].
    rewrite Hitems. apply Exists_app. right. by left.
Qed.

End WithServer.

Lemma checkout_clears_the_cart_on_success_only_witness :
  (items Samples.milk_and_bread = []
   ∧ handleSubmit (λ s, s) (λ _, true) Samples.milk_and_bread Samples.customer
     = {| shown := CannotPlaceOrder; posted := None; cart_call := None |})
  ∨ (items Samples.milk_and_bread ≠ []
     ∧ Forall (λ item, get item "quantity" ≠ VNum infinity)
         (items Samples.milk_and_bread)
     ∧ posted (handleSubmit (λ s, s) (λ _, true) Samples.milk_and_bread
                 Samples.customer)
       = Some (orderData (λ s, s) Samples.milk_and_bread Samples.customer)
     ∧ if (λ _ : OrderPayload, true)
            (orderData (λ s, s) Samples.milk_and_bread Samples.customer)
       then
         shown (handleSubmit (λ s, s) (λ _, true) Samples.milk_and_bread
                  Samples.customer) = OrderPlaced
         ∧ cart_after true Samples.milk_and_bread
             (handleSubmit (λ s, s) (λ _, true) Samples.milk_and_bread
                Samples.customer)
           = Some initialCartState
       else
         shown (handleSubmit (λ s, s) (λ _, true) Samples.milk_and_bread
                  Samples.customer) = OrderFailed
         ∧ cart_after true Samples.milk_and_bread
             (handleSubmit (λ s, s) (λ _, true) Samples.milk_and_bread
                Samples.customer)
           = Some Samples.milk_and_bread)
  ∨ (Exists (λ item, get item "quantity" = VNum infinity)
       (items Samples.milk_and_bread)
     ∧ handleSubmit (λ s, s) (λ _, true) Samples.milk_and_bread Samples.customer
       = {| shown := OrderFailed; posted := None; cart_call := None |}
     ∧ cart_after true Samples.milk_and_bread
         (handleSubmit (λ s, s) (λ _, true) Samples.milk_and_bread
            Samples.customer)
       = Some Samples.milk_and_bread).
Proof.
  apply (checkout_clears_the_cart_on_success_only (λ s, s) (λ _, true) true
           Samples.milk_and_bread Samples.customer);
    try discriminate.
  exact milk_and_bread_invariant.
Defined.

(** X14: the item check of [createOrder] tests the item it found with
    [if (invalidItem)].  When the first item that fails the check is a
    falsy value other than [undefined] and [null] (the number [0], NaN,
    the empty string, [false]), nothing is raised, whatever the items
    after it are: the order goes on to the request. *)
Theorem falsy_item_passes_the_item_check (order : OrderPayload)
    (pre rest : list val) (item : val) :
  invalid_order_structure order = false →
  order_items order = pre ++ item :: rest →
  Forall (λ i, invalid_order_item i = Some false) pre →
  truthy item = false → item ≠ VUndef → item ≠ VNull →
  validate_order order = None.
Proof.
  intros Hstruct Hitems Hpre Hfalsy Hu Hn.
  unfold validate_order. rewrite Hstruct, Hitems.
  rewrite find_first_invalid; [by rewrite Hfalsy | done |].
  by destruct item.
Qed.

Lemma falsy_item_passes_the_item_check_witness :
  validate_order Samples.masked_order = None.
Proof.
  eapply (falsy_item_passes_the_item_check Samples.masked_order [] _ (VNum 0)).
  - reflexivity.
  - reflexivity.
  - constructor.
  - reflexivity.
  - discriminate.
  - discriminate.
Defined.

End CheckoutSpec.


(** ** The order total *)

Module OrderSpec.
Import Cart Contract Checkout CartView.
Import FloatFacts IntegerFacts ArrayFacts CartFacts CartSpec.







End OrderSpec.


(** ** The grand total of a well-formed cart *)

Module TotalSpec.
Import Cart Contract Laws CartView Binary64.
Import FloatFacts IntegerFacts CartFacts CartSpec ReducerLaws.

Lemma nan_add_l (a b : float) : is_nan a = true → is_nan (a + b) = true.
Proof. rewrite !is_nan_spec, add_spec. by intros ->. Qed.

Lemma nan_add_r (a b : float) : is_nan b = true → is_nan (a + b) = true.
Proof.
  rewrite !is_nan_spec, add_spec. intros ->.
  by destruct (Prim2SF a).
Qed.

Lemma zero_nonneg (x : float) : is_zero x = true → (0 <=? x)%float = true.
Proof.
  unfold is_zero. rewrite FloatAxioms.eqb_spec, FloatAxioms.leb_spec.
  change (Prim2SF zero) with (S754_zero false). rewrite Prim2SF_zero.
  destruct (Prim2SF x) as [s|s| |s m e]; try destruct s; done.
Qed.

(** A number [>= 0] is finite or [Infinity]. *)
Lemma nonneg_finite_or_infinity (p : float) :
  (0 <=? p)%float = true → is_finite p = true ∨ p = infinity.
Proof.
  rewrite FloatAxioms.leb_spec, is_finite_spec, Prim2SF_zero.
  destruct (Prim2SF p) as [s|s| |s m e] eqn:E; try destruct s; try done; auto.
  intros _. right. apply Prim2SF_inj. by rewrite E.
Qed.

(** What a stored item adds to the total: NaN when its price and its
    quantity are both [Infinity], a number [>= 0] otherwise. *)
Lemma stored_contribution (item : CartItem) :
  stored_item item →
  (unbounded item ∧ is_nan (price_of item * quantity_of item) = true)
  ∨ (¬ unbounded item ∧ (0 <=? price_of item * quantity_of item)%float = true).
Proof.
  intros (_ & _ & (p & Hp & Hp0) & (q & Hq & Hw)). unfold unbounded.
  destruct (whole_cases q Hw) as [-> | (Hfin & Hint & _ & Hone)].
  - destruct (nonneg_finite_or_infinity p Hp0) as [Hpfin | ->].
    + right. split.
      * rewrite Hp. intros [[= ->] _]. done.
      * unfold price_of, quantity_of. rewrite Hp, Hq.
        apply nonneg_iff in Hp0 as [-> _]. cbn [negb].
        rewrite infinity_not_integral. by apply zero_nonneg, finite_mul_zero.
    + left. split; [done |]. unfold price_of, quantity_of. by rewrite Hp, Hq.
  - right. split.
    + rewrite Hq. intros [_ [= ->]]. done.
    + apply priced_item_total. by exists p, q.
Qed.

Lemma fold_stays_nan (l : list CartItem) (acc : float) :
  is_nan acc = true →
  is_nan (fold_left (λ sum item, sum + price_of item * quantity_of item) l acc)%float
  = true.
Proof.
  revert acc. induction l as [|x l IH]; intros acc Hacc; simpl; [done |].
  by apply IH, nan_add_l.
Qed.

Lemma fold_unbounded (l : list CartItem) (acc : float) :
  Exists unbounded l →
  is_nan (fold_left (λ sum item, sum + price_of item * quantity_of item) l acc)%float
  = true.
Proof.
  intros H. revert acc. induction H as [x l [Hp Hq] | x l _ IH]; intros acc; simpl.
  - apply fold_stays_nan, nan_add_r.
    unfold price_of, quantity_of. by rewrite Hp, Hq.
  - apply IH.
Qed.

Lemma fold_bounded (l : list CartItem) (acc : float) :
  Forall stored_item l → Forall (λ item, ¬ unbounded item) l →
  (0 <=? acc)%float = true →
  (0 <=? fold_left (λ sum item, sum + price_of item * quantity_of item) l acc)%float
  = true.
Proof.
  intros H. revert acc. induction H as [|x l Hx _ IH]; intros acc Hb Hacc; simpl.
  - done.
  - apply Forall_cons in Hb as [Hbx Hbl].
    apply IH; [done |]. apply add_nonneg; [done |].
    by destruct (stored_contribution x Hx) as [[? _] | [_ ?]].
Qed.

(** X17: the grand total of a well-formed cart.  If some item has both
    the price [Infinity] and the quantity [Infinity], the total is NaN;
    otherwise it is a number [>= 0], neither NaN nor negative.  In
    particular an item with the quantity [Infinity] and a finite price
    counts for [0], and the total can only be NaN through an item that
    is unbounded in both price and quantity. *)
Theorem total_is_nan_only_for_unbounded_items (state : CartState) :
  cart_invariant state →
  (Exists unbounded (items state) → is_nan (totalPrice (items state)) = true)
  ∧ (Forall (λ item, ¬ unbounded item) (items state) →
     (0 <=? totalPrice (items state))%float = true).
Proof.
  intros (_ & Hall & _). unfold totalPrice. split.
  - apply fold_unbounded.
  - intros Hb. by apply fold_bounded.
Qed.

Lemma endless_gold_invariant : cart_invariant Samples.endless_gold.
Proof.
  split; [split; discriminate |]. split.
  - repeat constructor.
    + exists "gold". split; [reflexivity | discriminate].
    + exists "Gold". split; [reflexivity | discriminate].
    + exists infinity. split; reflexivity.
    + exists infinity. split; [reflexivity |]. by left.
  - change (NoDup [VStr "gold"]). apply NoDup_singleton.
Defined.

Lemma total_is_nan_only_for_unbounded_items_witness :
  is_nan (totalPrice (items Samples.endless_gold)) = true
  ∧ (0 <=? totalPrice (items Samples.milk_and_bread))%float = true.
Proof.
  split.
  - apply (proj1 (total_is_nan_only_for_unbounded_items Samples.endless_gold
                    endless_gold_invariant)).
    left. split; reflexivity.
  - apply (proj2 (total_is_nan_only_for_unbounded_items Samples.milk_and_bread
                    milk_and_bread_invariant)).
    repeat constructor; intros [H _]; discriminate H.
Defined.

End TotalSpec.


(** ** Actions on different products *)

Module Commutation.
Import Cart Contract Laws FloatFacts ArrayFacts CartFacts CartSpec ReducerLaws.

Lemma has_id_after_quantity (productId : string) (x : CartItem) (q : val) :
  has_id productId (with_quantity x q) = has_id productId x.
Proof. unfold has_id, with_quantity. by rewrite get_insert_ne. Qed.

Lemma has_id_exclusive (p1 p2 : string) (x : CartItem) :
  p1 ≠ p2 → has_id p1 x = true → has_id p2 x = false.
Proof.
  intros Hne H1. apply has_id_true in H1.
  destruct (has_id p2 x) eqn:H2; [|done].
  apply has_id_true in H2. congruence.
Qed.

Lemma set_first_absent (productId : string) (q : val) (l : list CartItem) :
  Forall (λ cartItem, has_id productId cartItem = false) l →
  set_first productId q l = l.
Proof. induction 1 as [|x l Hx _ IH]; simpl; [done | by rewrite Hx, IH]. Qed.

Lemma set_first_hit (productId : string) (q : val) (pre post : list CartItem)
    (e : CartItem) :
  Forall (λ cartItem, has_id productId cartItem = false) pre →
  has_id productId e = true →
  set_first productId q (pre ++ e :: post) = pre ++ with_quantity e q :: post.
Proof.
  intros Hpre He. induction Hpre as [|x pre Hx _ IH]; simpl.
  - by rewrite He.
  - by rewrite Hx, IH.
Qed.

Lemma set_first_nil (productId : string) (q : val) (l : list CartItem) :
  (length (set_first productId q l) =? 0)%nat = (length l =? 0)%nat.
Proof. destruct l as [|x l]; simpl; [done |]. by destruct (has_id productId x). Qed.

Lemma others_comm (p1 p2 : string) (l : list CartItem) :
  others p1 (others p2 l) = others p2 (others p1 l).
Proof.
  unfold others. induction l as [|x l IH]; simpl; [done |].
  destruct (has_id p2 x) eqn:E2, (has_id p1 x) eqn:E1; simpl;
    rewrite ?E1, ?E2; simpl; by rewrite ?IH.
Qed.

Lemma others_set_first (p1 p2 : string) (q : val) (l : list CartItem) :
  p1 ≠ p2 →
  others p2 (set_first p1 q l) = set_first p1 q (others p2 l).
Proof.
  intros Hne. unfold others. induction l as [|x l IH]; simpl; [done |].
  destruct (has_id p1 x) eqn:E1.
  - pose proof (has_id_exclusive p1 p2 x Hne E1) as E2.
    simpl. rewrite has_id_after_quantity, E2. simpl. by rewrite E1.
  - simpl. destruct (has_id p2 x) eqn:E2; simpl; [done |].
    by rewrite E1, IH.
Qed.

Lemma set_first_comm (p1 p2 : string) (q1 q2 : val) (l : list CartItem) :
  p1 ≠ p2 →
  set_first p2 q2 (set_first p1 q1 l) = set_first p1 q1 (set_first p2 q2 l).
Proof.
  intros Hne. induction l as [|x l IH]; simpl; [done |].
  destruct (has_id p1 x) eqn:E1.
  - pose proof (has_id_exclusive p1 p2 x Hne E1) as E2.
    rewrite E2. simpl. by rewrite has_id_after_quantity, E2, E1.
  - destruct (has_id p2 x) eqn:E2; simpl.
    + by rewrite E2, has_id_after_quantity, E1.
    + by rewrite E1, E2, IH.
Qed.

Lemma state_eta (state : CartState) :
  {| storeId := storeId state; items := items state |} = state.
Proof. by destruct state. Qed.

(** REMOVE_ITEM and UPDATE_QUANTITY always return, and what they return
    is the effect of the action applied to the state. *)
Lemma dispatch_effect (dev : bool) (state : CartState) (a : Action) :
  type a = VStr "REMOVE_ITEM" ∨ type a = VStr "UPDATE_QUANTITY" →
  dispatch dev state a = Some (apply_effect (effect_of a) state).
Proof.
  intros Ht. unfold effect_of.
  destruct (get_prop (payload a) "productId") as [| | | |p|] eqn:Hp;
    try (unfold dispatch;
         destruct Ht as [Ht | Ht];
         [rewrite remove_rejected by (by rewrite ?Hp)
         |rewrite update_rejected by (by rewrite ?Hp)]; done).
  destruct (String.eqb_spec p "") as [-> | Hne].
  { unfold dispatch. destruct Ht as [Ht | Ht].
    - by rewrite remove_rejected by (by rewrite ?Hp).
    - by rewrite update_rejected by (by rewrite ?Hp). }
  destruct Ht as [Ht | Ht]; rewrite Ht; cbn [strict_eq_str].
  - rewrite String.eqb_refl. unfold dispatch, apply_effect, after_removal.
    rewrite (remove_valid dev state a p) by done. cbn zeta.
    fold (others p (items state)).
    by destruct (length (others p (items state)) =? 0)%nat.
  - replace (String.eqb "UPDATE_QUANTITY" "REMOVE_ITEM") with false by reflexivity.
    destruct (get_prop (payload a) "quantity") as [| | |q| |] eqn:Hq;
      try (unfold dispatch; rewrite update_rejected;
           [done | done
           | rewrite Hp, Hq; unfold invalid_update_quantity;
             cbn [not_a_number]; apply orb_true_r]).
    destruct (is_nan q) eqn:Hnan.
    { unfold dispatch. rewrite update_rejected; [done | done |].
      rewrite Hp, Hq. unfold invalid_update_quantity. cbn [not_a_number].
      by rewrite Hnan, orb_true_r. }
    destruct (Math_floor q <=? 0)%float eqn:Hfloor.
    { unfold dispatch, apply_effect, after_removal.
      rewrite (update_removes dev state a p q) by done. cbn zeta.
      fold (others p (items state)).
      by destruct (length (others p (items state)) =? 0)%nat. }
    unfold dispatch, apply_effect.
    destruct (findIndex_from_cases (has_id p) 0 (items state))
      as [[Habs _] | (pre & e & post & Hitems & Hpre & He & _)].
    + rewrite (update_absent dev state a p q) by done.
      rewrite set_first_absent by done. cbn [snd]. by rewrite state_eta.
    + rewrite (update_existing dev state a p q pre e post) by done.
      by rewrite Hitems, set_first_hit.
Qed.

Lemma effect_of_targets (a : Action) (productId : string) :
  targets a productId →
  effect_product (effect_of a) = None
  ∨ effect_product (effect_of a) = Some productId.
Proof.
  intros [_ Hp]. unfold effect_of. rewrite Hp.
  destruct (String.eqb productId ""); [by left |].
  destruct (strict_eq_str (type a) "REMOVE_ITEM"); [by right |].
  destruct (get_prop (payload a) "quantity"); try (by left).
  destruct (is_nan n); [by left |].
  destruct (Math_floor n <=? 0)%float; by right.
Qed.

Lemma after_removal_items (state : CartState) (rest : list CartItem) :
  items (after_removal state rest) = rest.
Proof. unfold after_removal. by destruct rest. Qed.

Lemma after_removal_twice (state : CartState) (l1 l2 : list CartItem) :
  (l1 = [] → l2 = []) →
  after_removal (after_removal state l1) l2 = after_removal state l2.
Proof.
  intros H. unfold after_removal.
  destruct l1 as [|x1 l1]; simpl.
  - by rewrite H.
  - done.
Qed.

Lemma others_nil (productId : string) : others productId [] = [].
Proof. reflexivity. Qed.

(** Two effects on different products can be applied in either order. *)
Lemma effects_commute (e1 e2 : effect) (p1 p2 : string) (state : CartState) :
  p1 ≠ p2 →
  effect_product e1 = None ∨ effect_product e1 = Some p1 →
  effect_product e2 = None ∨ effect_product e2 = Some p2 →
  apply_effect e2 (apply_effect e1 state) = apply_effect e1 (apply_effect e2 state).
Proof.
  intros Hne H1 H2.
  destruct e1 as [|d1|s1 q1]; [done | |];
    (destruct H1 as [H1 | H1]; [discriminate H1 | injection H1 as ->]);
    (destruct e2 as [|d2|s2 q2]; [done | |]);
    (destruct H2 as [H2 | H2]; [discriminate H2 | injection H2 as ->]);
    cbn [apply_effect].
  - (* removal, removal *)
    rewrite !after_removal_items, (others_comm p2 p1).
    rewrite !after_removal_twice;
      first [done
            | intros E;
              first [by rewrite E
                    | by rewrite (others_comm p1 p2), E
                    | by rewrite (others_comm p2 p1), E]].
  - (* removal, then a new quantity *)
    rewrite after_removal_items. cbn [items storeId].
    rewrite (others_set_first p2 p1) by done.
    unfold after_removal. cbn [storeId items]. rewrite set_first_nil.
    by destruct (others p1 (items state)).
  - (* a new quantity, then removal *)
    rewrite after_removal_items. cbn [items storeId].
    rewrite (others_set_first p1 p2) by done.
    unfold after_removal. cbn [storeId items]. rewrite set_first_nil.
    by destruct (others p2 (items state)).
  - (* two new quantities *)
    cbn [items storeId]. by rewrite (set_first_comm p1 p2).
Qed.

(** X18: removals and quantity updates of different products commute.
    If each of two actions is a REMOVE_ITEM or an UPDATE_QUANTITY,
    with whatever quantity, and their [productId]s are different
    strings, then dispatching them in one order or in the other, from
    any state, gives the same state, and neither order raises. *)
Theorem actions_on_different_products_commute (dev : bool) (state : CartState)
    (a b : Action) (p1 p2 : string) :
  targets a p1 → targets b p2 → p1 ≠ p2 →
  dispatch_all dev state [a; b] = dispatch_all dev state [b; a]
  ∧ ∃ state', dispatch_all dev state [a; b] = Some state'.
Proof.
  intros Ha Hb Hne. cbn [dispatch_all].
  pose proof Ha as [Hta _]. pose proof Hb as [Htb _].
  rewrite (dispatch_effect dev state a Hta), (dispatch_effect dev state b Htb).
  cbv beta iota.
  rewrite (dispatch_effect dev _ a Hta), (dispatch_effect dev _ b Htb).
  cbv beta iota.
  split; [|by eexists].
  f_equal. apply (effects_commute _ _ p1 p2); try done.
  - by apply effect_of_targets.
  - by apply effect_of_targets.
Qed.

Lemma actions_on_different_products_commute_witness :
  dispatch_all true Samples.milk_and_bread
    [UPDATE_QUANTITY (VStr "milk") (VNum 3.5); REMOVE_ITEM (VStr "bread")]
  = dispatch_all true Samples.milk_and_bread
      [REMOVE_ITEM (VStr "bread"); UPDATE_QUANTITY (VStr "milk") (VNum 3.5)]
  ∧ ∃ state',
      dispatch_all true Samples.milk_and_bread
        [UPDATE_QUANTITY (VStr "milk") (VNum 3.5); REMOVE_ITEM (VStr "bread")]
      = Some state'.
Proof.
  apply (actions_on_different_products_commute true Samples.milk_and_bread
           (UPDATE_QUANTITY (VStr "milk") (VNum 3.5)) (REMOVE_ITEM (VStr "bread"))
           "milk" "bread").
  - split; [by right | reflexivity].
  - split; [by left | reflexivity].
  - discriminate.
Defined.

End Commutation.
